(** * Blueprint upload pipeline of the REST service (manager_rest/resources.py)

    A shallow embedding of [BlueprintsUpload] — acquisition of the archive,
    extraction onto the file server, location of the entry definition,
    hand-off to the blueprints manager, permanent placement, plugin
    packaging and relocation of the uploaded archive — over an explicit
    model of the file system the code works on.

    Layout of the development:
    - [Paths]    : path strings, [posixpath.join], [split('/')];
    - [FileSys]  : the file store as a finite map from resolved paths to
                   entries, with the kernel's path resolution;
    - [Py]       : the state-and-exception monad of the embedding and the
                   library calls the source makes ([os], [shutil],
                   [tempfile]);
    - [Upload]   : the methods of [BlueprintsUpload], one definition each;
    - [Serving]  : [BlueprintsIdArchive.get] and [BlueprintsId.delete], on
                   the same store;
    - [Rest]     : the checks of JSON requests, the [_include] filter of
                   [marshal_with] and the handlers that rely on them;
    - the properties of the pipeline, of what is served and deleted after
      it, and of the JSON handlers. *)

From Stdlib Require Import String Ascii List Bool Arith Lia BinInt.
Import ListNotations.

Local Open Scope string_scope.
Local Open Scope list_scope.

(* ================================================================= *)
(** ** Path strings *)

Module Paths.

Definition slash : ascii := "/"%char.

(** [s.split('/')]. *)
Fixpoint split_slash (s : string) : list string :=
  match s with
  | EmptyString => [EmptyString]
  | String c s' =>
      if Ascii.eqb c slash then EmptyString :: split_slash s'
      else match split_slash s' with
           | h :: t => String c h :: t
           | [] => [String c EmptyString]
           end
  end.

(** [s.startswith('/')] and [s.endswith('/')]. *)
Definition starts_with_slash (s : string) : bool :=
  match s with
  | String c _ => Ascii.eqb c slash
  | EmptyString => false
  end.

Fixpoint ends_with_slash (s : string) : bool :=
  match s with
  | EmptyString => false
  | String c EmptyString => Ascii.eqb c slash
  | String _ s' => ends_with_slash s'
  end.

(** [posixpath.join(a, b)]: an absolute [b] discards [a]. *)
Definition path_join (a b : string) : string :=
  if starts_with_slash b then b
  else match a with
       | EmptyString => b
       | _ => if ends_with_slash a then a ++ b else a ++ "/" ++ b
       end.

(** [posixpath.join(a, b, c)]. *)
Definition path_join3 (a b c : string) : string :=
  path_join (path_join a b) c.

Definition path_join4 (a b c d : string) : string :=
  path_join (path_join (path_join a b) c) d.

(** [posixpath.basename(p)]: what follows the last slash. *)
Definition basename (p : string) : string :=
  last (split_slash p) EmptyString.

(** [posixpath.isabs]. *)
Definition isabs (s : string) : bool := starts_with_slash s.

(** Does the character [c] occur in [s]? *)
Fixpoint has_char (c : ascii) (s : string) : bool :=
  match s with
  | EmptyString => false
  | String d s' => Ascii.eqb d c || has_char c s'
  end.

(** A plain name: one path component that the kernel looks up as it is
    (not empty, not [.] or [..], no slash). *)
Definition plain_name (s : string) : bool :=
  negb (String.eqb s EmptyString) && negb (String.eqb s ".")
  && negb (String.eqb s "..") && negb (has_char slash s).

(** The absolute path string made of the components [cs]. *)
Fixpoint abspath (cs : list string) : string :=
  match cs with
  | [] => EmptyString
  | c :: cs' => "/" ++ c ++ abspath cs'
  end.

End Paths.

(* ================================================================= *)
(** ** The file store *)

Module FileSys.
Import Paths.

(** The store is a tree: a regular file with its bytes, or a directory
    with its named entries. *)
#[warnings="-register-all"]
Inductive Node : Type :=
| File (data : string)
| Dir (entries : list (string * Node)).

(** What [stat] tells of an entry. *)
Inductive Kind : Type :=
| KFile (data : string)
| KDir.

Definition kind_of (n : Node) : Kind :=
  match n with
  | File d => KFile d
  | Dir _ => KDir
  end.

(** A fresh entry of a kind: the file with its bytes, the empty
    directory. *)
Definition node_of (k : Kind) : Node :=
  match k with
  | KFile d => File d
  | KDir => Dir []
  end.

(** A resolved path: the names from the root down. *)
Definition Path := list string.

Definition path_eq_dec : forall p q : Path, {p = q} + {p <> q} :=
  list_eq_dec string_dec.

(** The store: the entries of the root directory. *)
Definition FS := list (string * Node).

Fixpoint is_prefix (p q : Path) : bool :=
  match p, q with
  | [], _ => true
  | a :: p', b :: q' => String.eqb a b && is_prefix p' q'
  | _ :: _, [] => false
  end.

Definition parent (p : Path) : Path := removelast p.

(** Entries of a directory by name: the first binding of a name is the
    one in force. *)
Fixpoint assoc (c : string) (es : list (string * Node)) : option Node :=
  match es with
  | [] => None
  | (k, n) :: es' => if String.eqb k c then Some n else assoc c es'
  end.

Definition remove_key (c : string) (es : list (string * Node))
  : list (string * Node) :=
  filter (fun e => negb (String.eqb (fst e) c)) es.

Definition upd (c : string) (n : Node) (es : list (string * Node))
  : list (string * Node) :=
  (c, n) :: remove_key c es.

(** The node a path leads to. *)
Fixpoint get_node (n : Node) (p : Path) : option Node :=
  match p with
  | [] => Some n
  | c :: p' =>
      match n with
      | Dir es =>
          match assoc c es with
          | Some n' => get_node n' p'
          | None => None
          end
      | File _ => None
      end
  end.

(** Put [new] at [p], replacing what is there; the directory that is to
    hold it has to exist. *)
Fixpoint put_node (n : Node) (p : Path) (new : Node) : Node :=
  match p with
  | [] => new
  | c :: p' =>
      match n with
      | Dir es =>
          match p' with
          | [] => Dir (upd c new es)
          | _ =>
              match assoc c es with
              | Some n' => Dir (upd c (put_node n' p' new) es)
              | None => n
              end
          end
      | File _ => n
      end
  end.

(** Take [p] and all below it out. *)
Fixpoint del_node (n : Node) (p : Path) : Node :=
  match p with
  | [] => n
  | c :: p' =>
      match n with
      | Dir es =>
          match p' with
          | [] => Dir (remove_key c es)
          | _ =>
              match assoc c es with
              | Some n' => Dir (upd c (del_node n' p') es)
              | None => n
              end
          end
      | File _ => n
      end
  end.

Definition entries_of (n : Node) : list (string * Node) :=
  match n with
  | Dir es => es
  | File _ => []
  end.

Definition get (m : FS) (p : Path) : option Node := get_node (Dir m) p.

Definition stat (m : FS) (p : Path) : option Kind :=
  option_map kind_of (get m p).

(** Bind [p] to a fresh entry of kind [k]. *)
Definition fs_set (p : Path) (k : Kind) (m : FS) : FS :=
  match p with
  | [] => m
  | _ => entries_of (put_node (Dir m) p (node_of k))
  end.

(** Remove the file at [p]. *)
Definition fs_unlink (p : Path) (m : FS) : FS :=
  entries_of (del_node (Dir m) p).

(** Remove [p] and everything below it; at the root, everything goes. *)
Definition fs_rmtree (p : Path) (m : FS) : FS :=
  match p with
  | [] => []
  | _ => entries_of (del_node (Dir m) p)
  end.

(** Rename the subtree at [src] to [dst]; what was at [dst] is replaced. *)
Definition fs_rename (src dst : Path) (m : FS) : FS :=
  match get m src, src, dst with
  | Some n, _ :: _, _ :: _ =>
      entries_of (put_node (del_node (Dir m) src) dst n)
  | _, _, _ => m
  end.

(** The names bound directly under [p]. *)
Definition fs_listdir (p : Path) (m : FS) : list string :=
  match get m p with
  | Some (Dir es) => nodup string_dec (map fst es)
  | _ => []
  end.

(** Is anything bound below [p]? *)
Definition has_descendant (p : Path) (m : FS) : bool :=
  match get m p with
  | Some (Dir (_ :: _)) => true
  | _ => false
  end.

(** All that a node holds, each entry with the names leading to it; a
    directory comes before what is in it. *)
Fixpoint flatten (n : Node) : list (list string * Kind) :=
  match n with
  | File d => [([], KFile d)]
  | Dir es =>
      ([], KDir)
      :: (fix go (l : list (string * Node)) : list (list string * Kind) :=
            match l with
            | [] => []
            | (c, n') :: l' =>
                map (fun e => (c :: fst e, snd e)) (flatten n') ++ go l'
            end) es
  end.

(** The entries below [p], relative to [p] (what [copytree] copies). *)
Definition entries_under (p : Path) (m : FS) : list (list string * Kind) :=
  match get m p with
  | Some n => tl (flatten n)
  | None => []
  end.

(** The regular files below [p], each with the names leading to it from
    [p] (what [os.walk] visits). *)
Fixpoint files_of (es : list (list string * Kind)) : list (list string * string) :=
  match es with
  | [] => []
  | (rel, KFile d) :: es' => (rel, d) :: files_of es'
  | (_, KDir) :: es' => files_of es'
  end.

Definition files_under (p : Path) (m : FS) : list (list string * string) :=
  files_of (entries_under p m).

(** *** Path resolution

    The kernel walks a path string component by component: an empty
    component or [.] stays in the current directory, [..] goes to its
    parent (the root is its own parent); both need the current path to be
    a directory. Other names are appended; whether they exist is for the
    caller's [stat]. Relative strings are resolved from the root (the
    service is configured with absolute paths). *)
Definition is_cur (c : string) : bool :=
  String.eqb c EmptyString || String.eqb c ".".

Fixpoint walk (m : FS) (cur : Path) (cs : list string) : option Path :=
  match cs with
  | [] => Some cur
  | c :: cs' =>
      if is_cur c then
        match stat m cur with
        | Some KDir => walk m cur cs'
        | _ => None
        end
      else if String.eqb c ".." then
        match stat m cur with
        | Some KDir => walk m (parent cur) cs'
        | _ => None
        end
      else walk m (cur ++ [c]) cs'
  end.

Definition resolve (m : FS) (s : string) : option Path :=
  match s with
  | EmptyString => None
  | _ => walk m [] (split_slash s)
  end.

(** [os.path.exists], [os.path.isdir], [os.path.isfile]. *)
Definition lstat (m : FS) (s : string) : option Kind :=
  match resolve m s with
  | Some p => stat m p
  | None => None
  end.

Definition path_exists (m : FS) (s : string) : bool :=
  match lstat m s with Some _ => true | None => false end.

Definition path_isdir (m : FS) (s : string) : bool :=
  match lstat m s with Some KDir => true | _ => false end.

Definition path_isfile (m : FS) (s : string) : bool :=
  match lstat m s with Some (KFile _) => true | _ => false end.

End FileSys.

(* ================================================================= *)
(** ** Exceptions, the world, and the library calls of the source *)

Module Py.
Import Paths FileSys.

(** The exceptions the pipeline raises or lets through. [OSError] and
    [IOError] carry the errno name. *)
Inductive Exn : Type :=
| BadParametersError (msg : string)
| ParamUrlNotFoundError (msg : string)
| InvalidBlueprintError (msg : string)
| RuntimeError (msg : string)
| OSError (errno : string)
| IOError (errno : string)
| ShutilError (msg : string)
| UnicodeDecodeError
| UnrecognizedFormat
| DslParseException (message : string)
| OtherError (name : string).

(** The class of an exception: what a caller sees as its kind. *)
Definition class_name (e : Exn) : string :=
  match e with
  | BadParametersError _ => "BadParametersError"
  | ParamUrlNotFoundError _ => "ParamUrlNotFoundError"
  | InvalidBlueprintError _ => "InvalidBlueprintError"
  | RuntimeError _ => "RuntimeError"
  | OSError _ => "OSError"
  | IOError _ => "IOError"
  | ShutilError _ => "shutil.Error"
  | UnicodeDecodeError => "UnicodeDecodeError"
  | UnrecognizedFormat => "UnrecognizedFormat"
  | DslParseException _ => "DslParseException"
  | OtherError name => name
  end.

(** What an action did to the world: a mutation of the store (with the
    resolved paths it touched) or a call to a collaborator. *)
Inductive Event : Type :=
| EvCreate (p : Path)
| EvWrite (p : Path)
| EvUnlink (p : Path)
| EvMkdir (p : Path)
| EvRename (src dst : Path)
| EvRmtree (p : Path)
| EvUnpack (p : Path)
| EvCopy (p : Path)
| EvUrlOpen (url : string)
| EvPublish (dsl_path resources_base blueprint_id : string).

(** The world: the store as it is now, and every event so far with the
    store as it was right after it (latest first). The stores of the
    history are the observable points of a run. *)
Record World : Type := mkWorld {
  fs : FS;
  history : list (Event * FS)
}.

Inductive Outcome (A : Type) : Type :=
| Ok (a : A)
| Raise (e : Exn).
Arguments Ok {A} a.
Arguments Raise {A} e.

Definition M (A : Type) : Type := World -> Outcome A * World.

Definition ret {A} (a : A) : M A := fun w => (Ok a, w).

Definition raise {A} (e : Exn) : M A := fun w => (Raise e, w).

Definition bind {A B} (m : M A) (k : A -> M B) : M B :=
  fun w => match m w with
           | (Ok a, w') => k a w'
           | (Raise e, w') => (Raise e, w')
           end.

Declare Scope py_scope.
Delimit Scope py_scope with py.
Notation "x <- m ;; k" := (bind m (fun x => k))
  (at level 61, m at next level, right associativity) : py_scope.
Notation "m ;;; k" := (bind m (fun _ => k))
  (at level 61, right associativity) : py_scope.
Local Open Scope py_scope.

Definition get_fs : M FS := fun w => (Ok (fs w), w).

(** Record an event together with the store it leaves. *)
Definition commit (ev : Event) (m' : FS) : M unit :=
  fun w => (Ok tt, {| fs := m'; history := (ev, m') :: history w |}).

(** A call to a collaborator leaves the store as it is. *)
Definition call_out (ev : Event) : M unit :=
  fun w => (Ok tt, {| fs := fs w; history := (ev, fs w) :: history w |}).

(** [try: body finally: fin] — an exception of [fin] replaces the outcome
    of [body]. *)
Definition try_finally {A} (body : M A) (fin : M unit) : M A :=
  fun w => match body w with
           | (r, w1) =>
               match fin w1 with
               | (Ok _, w2) => (r, w2)
               | (Raise e, w2) => (Raise e, w2)
               end
           end.

(** [try: body except ...: handler] — [handler e] is [None] for the
    exceptions no clause catches. *)
Definition try_except {A} (body : M A) (handler : Exn -> option (M A)) : M A :=
  fun w => match body w with
           | (Ok a, w1) => (Ok a, w1)
           | (Raise e, w1) =>
               match handler e with
               | Some h => h w1
               | None => (Raise e, w1)
               end
           end.

Fixpoint for_each {A} (l : list A) (body : A -> M unit) : M unit :=
  match l with
  | [] => ret tt
  | a :: l' => body a ;;; for_each l' body
  end.

(** *** [os.path] *)

Definition os_path_exists (s : string) : M bool :=
  fun w => (Ok (path_exists (fs w) s), w).

Definition os_path_isdir (s : string) : M bool :=
  fun w => (Ok (path_isdir (fs w) s), w).

Definition os_path_isfile (s : string) : M bool :=
  fun w => (Ok (path_isfile (fs w) s), w).

(** *** [open(s, 'w')], [f.write], [os.remove], [os.listdir] *)

(** Creates or truncates the file; the handle is its resolved path. *)
Definition open_w (s : string) : M Path :=
  m <- get_fs ;;
  match resolve m s with
  | None => raise (IOError "ENOENT")
  | Some [] => raise (IOError "EISDIR")
  | Some p =>
      match stat m p, stat m (parent p) with
      | Some KDir, _ => raise (IOError "EISDIR")
      | _, Some KDir => commit (EvCreate p) (fs_set p (KFile EmptyString) m) ;;; ret p
      | _, Some (KFile _) => raise (IOError "ENOTDIR")
      | _, None => raise (IOError "ENOENT")
      end
  end.

(** Appends to the open file (a handle whose file is gone writes to
    nothing the store shows). *)
Definition file_write (h : Path) (d : string) : M unit :=
  m <- get_fs ;;
  match stat m h with
  | Some (KFile old) => commit (EvWrite h) (fs_set h (KFile (old ++ d)) m)
  | _ => ret tt
  end.

Definition os_remove (s : string) : M unit :=
  m <- get_fs ;;
  match resolve m s with
  | None => raise (OSError "ENOENT")
  | Some p =>
      match p, stat m p with
      | _ :: _, Some (KFile _) => commit (EvUnlink p) (fs_unlink p m)
      | _, Some KDir => raise (OSError "EISDIR")
      | _, _ => raise (OSError "ENOENT")
      end
  end.

Definition os_listdir (s : string) : M (list string) :=
  m <- get_fs ;;
  match resolve m s with
  | None => raise (OSError "ENOENT")
  | Some p =>
      match stat m p with
      | Some KDir => ret (fs_listdir p m)
      | Some (KFile _) => raise (OSError "ENOTDIR")
      | None => raise (OSError "ENOENT")
      end
  end.

(** *** [os.mkdir], [os.makedirs] *)

(** [e.errno == errno.EEXIST] on an [OSError]. *)
Definition is_eexist (e : Exn) : bool :=
  match e with
  | OSError errno => String.eqb errno "EEXIST"
  | _ => false
  end.

Definition mkdir_at (p : Path) : M unit :=
  m <- get_fs ;;
  match p with
  | [] => raise (OSError "EEXIST")
  | _ =>
      match stat m p, stat m (parent p) with
      | Some _, _ => raise (OSError "EEXIST")
      | None, Some KDir => commit (EvMkdir p) (fs_set p KDir m)
      | None, Some (KFile _) => raise (OSError "ENOTDIR")
      | None, None => raise (OSError "ENOENT")
      end
  end.

Definition os_mkdir (s : string) : M unit :=
  m <- get_fs ;;
  match resolve m s with
  | None => raise (OSError "ENOENT")
  | Some p => mkdir_at p
  end.

(** [os.makedirs(name)]: when the head does not exist, make it first
    (ignoring EEXIST), then [mkdir(name)]. The path is given leaf
    first. *)
Fixpoint makedirs_rev (rp : list string) : M unit :=
  match rp with
  | [] => raise (OSError "EEXIST")
  | _ :: rhead =>
      m <- get_fs ;;
      (match stat m (rev rhead) with
       | Some _ => ret tt
       | None =>
           try_except (makedirs_rev rhead)
             (fun e => if is_eexist e then Some (ret tt) else None)
       end) ;;;
      mkdir_at (rev rp)
  end.

Definition os_makedirs (s : string) : M unit :=
  m <- get_fs ;;
  match resolve m s with
  | None => raise (OSError "ENOENT")
  | Some p => makedirs_rev (rev p)
  end.

(** *** [os.rename] *)

Definition rename_at (src dst : Path) : M unit :=
  m <- get_fs ;;
  match src, dst, stat m src with
  | [], _, _ => raise (OSError "EBUSY")
  | _, [], _ => raise (OSError "EBUSY")
  | _, _, None => raise (OSError "ENOENT")
  | _, _, Some k =>
      if path_eq_dec src dst then ret tt
      else
        match stat m (parent dst) with
        | None => raise (OSError "ENOENT")
        | Some (KFile _) => raise (OSError "ENOTDIR")
        | Some KDir =>
            if is_prefix src dst then raise (OSError "EINVAL")
            else
              match k, stat m dst with
              | KDir, Some (KFile _) => raise (OSError "ENOTDIR")
              | KDir, Some KDir =>
                  if has_descendant dst m then raise (OSError "ENOTEMPTY")
                  else commit (EvRename src dst) (fs_rename src dst m)
              | KFile _, Some KDir => raise (OSError "EISDIR")
              | _, _ => commit (EvRename src dst) (fs_rename src dst m)
              end
        end
  end.

Definition os_rename (src dst : string) : M unit :=
  m <- get_fs ;;
  match resolve m src, resolve m dst with
  | Some ps, Some pd => rename_at ps pd
  | _, _ => raise (OSError "ENOENT")
  end.

(** *** [shutil.rmtree], [shutil.move] *)

Definition shutil_rmtree (s : string) : M unit :=
  m <- get_fs ;;
  match resolve m s with
  | None => raise (OSError "ENOENT")
  | Some p =>
      match stat m p with
      | Some KDir =>
          commit (EvRmtree p) (fs_rmtree p m) ;;;
          match p with
          | [] => raise (OSError "EBUSY")
          | _ => ret tt
          end
      | Some (KFile _) => raise (OSError "ENOTDIR")
      | None => raise (OSError "ENOENT")
      end
  end.

(** [s.rstrip('/')]. *)
Fixpoint rstrip_slash (s : string) : string :=
  match s with
  | EmptyString => EmptyString
  | String c s' =>
      match rstrip_slash s' with
      | EmptyString => if Ascii.eqb c slash then EmptyString
                       else String c EmptyString
      | r => String c r
      end
  end.

(** [shutil.copytree(src, dst)] as [shutil.move] falls back on it: make
    [dst], then copy what is below [src] entry by entry. *)
Definition copytree (src : Path) (dst : string) : M unit :=
  m <- get_fs ;;
  os_makedirs dst ;;;
  m1 <- get_fs ;;
  match resolve m1 dst with
  | None => raise (OSError "ENOENT")
  | Some pd =>
      for_each (entries_under src m)
        (fun e => m2 <- get_fs ;;
                  commit (EvCopy (pd ++ fst e)) (fs_set (pd ++ fst e) (snd e) m2))
  end.

(** [shutil.move(src, dst)]: into [dst] when that is a directory; by
    [os.rename], and by copy and delete when the rename fails. *)
Definition shutil_move (src dst : string) : M unit :=
  m <- get_fs ;;
  let into := path_isdir m dst in
  let same := match resolve m src, resolve m dst with
              | Some ps, Some pd =>
                  if path_eq_dec ps pd then path_exists m src else false
              | _, _ => false
              end in
  if into && same then os_rename src dst
  else
    let real_dst := if into then path_join dst (basename (rstrip_slash src))
                    else dst in
    if into && path_exists m real_dst
    then raise (ShutilError "Destination path already exists")
    else
      try_except (os_rename src real_dst)
        (fun e =>
           match e with
           | OSError _ =>
               Some (match resolve m src with
                     | Some ps =>
                         if path_isdir m src then
                           if match resolve m dst with
                              | Some pd => is_prefix ps pd
                              | None => false
                              end
                           then raise (ShutilError "Cannot move a directory into itself")
                           else copytree ps real_dst ;;; shutil_rmtree src
                         else raise (IOError "ENOENT")
                     | None => raise (IOError "ENOENT")
                     end)
           | _ => None
           end).

(** *** [tempfile] *)

(** [prefix + name + suffix], with the default prefix [tmp]. *)
Definition temp_name (name suffix : string) : string :=
  "tmp" ++ name ++ suffix.

(** [tempfile.mktemp(dir=d)]: the first candidate name that does not
    exist; nothing is created. *)
Fixpoint mktemp_from (d : string) (names : list string) : M string :=
  match names with
  | [] => raise (IOError "EEXIST")
  | n :: names' =>
      let file := path_join d (temp_name n EmptyString) in
      b <- os_path_exists file ;;
      if b then mktemp_from d names' else ret file
  end.

(** [tempfile.mkdtemp(suffix)]: the first candidate name whose [mkdir]
    does not fail with EEXIST. *)
Fixpoint mkdtemp_from (d suffix : string) (names : list string) : M string :=
  match names with
  | [] => raise (IOError "EEXIST")
  | n :: names' =>
      let file := path_join d (temp_name n suffix) in
      try_except (os_mkdir file ;;; ret file)
        (fun e => if is_eexist e then Some (mkdtemp_from d suffix names')
                  else None)
  end.

(** *** [setuptools.archive_util.unpack_archive] *)

(** One member of an archive goes to [base/rel]: the directories on the
    way are made when missing; [None] when a file is in the way. *)
Fixpoint ensure_dirs (cur : Path) (rel : list string) (m : FS) : option FS :=
  match rel with
  | [] => Some m
  | c :: rel' =>
      match stat m (cur ++ [c]) with
      | Some KDir => ensure_dirs (cur ++ [c]) rel' m
      | Some (KFile _) => None
      | None => ensure_dirs (cur ++ [c]) rel' (fs_set (cur ++ [c]) KDir m)
      end
  end.

Definition install_member (base : Path) (mem : list string * Kind) (m : FS)
  : option FS :=
  match ensure_dirs base (removelast (fst mem)) m with
  | None => None
  | Some m1 =>
      match snd mem, stat m1 (base ++ fst mem) with
      | KDir, Some (KFile _) => None
      | KDir, Some KDir => Some m1
      | KFile _, Some KDir => None
      | k, _ => Some (fs_set (base ++ fst mem) k m1)
      end
  end.

(** Members with an empty name or a component that is not a plain name
    are skipped, as the drivers do. *)
Definition member_ok (mem : list string * Kind) : bool :=
  match fst mem with
  | [] => false
  | rel => forallb plain_name rel
  end.

Definition unpack_members (base : Path) (mems : list (list string * Kind))
  : M unit :=
  for_each (filter member_ok mems)
    (fun mem => m <- get_fs ;;
                match install_member base mem m with
                | Some m' => commit (EvUnpack (base ++ fst mem)) m'
                | None => raise (IOError "EEXIST")
                end).

End Py.

(* ================================================================= *)
(** ** The upload pipeline *)

Module Upload.
Import Paths FileSys Py.
Local Open Scope string_scope.
Local Open Scope py_scope.

(** [config.instance()]. *)
Record Config : Type := mkConfig {
  file_server_root : string;
  file_server_base_uri : string;
  file_server_blueprints_folder : string;
  file_server_uploaded_blueprints_folder : string
}.

(** The flask [request] the methods read. *)
Record Request : Type := mkRequest {
  args : list (string * string);
  data : string;
  headers : list (string * string);
  input_stream : string
}.

(** The blueprint record [publish_blueprint] returns. *)
Record Blueprint : Type := mkBlueprint {
  id : string
}.

Inductive UrlResult : Type :=
| UrlBody (bytes : string)
| UrlURLError
| UrlValueError.

(** The collaborators of the pipeline, outside this file of the source:
    the random names of [tempfile] and [uuid], [urlopen],
    [chunked.decode], the archive drivers of setuptools,
    [archiving.get_archive_type], the blueprints manager with the DSL
    parser behind it, the UTF-8 codec and the zip encoder. *)
Record Externals : Type := mkExternals {
  gettempdir : string;
  mktemp_names : list string;
  mkdtemp_names : list string;
  uuid4 : string;
  urlopen : string -> UrlResult;
  chunked_decode : string -> list string;
  decode_archive : string -> option (list (list string * Kind));
  get_archive_type : string -> Outcome string;
  publish_blueprint : string -> string -> string -> Outcome Blueprint;
  utf8_decode : string -> option string;
  zip_bytes : list (string * string) -> string
}.

Definition CONVENTION_APPLICATION_BLUEPRINT_FILE : string := "blueprint.yaml".

Definition SUPPORTED_ARCHIVE_TYPES : list string :=
  ["zip"; "tar"; "tar.gz"; "tar.bz2"].

(** [key in d] and [d[key]] on a multi-dict. *)
Definition has_key (key : string) (d : list (string * string)) : bool :=
  existsb (fun kv => String.eqb (fst kv) key) d.

Fixpoint get_key (key : string) (d : list (string * string)) : string :=
  match d with
  | [] => EmptyString
  | (k, v) :: d' => if String.eqb k key then v else get_key key d'
  end.

(** [name in request.headers]: header names match whatever their case. *)
Definition lower (c : ascii) : ascii :=
  let n := nat_of_ascii c in
  if Nat.leb 65 n && Nat.leb n 90 then ascii_of_nat (n + 32) else c.

Fixpoint lower_string (s : string) : string :=
  match s with
  | EmptyString => EmptyString
  | String c s' => String (lower c) (lower_string s')
  end.

Definition has_header (name : string) (d : list (string * string)) : bool :=
  existsb (fun kv => String.eqb (lower_string (fst kv)) (lower_string name)) d.

(** A non-empty string is true. *)
Definition truthy (s : string) : bool :=
  match s with EmptyString => false | _ => true end.

(** [urllib.unquote]. *)
Definition hex_digit (c : ascii) : option nat :=
  let n := nat_of_ascii c in
  if Nat.leb 48 n && Nat.leb n 57 then Some (n - 48)
  else if Nat.leb 65 n && Nat.leb n 70 then Some (n - 55)
  else if Nat.leb 97 n && Nat.leb n 102 then Some (n - 87)
  else None.

Fixpoint unquote (s : string) : string :=
  match s with
  | EmptyString => EmptyString
  | String c s' =>
      if Ascii.eqb c "%"%char then
        match s' with
        | String a (String b rest) =>
            match hex_digit a, hex_digit b with
            | Some x, Some y => String (ascii_of_nat (16 * x + y)) (unquote rest)
            | _, _ => String c (unquote s')
            end
        | _ => String c (unquote s')
        end
      else String c (unquote s')
  end.

(** The messages of the source. *)
Definition MSG_BOTH : string :=
  "Can't pass both a blueprint URL via query parameters and blueprint data via the request body at the same time".

Definition dquote : string := String (ascii_of_nat 34) EmptyString.

Definition MSG_MISSING : string :=
  "Missing application archive in request body or " ++ dquote
  ++ "blueprint_archive_url" ++ dquote ++ " in query parameters".

Definition MSG_ONE_DIR : string := "archive must contain exactly 1 directory".

Section Methods.

Variable cfg : Config.
Variable ext : Externals.
Variable req : Request.

(** [BlueprintsUpload._save_file_locally] *)
Definition _save_file_locally (archive_file_name : string) : M unit :=
  if has_key "blueprint_archive_url" (args req) then
    if truthy (data req) || has_header "Transfer-Encoding" (headers req) then
      raise (BadParametersError MSG_BOTH)
    else
      let blueprint_url := get_key "blueprint_archive_url" (args req) in
      call_out (EvUrlOpen blueprint_url) ;;;
      match urlopen ext blueprint_url with
      | UrlBody bytes =>
          f <- open_w archive_file_name ;;
          file_write f bytes
      | UrlURLError =>
          raise (ParamUrlNotFoundError
                   ("URL " ++ blueprint_url
                    ++ " not found - can't download blueprint archive"))
      | UrlValueError =>
          raise (BadParametersError
                   ("URL " ++ blueprint_url
                    ++ " is malformed - can't download blueprint archive"))
      end
  else if has_header "Transfer-Encoding" (headers req) then
    f <- open_w archive_file_name ;;
    for_each (chunked_decode ext (input_stream req)) (file_write f)
  else if negb (truthy (data req)) then
    raise (BadParametersError MSG_MISSING)
  else
    let uploaded_file_data := data req in
    f <- open_w archive_file_name ;;
    file_write f uploaded_file_data.

(** [archive_util.unpack_archive(filename, extract_dir)]: a directory
    is copied, a file goes to the archive drivers. *)
Definition unpack_archive (filename extract_dir : string) : M unit :=
  m <- get_fs ;;
  match resolve m extract_dir with
  | None => raise (OSError "ENOENT")
  | Some base =>
      match resolve m filename, lstat m filename with
      | Some p, Some KDir => unpack_members base (entries_under p m)
      | _, Some (KFile bytes) =>
          match decode_archive ext bytes with
          | Some mems => unpack_members base mems
          | None => raise UnrecognizedFormat
          end
      | _, _ => raise UnrecognizedFormat
      end
  end.

(** The [try] body of [_extract_file_to_file_server]. *)
Definition extract_body
    (file_server_root archive_target_path tempdir : string) : M string :=
  try_except (unpack_archive archive_target_path tempdir)
    (fun e => match e with
              | UnrecognizedFormat =>
                  Some (raise (BadParametersError
                          "Blueprint archive is of an unrecognized format. Supported formats are: ['zip', 'tar', 'tar.gz', 'tar.bz2']"))
              | _ => None
              end) ;;;
  archive_file_list <- os_listdir tempdir ;;
  bad <- (if negb (Nat.eqb (length archive_file_list) 1) then ret true
          else b <- os_path_isdir
                      (path_join tempdir (nth 0 archive_file_list EmptyString)) ;;
               ret (negb b)) ;;
  if bad : bool then raise (BadParametersError MSG_ONE_DIR)
  else
    let application_dir_base_name := nth 0 archive_file_list EmptyString in
    let generated_app_dir_name :=
      application_dir_base_name ++ "-" ++ uuid4 ext in
    let temp_application_dir :=
      path_join tempdir application_dir_base_name in
    let temp_application_target_dir :=
      path_join tempdir generated_app_dir_name in
    shutil_move temp_application_dir temp_application_target_dir ;;;
    shutil_move temp_application_target_dir file_server_root ;;;
    ret generated_app_dir_name.

(** [BlueprintsUpload._extract_file_to_file_server] *)
Definition _extract_file_to_file_server
    (file_server_root archive_target_path : string) : M string :=
  tempdir <- mkdtemp_from (gettempdir ext) "-blueprint-submit"
                          (mkdtemp_names ext) ;;
  try_finally
    (extract_body file_server_root archive_target_path tempdir)
    (shutil_rmtree tempdir).

(** [BlueprintsUpload._extract_application_file] *)
Definition _extract_application_file
    (file_server_root application_dir : string) : M string :=
  let full_application_dir := path_join file_server_root application_dir in
  application_file_name <-
    (if has_key "application_file_name" (args req) then
       match utf8_decode ext
               (unquote (get_key "application_file_name" (args req))) with
       | None => raise UnicodeDecodeError
       | Some application_file_name =>
           let application_file :=
             path_join full_application_dir application_file_name in
           b <- os_path_isfile application_file ;;
           if negb b then
             raise (BadParametersError
                      (application_file_name
                       ++ " does not exist in the application directory"))
           else ret application_file_name
       end
     else
       let application_file_name := CONVENTION_APPLICATION_BLUEPRINT_FILE in
       let application_file :=
         path_join full_application_dir application_file_name in
       b <- os_path_isfile application_file ;;
       if negb b then
         raise (BadParametersError
                  "application directory is missing blueprint.yaml and application_file_name query parameter was not passed")
       else ret application_file_name) ;;
  ret (path_join application_dir application_file_name).

(** [BlueprintsUpload._zip_dir]: the zip is opened for writing, the
    files below [dir_to_zip] go in under names that start at its base
    name, and closing writes the archive out. *)
Definition _zip_dir (dir_to_zip target_zip_path : string) : M unit :=
  zipf <- open_w target_zip_path ;;
  m <- get_fs ;;
  let plugin_dir_base_name := basename dir_to_zip in
  let rootlen := String.length dir_to_zip - String.length plugin_dir_base_name in
  let walked :=
    match resolve m dir_to_zip with
    | Some p => files_under p m
    | None => []
    end in
  let written :=
    map (fun f =>
           let fn := fold_left path_join (fst f) dir_to_zip in
           (substring rootlen (String.length fn - rootlen) fn, snd f))
        walked in
  file_write zipf (zip_bytes ext written).

(** [BlueprintsUpload._process_plugins] *)
Definition _process_plugins (file_server_root blueprint_id : string) : M unit :=
  let plugins_directory :=
    path_join4 file_server_root "blueprints" blueprint_id "plugins" in
  isd <- os_path_isdir plugins_directory ;;
  if negb isd then ret tt
  else
    names <- os_listdir plugins_directory ;;
    m <- get_fs ;;
    let plugins :=
      map (path_join plugins_directory)
          (filter (fun directory =>
                     path_isdir m (path_join plugins_directory directory))
                  names) in
    for_each plugins
      (fun plugin_dir =>
         let final_zip_name := basename plugin_dir ++ ".zip" in
         let target_zip_path :=
           path_join (path_join4 file_server_root "blueprints" blueprint_id
                                 "plugins") final_zip_name in
         _zip_dir plugin_dir target_zip_path).

(** [get_blueprints_manager().publish_blueprint]. *)
Definition publish (dsl_path resources_base blueprint_id : string)
  : M Blueprint :=
  call_out (EvPublish dsl_path resources_base blueprint_id) ;;;
  match publish_blueprint ext dsl_path resources_base blueprint_id with
  | Ok b => ret b
  | Raise e => raise e
  end.

(** [BlueprintsUpload._prepare_and_submit_blueprint] *)
Definition _prepare_and_submit_blueprint
    (file_server_root application_dir blueprint_id : string) : M Blueprint :=
  application_file <-
    _extract_application_file file_server_root application_dir ;;
  let file_server_base_url := file_server_base_uri cfg in
  let dsl_path := file_server_base_url ++ "/" ++ application_file in
  let resources_base := file_server_base_url ++ "/" in
  try_except
    (blueprint <- publish dsl_path resources_base blueprint_id ;;
     shutil_move (path_join file_server_root application_dir)
                 (path_join3 file_server_root
                             (file_server_blueprints_folder cfg)
                             (id blueprint)) ;;;
     _process_plugins file_server_root (id blueprint) ;;;
     ret blueprint)
    (fun e => match e with
              | DslParseException message =>
                  Some (shutil_rmtree
                          (path_join file_server_root application_dir) ;;;
                        raise (InvalidBlueprintError
                                 ("Invalid blueprint - " ++ message)))
              | _ => None
              end).

(** [archiving.get_archive_type(archive_path)] reads the file. *)
Definition archiving_get_archive_type (archive_path : string) : M string :=
  m <- get_fs ;;
  match lstat m archive_path with
  | Some (KFile bytes) =>
      match get_archive_type ext bytes with
      | Ok t => ret t
      | Raise e => raise e
      end
  | Some KDir => raise (IOError "EISDIR")
  | None => raise (IOError "ENOENT")
  end.

(** [BlueprintsUpload._move_archive_to_uploaded_blueprints_dir] *)
Definition _move_archive_to_uploaded_blueprints_dir
    (blueprint_id file_server_root archive_path : string) : M unit :=
  b <- os_path_exists archive_path ;;
  if negb b then
    raise (RuntimeError
             ("Archive [" ++ archive_path
              ++ "] doesn't exist - Cannot move archive to uploaded blueprints directory"))
  else
    let uploaded_blueprint_dir :=
      path_join3 file_server_root
                 (file_server_uploaded_blueprints_folder cfg)
                 blueprint_id in
    os_makedirs uploaded_blueprint_dir ;;;
    archive_type <- archiving_get_archive_type archive_path ;;
    let archive_file_name := blueprint_id ++ "." ++ archive_type in
    shutil_move archive_path
                (path_join uploaded_blueprint_dir archive_file_name).

(** The [finally] clause of [do_request]. *)
Definition remove_if_exists (archive_target_path : string) : M unit :=
  b <- os_path_exists archive_target_path ;;
  if b then os_remove archive_target_path else ret tt.

(** The [try] body of [do_request]. *)
Definition do_request_body (file_server_root archive_target_path
                            blueprint_id : string) : M (Blueprint * nat) :=
  _save_file_locally archive_target_path ;;;
  application_dir <-
    _extract_file_to_file_server file_server_root archive_target_path ;;
  blueprint <-
    _prepare_and_submit_blueprint file_server_root application_dir
                                  blueprint_id ;;
  _move_archive_to_uploaded_blueprints_dir (id blueprint) file_server_root
                                           archive_target_path ;;;
  ret (blueprint, 201).

(** [BlueprintsUpload.do_request] *)
Definition do_request (blueprint_id : string) : M (Blueprint * nat) :=
  let file_server_root := file_server_root cfg in
  archive_target_path <- mktemp_from file_server_root (mktemp_names ext) ;;
  try_finally
    (do_request_body file_server_root archive_target_path blueprint_id)
    (remove_if_exists archive_target_path).

End Methods.

End Upload.

(* ================================================================= *)
(** ** Serving and deleting what was uploaded *)

Module Serving.
Import Paths FileSys Py Upload.
Local Open Scope string_scope.
Local Open Scope py_scope.

(** The value of a response header as the handler assigns it: a string,
    or the integer [os.path.getsize] returns. *)
Inductive HeaderValue : Type :=
| HStr (s : string)
| HInt (n : nat).

(** A flask response, as far as the handlers set it. *)
Record Response : Type := mkResponse {
  response_headers : list (string * HeaderValue)
}.

(** Header names match whatever their case. *)
Definition same_header (a b : string) : bool :=
  String.eqb (lower_string a) (lower_string b).

(** [headers[name] = value]: the first header of that name is replaced
    and every later one of that name dropped; a new name goes to the
    end. *)
Fixpoint set_header (name : string) (value : HeaderValue)
    (hs : list (string * HeaderValue)) : list (string * HeaderValue) :=
  match hs with
  | [] => [(name, value)]
  | (k, v) :: hs' =>
      if same_header k name
      then (name, value)
             :: filter (fun kv => negb (same_header (fst kv) name)) hs'
      else (k, v) :: set_header name value hs'
  end.

(** [headers.get(name)]. *)
Fixpoint get_header (name : string) (hs : list (string * HeaderValue))
  : option HeaderValue :=
  match hs with
  | [] => None
  | (k, v) :: hs' => if same_header k name then Some v else get_header name hs'
  end.

(** The collaborators of the two handlers: the blueprints manager, the
    headers [flask.make_response()] starts from, and the size the
    kernel reports for a directory. *)
Record Collaborators : Type := mkCollaborators {
  get_blueprint : string -> Outcome Blueprint;
  delete_blueprint : string -> Outcome Blueprint;
  make_response : list (string * HeaderValue);
  directory_st_size : nat
}.

Section Handlers.

Variable cfg : Config.
(** [config.instance().file_server_resources_uri] *)
Variable file_server_resources_uri : string.
Variable col : Collaborators.

(** [os.path.getsize(s)] *)
Definition os_path_getsize (s : string) : M nat :=
  m <- get_fs ;;
  match lstat m s with
  | Some (KFile bytes) => ret (String.length bytes)
  | Some KDir => ret (directory_st_size col)
  | None => raise (OSError "ENOENT")
  end.

(** A call of the blueprints manager. *)
Definition manager_call {A} (r : Outcome A) : M A :=
  match r with
  | Ok a => ret a
  | Raise e => raise e
  end.

(** The [for ... else] of [BlueprintsIdArchive.get]: the first archive
    type whose file exists, with the path of that file. *)
Fixpoint find_archive (blueprint_id : string) (types : list string)
  : M (string * string) :=
  match types with
  | [] =>
      raise (RuntimeError
               ("Could not find blueprint's archive; Blueprint ID: "
                ++ blueprint_id))
  | arc_type :: types' =>
      let local_path :=
        path_join4 (file_server_root cfg)
                   (file_server_uploaded_blueprints_folder cfg)
                   blueprint_id
                   (blueprint_id ++ "." ++ arc_type) in
      b <- os_path_isfile local_path ;;
      if b then ret (local_path, arc_type)
      else find_archive blueprint_id types'
  end.

(** [BlueprintsIdArchive.get] *)
Definition BlueprintsIdArchive_get (blueprint_id : string) : M Response :=
  manager_call (get_blueprint col blueprint_id) ;;;
  found <- find_archive blueprint_id SUPPORTED_ARCHIVE_TYPES ;;
  let local_path := fst found in
  let archive_type := snd found in
  let blueprint_path :=
    file_server_resources_uri ++ "/"
    ++ file_server_uploaded_blueprints_folder cfg ++ "/"
    ++ blueprint_id ++ "/" ++ blueprint_id ++ "." ++ archive_type in
  let h := make_response col in
  let h := set_header "Content-Description" (HStr "File Transfer") h in
  let h := set_header "Cache-Control" (HStr "no-cache") h in
  let h := set_header "Content-Type" (HStr "application/octet-stream") h in
  let h := set_header "Content-Disposition"
             (HStr ("attachment; filename=" ++ blueprint_id ++ "."
                    ++ archive_type)) h in
  size <- os_path_getsize local_path ;;
  let h := set_header "Content-Length" (HInt size) h in
  let h := set_header "X-Accel-Redirect" (HStr blueprint_path) h in
  let h := set_header "X-Accel-Buffering" (HStr "yes") h in
  ret (mkResponse h).

(** [BlueprintsId.delete]: the record of the deleted blueprint stands for
    the response built from it. *)
Definition BlueprintsId_delete (blueprint_id : string) : M (Blueprint * nat) :=
  blueprint <- manager_call (delete_blueprint col blueprint_id) ;;
  let blueprint_folder :=
    path_join3 (file_server_root cfg) (file_server_blueprints_folder cfg)
               (id blueprint) in
  shutil_rmtree blueprint_folder ;;;
  let uploaded_blueprint_folder :=
    path_join3 (file_server_root cfg)
               (file_server_uploaded_blueprints_folder cfg)
               (id blueprint) in
  shutil_rmtree uploaded_blueprint_folder ;;;
  ret (blueprint, 200).

End Handlers.

End Serving.

(* ================================================================= *)
(** ** The handlers of JSON requests *)

Module Rest.
Import Upload.
Local Open Scope string_scope.

(** Python values as a JSON body and a query string give them. Text is a
    byte string ([str]) or a [unicode] string. *)
#[warnings="-register-all"]
Inductive Value : Type :=
| VNone
| VBool (b : bool)
| VInt (n : Z)
| VLong (n : Z)
| VFloat (repr : string)
| VStr (s : string)
| VUnicode (s : string)
| VList (l : list Value)
| VDict (d : list (string * Value)).

(** [type(v).__name__] *)
Definition type_name (v : Value) : string :=
  match v with
  | VNone => "NoneType"
  | VBool _ => "bool"
  | VInt _ => "int"
  | VLong _ => "long"
  | VFloat _ => "float"
  | VStr _ => "str"
  | VUnicode _ => "unicode"
  | VList _ => "list"
  | VDict _ => "dict"
  end.

(** The classes a handler names in [isinstance]. *)
Inductive PyType : Type :=
| TDict
| TList
| TInt
| TBool
| TStr
| TUnicode.

(** [t.__name__] *)
Definition py_type_name (t : PyType) : string :=
  match t with
  | TDict => "dict"
  | TList => "list"
  | TInt => "int"
  | TBool => "bool"
  | TStr => "str"
  | TUnicode => "unicode"
  end.

(** [isinstance(v, t)]: [bool] is a subclass of [int]. *)
Definition isinstance (v : Value) (t : PyType) : bool :=
  match t, v with
  | TDict, VDict _ => true
  | TList, VList _ => true
  | TInt, VInt _ => true
  | TInt, VBool _ => true
  | TBool, VBool _ => true
  | TStr, VStr _ => true
  | TUnicode, VUnicode _ => true
  | _, _ => false
  end.

(** The exceptions of the handlers: the classes of [manager_exceptions]
    they raise or catch, with their message, and the built-in errors of
    the operations they apply to the body. *)
Inductive Error : Type :=
| BadParametersError (msg : string)
| UnsupportedContentTypeError (msg : string)
| NoSuchIncludeFieldError (msg : string)
| NotFoundError (msg : string)
| AttributeError (type attribute : string)
| TypeError
| KeyError (key : string)
| UnicodeEncodeError
| ManagerError (class msg : string).

Inductive Result (A : Type) : Type :=
| Return (a : A)
| Throw (e : Error).
Arguments Return {A} a.
Arguments Throw {A} e.

Definition bind {A B} (m : Result A) (k : A -> Result B) : Result B :=
  match m with
  | Return a => k a
  | Throw e => Throw e
  end.

Declare Scope rest_scope.
Delimit Scope rest_scope with rest.
Notation "x <- m ;; k" := (bind m (fun x => k))
  (at level 61, m at next level, right associativity) : rest_scope.
Notation "m ;;; k" := (bind m (fun _ => k))
  (at level 61, right associativity) : rest_scope.
Local Open Scope rest_scope.

(** The flask [request] of a JSON handler: its content type, its query
    string and its parsed body. *)
Record Request : Type := mkRequest {
  content_type : option string;
  args : list (string * string);
  json : Value
}.

(** *** Operations on values *)

(** [d.get(key)] on the items of a dict. *)
Fixpoint lookup {A} (key : string) (d : list (string * A)) : option A :=
  match d with
  | [] => None
  | (k, v) :: d' => if String.eqb k key then Some v else lookup key d'
  end.

(** [sub in s] on strings. *)
Fixpoint is_substring (sub s : string) : bool :=
  String.prefix sub s
  || match s with
     | EmptyString => false
     | String _ s' => is_substring sub s'
     end.

(** [v == s] for a byte string [s]. *)
Definition equals_str (v : Value) (s : string) : bool :=
  match v with
  | VStr s' | VUnicode s' => String.eqb s' s
  | _ => false
  end.

(** [key in c] *)
Definition contains (key : string) (c : Value) : Result bool :=
  match c with
  | VDict d => Return (match lookup key d with Some _ => true | None => false end)
  | VList l => Return (existsb (fun v => equals_str v key) l)
  | VStr s | VUnicode s => Return (is_substring key s)
  | _ => Throw TypeError
  end.

(** [c[key]] for a string [key] *)
Definition getitem (c : Value) (key : string) : Result Value :=
  match c with
  | VDict d =>
      match lookup key d with
      | Some v => Return v
      | None => Throw (KeyError key)
      end
  | _ => Throw TypeError
  end.

(** [c.get(key, default)] *)
Definition get_default (c : Value) (key : string) (default : Value)
  : Result Value :=
  match c with
  | VDict d =>
      match lookup key d with
      | Some v => Return v
      | None => Return default
      end
  | _ => Throw (AttributeError (type_name c) "get")
  end.

(** Is every character of [s] below 128? *)
Fixpoint is_ascii (s : string) : bool :=
  match s with
  | EmptyString => true
  | String c s' => Nat.ltb (nat_of_ascii c) 128 && is_ascii s'
  end.

(** A piece of text as [str.format] puts it into a byte string: a
    [unicode] string has to encode as ASCII. *)
Definition format_text (unicode : bool) (s : string) : Result string :=
  if unicode && negb (is_ascii s) then Throw UnicodeEncodeError
  else Return s.

(** [sep.join(l)] *)
Fixpoint join (sep : string) (l : list string) : string :=
  match l with
  | [] => EmptyString
  | [a] => a
  | a :: l' => a ++ sep ++ join sep l'
  end.

(** [s.split(',')] *)
Fixpoint split_comma (s : string) : list string :=
  match s with
  | EmptyString => [EmptyString]
  | String c s' =>
      if Ascii.eqb c ","%char then EmptyString :: split_comma s'
      else match split_comma s' with
           | h :: t => String c h :: t
           | [] => [String c EmptyString]
           end
  end.

(** [d[key] = v] on the items of a dict. *)
Fixpoint setitem {A} (key : string) (v : A) (d : list (string * A))
  : list (string * A) :=
  match d with
  | [] => [(key, v)]
  | (k, x) :: d' =>
      if String.eqb k key then (key, v) :: d' else (k, x) :: setitem key v d'
  end.

(** [responses.Workflow] *)
Record Workflow : Type := mkWorkflow {
  name : string;
  created_at : Value;
  parameters : Value
}.

(** What a field of a deployment response holds: the value the
    deployment has for it, or the list of its workflows. *)
Inductive Field : Type :=
| FValue (v : Value)
| FWorkflows (workflows : list Workflow).

(** The list comprehension of
    [_replace_workflows_field_for_deployment_response], over the items of
    [deployment_workflows] in the order [iteritems] gives them. *)
Fixpoint workflows_of (items : list (string * Value)) : Result (list Workflow) :=
  match items with
  | [] => Return []
  | (wf_name, wf) :: items' =>
      wf_parameters <- get_default wf "parameters" (VDict []) ;;
      workflows <- workflows_of items' ;;
      Return (mkWorkflow wf_name VNone wf_parameters :: workflows)
  end.

(** [_replace_workflows_field_for_deployment_response] *)
Definition _replace_workflows_field_for_deployment_response
    (deployment_dict : list (string * Value)) : Result (list (string * Field)) :=
  deployment_workflows <- getitem (VDict deployment_dict) "workflows" ;;
  let fields := map (fun item => (fst item, FValue (snd item)))
                    deployment_dict in
  match deployment_workflows with
  | VNone => Return fields
  | VDict items =>
      workflows <- workflows_of items ;;
      Return (setitem "workflows" (FWorkflows workflows) fields)
  | _ => Throw (AttributeError (type_name deployment_workflows) "iteritems")
  end.

(** *** The helpers of the handlers *)

Section Handlers.

Variable req : Request.

(** [verify_json_content_type] *)
Definition verify_json_content_type : Result unit :=
  match content_type req with
  | Some ct =>
      if String.eqb ct "application/json" then Return tt
      else Throw (UnsupportedContentTypeError
                    "Content type must be application/json")
  | None =>
      Throw (UnsupportedContentTypeError
               "Content type must be application/json")
  end.

(** [verify_parameter_in_request_body] *)
Definition verify_parameter_in_request_body
    (param : string) (request_json : Value)
    (param_type : option PyType) (optional : bool) : Result unit :=
  present <- contains param request_json ;;
  if negb present then
    if optional then Return tt
    else Throw (BadParametersError
                  ("Missing " ++ param ++ " in json request body"))
  else
    match param_type with
    | None => Return tt
    | Some t =>
        v <- getitem request_json param ;;
        if negb (isinstance v t) then
          Throw (BadParametersError
                   (param ++ " parameter is expected to be of type "
                    ++ py_type_name t ++ " but is of type " ++ type_name v))
        else Return tt
    end.

(** [verify_and_convert_bool] *)
Definition verify_and_convert_bool (attribute_name : string)
    (str_bool : Value) : Result bool :=
  match str_bool with
  | VBool b => Return b
  | VStr s | VUnicode s =>
      if String.eqb (lower_string s) "true" then Return true
      else if String.eqb (lower_string s) "false" then Return false
      else
        shown <- format_text (match str_bool with
                              | VUnicode _ => true
                              | _ => false
                              end) s ;;
        Throw (BadParametersError
                 (attribute_name ++ " must be <true/false>, got " ++ shown))
  | _ => Throw (AttributeError (type_name str_bool) "lower")
  end.

(** [request.args.get(key, default)] as a value. *)
Definition args_get (key : string) (default : Value) : Value :=
  if has_key key (args req) then VUnicode (get_key key (args req))
  else default.

(** The order in which a [set] of strings is iterated. *)
Variable set_iteration : list string -> list string.

(** The loop of [_get_fields_to_include]: the fields to include so far
    and the illegal ones so far. *)
Definition include_step {F} (model_fields : list (string * F))
    (acc : list (string * F) * list string) (field : string)
  : list (string * F) * list string :=
  match lookup field model_fields with
  | None => (fst acc, (snd acc ++ [field])%list)
  | Some f => ((fst acc ++ [(field, f)])%list, snd acc)
  end.

(** [_get_fields_to_include]: a dict is the list of its items. *)
Definition _get_fields_to_include {F} (model_fields : list (string * F))
  : Result (list (string * F)) :=
  if has_key "_include" (args req) && truthy (get_key "_include" (args req))
  then
    let include :=
      set_iteration (split_comma (get_key "_include" (args req))) in
    let looped := fold_left (include_step model_fields) include ([], []) in
    let include_fields := fst looped in
    let illegal_fields := snd looped in
    match illegal_fields with
    | [] => Return include_fields
    | _ =>
        shown <- format_text true (join ", " illegal_fields) ;;
        Throw (NoSuchIncludeFieldError
                 ("Illegal include fields: [" ++ shown
                  ++ "] - available fields: ["
                  ++ join ", " (map fst model_fields) ++ "]"))
    end
  else Return model_fields.

(** What a handler returns: a response, or a tuple of a response and a
    status code. *)
Inductive Returned (D : Type) : Type :=
| Plain (data : D)
| WithCode (data : D) (code : nat).
Arguments Plain {D} data.
Arguments WithCode {D} data code.

(** What the wrapper of [marshal_with] returns: the marshalled
    response, or the tuple of it, the status code and the headers. *)
Inductive Marshalled (Out : Type) : Type :=
| MPlain (out : Out)
| MTuple (out : Out) (code : nat) (headers : list (string * string)).
Arguments MPlain {Out} out.
Arguments MTuple {Out} out code headers.

(** [marshal_with(fields)(f)]: the wrapper around a handler [f] that
    works on a state [S]; [marshal] is flask-restful's, and its [unpack]
    gives a tuple of two no headers. *)
Definition marshal_with {S D F Out : Type}
    (marshal : D -> list (string * F) -> Out)
    (fields : list (string * F))
    (f : S -> Result (Returned D) * S) (s : S)
  : Result (Marshalled Out) * S :=
  match _get_fields_to_include fields with
  | Throw e => (Throw e, s)
  | Return include =>
      match f s with
      | (Throw e, s') => (Throw e, s')
      | (Return (WithCode data code), s') =>
          (Return (MTuple (marshal data include) code []), s')
      | (Return (Plain data), s') => (Return (MPlain (marshal data include)), s')
      end
  end.

(** *** The handlers *)

(** The blueprints manager and the storage manager, as far as the
    handlers below call them; [py_str] is [str(v)] for a value that is
    not text. The records they take and return are the
    dicts of their fields. *)
Record Managers (Storage : Type) : Type := mkManagers {
  execute_workflow :
    Value -> Value -> Value -> bool -> bool -> Result Value;
  cancel_execution : string -> bool -> Result Value;
  update_node_instance :
    list (string * Value) -> Storage -> Result unit * Storage;
  get_node_instance : string -> Storage -> Result Value * Storage;
  update_provider_context :
    list (string * Value) -> Storage -> Result unit * Storage;
  put_provider_context :
    list (string * Value) -> Storage -> Result unit * Storage;
  get_node : string -> string -> Result Value;
  get_nodes : option string -> option (list string) -> Result (list Value);
  py_str : Value -> string;
  create_deployment :
    Value -> string -> Value -> Result (list (string * Value));
  start_deployment_modification : Value -> Value -> Value -> Result Value;
  evaluate_functions : Value -> Value -> Value -> Result Value;
  update_execution_status :
    string -> Value -> Value -> Storage -> Result unit * Storage;
  get_execution : string -> Storage -> Result Value * Storage
}.
Arguments execute_workflow {Storage} m.
Arguments cancel_execution {Storage} m.
Arguments update_node_instance {Storage} m.
Arguments get_node_instance {Storage} m.
Arguments update_provider_context {Storage} m.
Arguments put_provider_context {Storage} m.
Arguments get_node {Storage} m.
Arguments get_nodes {Storage} m.
Arguments py_str {Storage} m.
Arguments create_deployment {Storage} m.
Arguments start_deployment_modification {Storage} m.
Arguments evaluate_functions {Storage} m.
Arguments update_execution_status {Storage} m.
Arguments get_execution {Storage} m.

Variable Storage : Type.
Variable mgr : Managers Storage.

(** [Executions.post] *)
Definition Executions_post : Result (Value * nat) :=
  verify_json_content_type ;;;
  let request_json := json req in
  verify_parameter_in_request_body "deployment_id" request_json None false ;;;
  verify_parameter_in_request_body "workflow_id" request_json None false ;;;
  given <- get_default request_json "allow_custom_parameters" (VStr "false") ;;
  allow_custom_parameters <-
    verify_and_convert_bool "allow_custom_parameters" given ;;
  given <- get_default request_json "force" (VStr "false") ;;
  force <- verify_and_convert_bool "force" given ;;
  deployment_id <- getitem (json req) "deployment_id" ;;
  workflow_id <- getitem (json req) "workflow_id" ;;
  parameters <- get_default (json req) "parameters" VNone ;;
  match parameters with
  | VNone | VDict _ =>
      execution <- execute_workflow mgr deployment_id workflow_id parameters
                     allow_custom_parameters force ;;
      Return (execution, 201)
  | _ =>
      Throw (BadParametersError
               ("request body's 'parameters' field must be a dict but is of type "
                ++ type_name parameters))
  end.

(** How [str.format] shows a value. *)
Definition format_value (v : Value) : Result string :=
  match v with
  | VStr s => format_text false s
  | VUnicode s => format_text true s
  | _ => Return (py_str mgr v)
  end.

(** [ExecutionsId.post] *)
Definition ExecutionsId_post (execution_id : string) : Result Value :=
  verify_json_content_type ;;;
  let request_json := json req in
  verify_parameter_in_request_body "action" request_json None false ;;;
  action <- getitem (json req) "action" ;;
  if negb (equals_str action "cancel" || equals_str action "force-cancel")
  then
    shown <- format_value action ;;
    Throw (BadParametersError
             ("Invalid action: " ++ shown
              ++ ", Valid action values are: ['cancel', 'force-cancel']"))
  else
    cancel_execution mgr execution_id (equals_str action "force-cancel").

(** [NodeInstancesId.patch]: the node handed to the storage manager is
    the dict of the fields of [models.DeploymentNodeInstance]. *)
Definition NodeInstancesId_patch (node_instance_id : string) (s : Storage)
  : Result Value * Storage :=
  match verify_json_content_type with
  | Throw e => (Throw e, s)
  | Return _ =>
      match json req with
      | VDict d =>
          match lookup "version" d with
          | None =>
              (Throw (BadParametersError
                        ("Request body must be a map containing a "
                         ++ dquote ++ "version" ++ dquote ++ " field")), s)
          | Some (VInt n) =>
              let node :=
                [("id", VUnicode node_instance_id);
                 ("node_id", VNone);
                 ("relationships", VNone);
                 ("host_id", VNone);
                 ("deployment_id", VNone);
                 ("runtime_properties",
                  match lookup "runtime_properties" d with
                  | Some v => v
                  | None => VNone
                  end);
                 ("state",
                  match lookup "state" d with
                  | Some v => v
                  | None => VNone
                  end);
                 ("version", VInt n)] in
              match update_node_instance mgr node s with
              | (Throw e, s1) => (Throw e, s1)
              | (Return _, s1) => get_node_instance mgr node_instance_id s1
              end
          | Some v =>
              (Throw (BadParametersError
                        ("request body's 'version' field must be an int but is of type "
                         ++ type_name v)), s)
          end
      | _ =>
          (Throw (BadParametersError
                    ("Request body is expected to be a map containing a "
                     ++ dquote ++ "version" ++ dquote
                     ++ " field and optionally " ++ dquote
                     ++ "runtimeProperties" ++ dquote ++ " and/or "
                     ++ dquote ++ "state" ++ dquote ++ " fields")), s)
      end
  end.

(** [ProviderContext.post] *)
Definition ProviderContext_post (s : Storage)
  : Result (string * nat) * Storage :=
  match
    (verify_json_content_type ;;;
     let request_json := json req in
     verify_parameter_in_request_body "context" request_json None false ;;;
     verify_parameter_in_request_body "name" request_json None false ;;;
     name <- getitem (json req) "name" ;;
     context <- getitem (json req) "context" ;;
     update <- verify_and_convert_bool "update"
                 (args_get "update" (VStr "false")) ;;
     Return ([("name", name); ("context", context)], update))
  with
  | Throw e => (Throw e, s)
  | Return (context, update) =>
      let status_code := if update : bool then 200 else 201 in
      match (if update then update_provider_context mgr context s
             else put_provider_context mgr context s) with
      | (Throw e, s1) => (Throw e, s1)
      | (Return _, s1) => (Return ("ok", status_code), s1)
      end
  end.

(** [Nodes.get], on the arguments [parse_args] has read from the query
    string. *)
Definition Nodes_get (deployment_id node_id : option string)
    (_include : option (list string)) : Result (list Value) :=
  let truth (a : option string) :=
    match a with
    | Some s => truthy s
    | None => false
    end in
  if truth deployment_id && truth node_id then
    match get_node mgr
            (match deployment_id with Some s => s | None => EmptyString end)
            (match node_id with Some s => s | None => EmptyString end) with
    | Return node => Return [node]
    | Throw (NotFoundError _) => Return []
    | Throw e => Throw e
    end
  else get_nodes mgr deployment_id _include.

(** [ExecutionsId.patch] *)
Definition ExecutionsId_patch (execution_id : string) (s : Storage)
  : Result Value * Storage :=
  match
    (verify_json_content_type ;;;
     let request_json := json req in
     verify_parameter_in_request_body "status" request_json None false ;;;
     status <- getitem request_json "status" ;;
     error <- get_default request_json "error" (VStr "") ;;
     Return (status, error))
  with
  | Throw e => (Throw e, s)
  | Return (status, error) =>
      match update_execution_status mgr execution_id status error s with
      | (Throw e, s1) => (Throw e, s1)
      | (Return _, s1) => get_execution mgr execution_id s1
      end
  end.

(** [DeploymentsId.put] *)
Definition DeploymentsId_put (deployment_id : string)
  : Result (list (string * Field) * nat) :=
  verify_json_content_type ;;;
  let request_json := json req in
  verify_parameter_in_request_body "blueprint_id" request_json None false ;;;
  verify_parameter_in_request_body "inputs" request_json (Some TDict) true ;;;
  blueprint_id <- getitem (json req) "blueprint_id" ;;
  inputs <- get_default request_json "inputs" (VDict []) ;;
  deployment <- create_deployment mgr blueprint_id deployment_id inputs ;;
  response <- _replace_workflows_field_for_deployment_response deployment ;;
  Return (response, 201).

(** [DeploymentModifications.post] *)
Definition DeploymentModifications_post : Result (Value * nat) :=
  verify_json_content_type ;;;
  let request_json := json req in
  verify_parameter_in_request_body "deployment_id" request_json None false ;;;
  deployment_id <- getitem request_json "deployment_id" ;;
  verify_parameter_in_request_body "context" request_json (Some TDict) true ;;;
  context <- get_default request_json "context" (VDict []) ;;
  verify_parameter_in_request_body "nodes" request_json (Some TDict) true ;;;
  nodes <- get_default request_json "nodes" (VDict []) ;;
  modification <- start_deployment_modification mgr deployment_id nodes
                    context ;;
  Return (modification, 201).

(** [EvaluateFunctions.post]: the response is the dict of the fields of
    [responses.EvaluatedFunctions]. *)
Definition EvaluateFunctions_post : Result (list (string * Value)) :=
  verify_json_content_type ;;;
  let request_json := json req in
  verify_parameter_in_request_body "deployment_id" request_json None false ;;;
  verify_parameter_in_request_body "context" request_json (Some TDict) true ;;;
  verify_parameter_in_request_body "payload" request_json (Some TDict) false ;;;
  deployment_id <- getitem request_json "deployment_id" ;;
  context <- get_default request_json "context" (VDict []) ;;
  payload <- get_default request_json "payload" VNone ;;
  processed_payload <- evaluate_functions mgr deployment_id context payload ;;
  Return [("deployment_id", deployment_id); ("payload", processed_payload)].

End Handlers.

Arguments execute_workflow {Storage} m.
Arguments cancel_execution {Storage} m.
Arguments update_node_instance {Storage} m.
Arguments get_node_instance {Storage} m.
Arguments update_provider_context {Storage} m.
Arguments put_provider_context {Storage} m.
Arguments get_node {Storage} m.
Arguments get_nodes {Storage} m.
Arguments py_str {Storage} m.
Arguments create_deployment {Storage} m.
Arguments start_deployment_modification {Storage} m.
Arguments evaluate_functions {Storage} m.
Arguments update_execution_status {Storage} m.
Arguments get_execution {Storage} m.
Arguments Executions_post req {Storage} mgr.
Arguments format_value {Storage} mgr v.
Arguments ExecutionsId_post req {Storage} mgr execution_id.
Arguments NodeInstancesId_patch req {Storage} mgr node_instance_id s.
Arguments ProviderContext_post req {Storage} mgr s.
Arguments Nodes_get {Storage} mgr deployment_id node_id _include.
Arguments ExecutionsId_patch req {Storage} mgr execution_id s.
Arguments DeploymentsId_put req {Storage} mgr deployment_id.
Arguments DeploymentModifications_post req {Storage} mgr.
Arguments EvaluateFunctions_post req {Storage} mgr.

End Rest.

(* ================================================================= *)
(** ** What a run may touch *)

Module Frame.
Import Paths FileSys Py Upload.

(** Two stores agree at every path outside the region [R]. *)
Definition agree_outside (R : Path -> bool) (m m' : FS) : Prop :=
  forall q, R q = false -> stat m' q = stat m q.

(** Two stores hold the same entry at every path. *)
Definition same_store (m m' : FS) : Prop :=
  forall q, stat m' q = stat m q.

(** From [w] to [w'] the run has only touched the region [R]: the new
    store and every store the run passed through on the way agree with
    the store of [w] outside it. *)
Definition touches_only (R : Path -> bool) (w w' : World) : Prop :=
  exists new,
    history w' = new ++ history w
    /\ Forall (fun em => agree_outside R (fs w) (snd em)) new
    /\ agree_outside R (fs w) (fs w').

(** The exceptions an action can raise. *)
Definition raises_only {A} (P : Exn -> Prop) (m : M A) : Prop :=
  forall w e w', m w = (Raise e, w') -> P e.

(** The errors of the file system calls. *)
Definition fs_error (e : Exn) : Prop :=
  match e with
  | OSError _ | IOError _ | ShutilError _ => True
  | _ => False
  end.

(** Every name listed in the directory [T] is a plain name. *)
Definition names_plain (m : FS) (T : Path) : Prop :=
  forall c, stat m (T ++ [c]) <> None -> plain_name c = true.

(** From [m] to [m'] every entry is still there and of its sort: a
    directory is a directory, a regular file a regular file (its bytes may
    have changed). *)
Definition sort_kept (m m' : FS) : Prop :=
  forall q k, stat m q = Some k ->
              exists k', stat m' q = Some k' /\ (k = KDir <-> k' = KDir).

(** The region below any of the paths [Ps]. *)
Definition under (Ps : list Path) (q : Path) : bool :=
  existsb (fun P => is_prefix P q) Ps.

Definition no_slash (s : string) : bool := negb (has_char slash s).

Definition not_nil {A} (l : list A) : bool :=
  match l with [] => false | _ => true end.

(** The configuration the properties are stated for: the file server
    root and the temporary directory are absolute paths of plain names,
    the two folders of the permanent namespace are plain names, and the
    random names of [tempfile] and [uuid] hold no slash. *)
Definition wf_env (cfg : Config) (ext : Externals) (rootp tmpp : Path) : bool :=
  String.eqb (file_server_root cfg) (abspath rootp)
  && forallb plain_name rootp && not_nil rootp
  && String.eqb (gettempdir ext) (abspath tmpp)
  && forallb plain_name tmpp && not_nil tmpp
  && forallb no_slash (mktemp_names ext)
  && forallb no_slash (mkdtemp_names ext)
  && no_slash (uuid4 ext)
  && plain_name (file_server_blueprints_folder cfg)
  && plain_name (file_server_uploaded_blueprints_folder cfg).

End Frame.

(* ================================================================= *)
(** ** Concrete scenarios

    A store with the file server root [/srv/files] and the temporary
    directory [/tmp], and collaborators with fixed answers: the archive
    drivers know four byte strings, the blueprints manager rejects the
    blueprint id [bad]. *)

Module Scenario.
Import Paths FileSys Py Upload.
Local Open Scope string_scope.

Definition cfg0 : Config :=
  mkConfig "/srv/files" "http://localhost:53229" "blueprints"
           "uploaded-blueprints".

(** [app/] with [app/blueprint.yaml] and a plugin [app/plugins/foo/]. *)
Definition members_app : list (list string * Kind) :=
  [ (["app"], KDir);
    (["app"; "blueprint.yaml"], KFile "tosca_definitions_version: 1");
    (["app"; "plugins"; "foo"; "plugin.py"], KFile "pass") ].

(** Two top-level directories [a/] and [b/]. *)
Definition members_two_dirs : list (list string * Kind) :=
  [ (["a"], KDir); (["b"], KDir) ].

(** A single top-level directory with no [blueprint.yaml]. *)
Definition members_no_yaml : list (list string * Kind) :=
  [ (["app"], KDir); (["app"; "readme.txt"], KFile "hello") ].

(** [app/] whose [plugins/] holds the directories [foo] and [foo.zip]. *)
Definition members_plugin_clash : list (list string * Kind) :=
  [ (["app"], KDir);
    (["app"; "blueprint.yaml"], KFile "tosca_definitions_version: 1");
    (["app"; "plugins"; "foo"; "plugin.py"], KFile "pass");
    (["app"; "plugins"; "foo.zip"; "plugin.py"], KFile "pass") ].

(** A single top-level regular file. *)
Definition members_top_file : list (list string * Kind) :=
  [ (["blueprint.yaml"], KFile "tosca_definitions_version: 1") ].

Definition decode0 (bytes : string) : option (list (list string * Kind)) :=
  if String.eqb bytes "ZIP:app" then Some members_app
  else if String.eqb bytes "ZIP:two" then Some members_two_dirs
  else if String.eqb bytes "ZIP:noyaml" then Some members_no_yaml
  else if String.eqb bytes "ZIP:clash" then Some members_plugin_clash
  else if String.eqb bytes "ZIP:file" then Some members_top_file
  else None.

Definition publish0 (dsl_path resources_base blueprint_id : string)
  : Outcome Blueprint :=
  if String.eqb blueprint_id "bad"
  then Raise (DslParseException "unknown type")
  else Ok (mkBlueprint blueprint_id).

Definition ext0 : Externals :=
  mkExternals "/tmp" ["aaaaaa"] ["bbbbbb"]
              "0b2e2f0e-6d3c-4a52-9d1c-3f1c2a7e5b10"
              (fun _ => UrlURLError)
              (fun s => [s])
              decode0
              (fun _ => Ok "zip")
              publish0
              (fun s => Some s)
              (fun _ => "PK").

Definition fs0 : FS :=
  [ ("srv", Dir [ ("files", Dir [ ("blueprints", Dir []);
                                  ("secret.yaml", File "secret") ]) ]);
    ("tmp", Dir []) ].

Definition w0 : World := mkWorld fs0 [].

Definition archive0 : string := "/srv/files/tmpaaaaaa".

Definition req_body (bytes : string) : Request :=
  mkRequest [] bytes [] EmptyString.

Definition req_none : Request :=
  mkRequest [] EmptyString [] EmptyString.

Definition req_both : Request :=
  mkRequest [("blueprint_archive_url", "http://example.org/app.zip")]
            "ZIP:app" [] EmptyString.

Definition req_named (name bytes : string) : Request :=
  mkRequest [("application_file_name", name)] bytes [] EmptyString.

(** The resolved file server root and temporary directory. *)
Definition rootp0 : Path := ["srv"; "files"].
Definition tmpp0 : Path := ["tmp"].

(** The worlds of an upload of [bytes] after acquisition and after
    extraction, and the name extraction gives the staged directory. *)
Definition w_saved (bytes : string) : World :=
  snd (_save_file_locally ext0 (req_body bytes) archive0 w0).

Definition w_extracted (bytes : string) : World :=
  snd (_extract_file_to_file_server ext0 "/srv/files" archive0 (w_saved bytes)).

Definition gen0 : string := "app-0b2e2f0e-6d3c-4a52-9d1c-3f1c2a7e5b10".

Definition tempdir0 : string := "/tmp/tmpbbbbbb-blueprint-submit".

(** The world once the temporary directory is made, and once the
    archive is unpacked into it. *)
Definition w_tempdir (bytes : string) : World :=
  snd (mkdtemp_from "/tmp" "-blueprint-submit" ["bbbbbb"] (w_saved bytes)).

Definition w_unpacked (bytes : string) : World :=
  snd (unpack_archive ext0 archive0 tempdir0 (w_tempdir bytes)).

(** The store once [app/] is staged under the root as [app-1f0c]. *)
Definition staged0 : string := "app-1f0c".

Definition fs_staged : FS :=
  [ ("srv", Dir [ ("files",
                   Dir [ ("app-1f0c",
                          Dir [ ("blueprint.yaml",
                                 File "tosca_definitions_version: 1") ]);
                         ("blueprints", Dir []);
                         ("secret.yaml", File "secret") ]) ]);
    ("tmp", Dir []) ].

Definition w_staged : World := mkWorld fs_staged [].

(** The worlds of an upload of [bytes] as [bp1]: once the blueprint is
    published, once the staged directory is placed, once the plugins are
    packaged and once the archive is moved to the uploaded blueprints. *)
Definition w_published (bytes : string) : World :=
  snd (publish ext0 ("http://localhost:53229/" ++ gen0 ++ "/blueprint.yaml")
               "http://localhost:53229/" "bp1" (w_extracted bytes)).

Definition w_placed (bytes : string) : World :=
  snd (shutil_move (path_join "/srv/files" gen0)
                   (path_join3 "/srv/files" "blueprints" "bp1")
                   (w_published bytes)).

Definition w_packaged (bytes : string) : World :=
  snd (_process_plugins ext0 "/srv/files" "bp1" (w_placed bytes)).

Definition w_relocated (bytes : string) : World :=
  snd (_move_archive_to_uploaded_blueprints_dir cfg0 ext0 "bp1" "/srv/files"
         archive0 (w_packaged bytes)).

(** The places of [bp1] and of its archive. *)
Definition placed0 : Path := ["srv"; "files"; "blueprints"; "bp1"].

Definition uploaded0 : Path := ["srv"; "files"; "uploaded-blueprints"; "bp1"].

(** A store that has the folder of uploaded blueprints already. *)
Definition fs_ready : FS :=
  [ ("srv", Dir [ ("files", Dir [ ("blueprints", Dir []);
                                  ("uploaded-blueprints", Dir []);
                                  ("secret.yaml", File "secret") ]) ]);
    ("tmp", Dir []) ].

Definition w_ready : World := mkWorld fs_ready [].

(** The worlds of an upload of [bytes] as [bp1] that starts in [w]. *)
Definition run_saved (w : World) (bytes : string) : World :=
  snd (_save_file_locally ext0 (req_body bytes) archive0 w).

Definition run_extracted (w : World) (bytes : string) : World :=
  snd (_extract_file_to_file_server ext0 "/srv/files" archive0
         (run_saved w bytes)).

Definition run_placed (w : World) (bytes : string) : World :=
  snd (shutil_move (path_join "/srv/files" gen0)
                   (path_join3 "/srv/files" "blueprints" "bp1")
                   (snd (publish ext0
                           ("http://localhost:53229/" ++ gen0 ++ "/blueprint.yaml")
                           "http://localhost:53229/" "bp1"
                           (run_extracted w bytes)))).

Definition run_packaged (w : World) (bytes : string) : World :=
  snd (_process_plugins ext0 "/srv/files" "bp1" (run_placed w bytes)).

Definition run_uploaded (w : World) (bytes : string) : World :=
  snd (do_request cfg0 ext0 (req_body bytes) "bp1" w).

(** Collaborators whose blueprints manager knows the id [dup] already. *)
Definition ext_conflict : Externals :=
  mkExternals "/tmp" ["aaaaaa"] ["bbbbbb"]
              "0b2e2f0e-6d3c-4a52-9d1c-3f1c2a7e5b10"
              (fun _ => UrlURLError)
              (fun s => [s])
              decode0
              (fun _ => Ok "zip")
              (fun dsl_path resources_base blueprint_id =>
                 if String.eqb blueprint_id "dup"
                 then Raise (OtherError "ConflictError")
                 else publish0 dsl_path resources_base blueprint_id)
              (fun s => Some s)
              (fun _ => "PK").

(** A staged directory beside a directory left at [blueprints/bp1]. *)
Definition fs_stale : FS :=
  [ ("srv", Dir [ ("files",
                   Dir [ ("app-1f0c",
                          Dir [ ("blueprint.yaml",
                                 File "tosca_definitions_version: 1") ]);
                         ("blueprints",
                          Dir [ ("bp1", Dir [ ("old.yaml", File "old") ]) ]);
                         ("secret.yaml", File "secret") ]) ]);
    ("tmp", Dir []) ].

Definition w_stale : World := mkWorld fs_stale [].

(** The blueprints manager of the download and delete handlers knows
    [bp1] only. *)
Definition col0 : Serving.Collaborators :=
  Serving.mkCollaborators
    (fun blueprint_id =>
       if String.eqb blueprint_id "bp1" then Ok (mkBlueprint "bp1")
       else Raise (OtherError "NotFoundError"))
    (fun blueprint_id =>
       if String.eqb blueprint_id "bp1" then Ok (mkBlueprint "bp1")
       else Raise (OtherError "NotFoundError"))
    [("Content-Type", Serving.HStr "text/html; charset=utf-8");
     ("Content-Length", Serving.HInt 0)]
    4096.

Definition resources_uri0 : string := "/resources".

(** The response to the download of [bp1] once [ZIP:app] is uploaded. *)
Definition response0 : Serving.Response :=
  Serving.mkResponse
    [("Content-Type", Serving.HStr "application/octet-stream");
     ("Content-Length", Serving.HInt 7);
     ("Content-Description", Serving.HStr "File Transfer");
     ("Cache-Control", Serving.HStr "no-cache");
     ("Content-Disposition", Serving.HStr "attachment; filename=bp1.zip");
     ("X-Accel-Redirect",
      Serving.HStr "/resources/uploaded-blueprints/bp1/bp1.zip");
     ("X-Accel-Buffering", Serving.HStr "yes")].

(** JSON requests: the execution of a workflow, with a flag spelled in
    capitals and with a flag that is a number; the cancellation of an
    execution; the update of a node instance, with a version that is an
    integer and one that is a boolean; a provider context to update. *)
Definition json_request (body : list (string * Rest.Value)) : Rest.Request :=
  Rest.mkRequest (Some "application/json") [] (Rest.VDict body).

Definition json_execute : Rest.Request :=
  json_request [("deployment_id", Rest.VUnicode "dep1");
                ("workflow_id", Rest.VUnicode "install");
                ("force", Rest.VUnicode "TRUE")].

Definition json_execute_number : Rest.Request :=
  json_request [("deployment_id", Rest.VUnicode "dep1");
                ("workflow_id", Rest.VUnicode "install");
                ("force", Rest.VInt 1%Z)].

Definition json_cancel : Rest.Request :=
  json_request [("action", Rest.VUnicode "force-cancel")].

Definition json_patch : Rest.Request :=
  json_request [("version", Rest.VInt 3%Z);
                ("state", Rest.VUnicode "started")].

Definition json_patch_boolean : Rest.Request :=
  json_request [("version", Rest.VBool true)].

Definition json_context : Rest.Request :=
  Rest.mkRequest (Some "application/json") [("update", "True")]
    (Rest.VDict [("name", Rest.VUnicode "openstack");
                 ("context", Rest.VDict [])]).

(** Managers over a storage that is the list of the records written,
    latest first; the only node known is [vm] of [dep1]. *)
Definition mgr0 : Rest.Managers (list (list (string * Rest.Value))) :=
  Rest.mkManagers (list (list (string * Rest.Value)))
    (fun deployment_id workflow_id parameters allow_custom_parameters force =>
       Rest.Return (Rest.VDict [("deployment_id", deployment_id);
                                ("workflow_id", workflow_id);
                                ("parameters", parameters);
                                ("force", Rest.VBool force)]))
    (fun execution_id force =>
       Rest.Return (Rest.VDict [("id", Rest.VUnicode execution_id);
                                ("status",
                                 Rest.VStr (if force then "force_cancelling"
                                            else "cancelling"))]))
    (fun node s => (Rest.Return tt, node :: s))
    (fun node_instance_id s =>
       (match s with
        | node :: _ => Rest.Return (Rest.VDict node)
        | [] => Rest.Throw (Rest.NotFoundError node_instance_id)
        end, s))
    (fun context s => (Rest.Return tt, context :: s))
    (fun context s => (Rest.Return tt, context :: s))
    (fun deployment_id node_id =>
       if String.eqb node_id "vm"
       then Rest.Return (Rest.VDict [("id", Rest.VStr "vm")])
       else Rest.Throw (Rest.NotFoundError node_id))
    (fun _ _ => Rest.Return [])
    (fun _ => "?")
    (fun blueprint_id deployment_id inputs =>
       Rest.Return
         [("id", Rest.VUnicode deployment_id);
          ("blueprint_id", blueprint_id);
          ("inputs", inputs);
          ("workflows",
           Rest.VDict
             [("install", Rest.VDict [("operation", Rest.VStr "w.install")]);
              ("scale",
               Rest.VDict [("parameters",
                            Rest.VDict [("delta", Rest.VInt 1%Z)])])])])
    (fun deployment_id nodes context =>
       Rest.Return (Rest.VDict [("deployment_id", deployment_id);
                                ("modified_nodes", nodes);
                                ("context", context)]))
    (fun deployment_id context payload => Rest.Return payload)
    (fun execution_id status error s =>
       (Rest.Return tt,
        [("id", Rest.VUnicode execution_id); ("status", status);
         ("error", error)] :: s))
    (fun execution_id s =>
       (match s with
        | execution :: _ => Rest.Return (Rest.VDict execution)
        | [] => Rest.Throw (Rest.NotFoundError execution_id)
        end, s)).

Definition json_deploy : Rest.Request :=
  json_request [("blueprint_id", Rest.VUnicode "bp1")].

Definition json_deploy_null_inputs : Rest.Request :=
  json_request [("blueprint_id", Rest.VUnicode "bp1");
                ("inputs", Rest.VNone)].

Definition json_modify : Rest.Request :=
  json_request [("deployment_id", Rest.VUnicode "dep1");
                ("nodes", Rest.VDict [("vm", Rest.VDict [])])].

Definition json_evaluate : Rest.Request :=
  json_request [("deployment_id", Rest.VUnicode "dep1");
                ("payload", Rest.VDict [("a", Rest.VInt 1%Z)])].

Definition json_status : Rest.Request :=
  json_request [("status", Rest.VUnicode "started")].

(** A deployment as the blueprints manager gives it, the response made
    of it, and a deployment whose workflows are a list. *)
Definition deployment_dict0 : list (string * Rest.Value) :=
  [("id", Rest.VUnicode "dep1");
   ("workflows",
    Rest.VDict
      [("install", Rest.VDict []);
       ("scale",
        Rest.VDict [("parameters", Rest.VDict [("delta", Rest.VInt 1%Z)])])]);
   ("blueprint_id", Rest.VUnicode "bp1")].

Definition deployment_response0 : list (string * Rest.Field) :=
  [("id", Rest.FValue (Rest.VUnicode "dep1"));
   ("workflows",
    Rest.FWorkflows
      [Rest.mkWorkflow "install" Rest.VNone (Rest.VDict []);
       Rest.mkWorkflow "scale" Rest.VNone
         (Rest.VDict [("delta", Rest.VInt 1%Z)])]);
   ("blueprint_id", Rest.FValue (Rest.VUnicode "bp1"))].

Definition deployment_dict_malformed : list (string * Rest.Value) :=
  [("id", Rest.VUnicode "dep1");
   ("workflows", Rest.VList [Rest.VUnicode "install"])].

(** A request that names the fields to include, the fields of a model,
    and sets iterated without repetition. *)
Definition req_include (fields : string) : Rest.Request :=
  Rest.mkRequest None [("_include", fields)] Rest.VNone.

Definition fields0 : list (string * string) :=
  [("id", "String"); ("plan", "Raw"); ("created_at", "String")].

Definition set_iteration0 (l : list string) : list string :=
  nodup string_dec l.

End Scenario.

(* ================================================================= *)
(** ** Properties *)

Import Paths FileSys Py Upload Frame.
Local Open Scope py_scope.

(** *** Acquisition *)

Lemma mktemp_from_spec d names w r w' :
  mktemp_from d names w = (r, w') ->
  w' = w /\ (forall a, r = Ok a -> path_exists (fs w) a = false).
Proof.
  revert w r w'. induction names as [|n names IH]; intros w r w' H; simpl in H.
  - inversion H; subst. split; [reflexivity | intros a Ha; discriminate].
  - unfold bind, os_path_exists in H; simpl in H.
    destruct (path_exists (fs w) _) eqn:E.
    + apply IH in H. exact H.
    + inversion H; subst. split; [reflexivity|].
      intros a Ha. inversion Ha; subst. exact E.
Qed.

Lemma save_both_rejected ext req archive_file_name w :
  has_key "blueprint_archive_url" (args req) = true ->
  truthy (data req) || has_header "Transfer-Encoding" (headers req) = true ->
  _save_file_locally ext req archive_file_name w
  = (Raise (BadParametersError MSG_BOTH), w).
Proof.
  intros Hurl Hbody. unfold _save_file_locally.
  rewrite Hurl, Hbody. reflexivity.
Qed.

(** C3. A request that carries both the [blueprint_archive_url] query
    parameter and inline data (a non-empty body, or a chunked transfer) is
    rejected with [BadParametersError] before anything is fetched or
    written: [_save_file_locally] leaves the world — store and event
    history — as it was, and so does the whole of [do_request], whatever
    the body and the URL are. *)
Theorem C3_both_sources_rejected cfg ext req :
  has_key "blueprint_archive_url" (args req) = true ->
  truthy (data req) || has_header "Transfer-Encoding" (headers req) = true ->
  (forall archive_file_name w,
      _save_file_locally ext req archive_file_name w
      = (Raise (BadParametersError MSG_BOTH), w))
  /\ (forall blueprint_id w,
         snd (do_request cfg ext req blueprint_id w) = w
         /\ (forall a w1,
                mktemp_from (file_server_root cfg) (mktemp_names ext) w = (Ok a, w1) ->
                fst (do_request cfg ext req blueprint_id w)
                = Raise (BadParametersError MSG_BOTH))).
Proof.
  intros Hurl Hbody. split.
  - intros. apply save_both_rejected; assumption.
  - intros blueprint_id w. unfold do_request, bind.
    destruct (mktemp_from (file_server_root cfg) (mktemp_names ext) w)
      as [r w1] eqn:Hmk.
    destruct (mktemp_from_spec _ _ _ _ _ Hmk) as [-> Hfresh].
    destruct r as [a|e].
    + specialize (Hfresh a eq_refl).
      unfold try_finally, do_request_body, bind.
      rewrite (save_both_rejected ext req a w Hurl Hbody).
      unfold remove_if_exists, bind, os_path_exists. rewrite Hfresh.
      simpl. split; [reflexivity|]. intros a' w1 _. reflexivity.
    + simpl. split; [reflexivity|]. intros a w1 H. discriminate.
Qed.

Lemma C3_witness :
  (forall archive_file_name w,
      _save_file_locally Scenario.ext0 Scenario.req_both archive_file_name w
      = (Raise (BadParametersError MSG_BOTH), w))
  /\ (forall blueprint_id w,
         snd (do_request Scenario.cfg0 Scenario.ext0 Scenario.req_both blueprint_id w) = w
         /\ (forall a w1,
                mktemp_from (file_server_root Scenario.cfg0)
                            (mktemp_names Scenario.ext0) w = (Ok a, w1) ->
                fst (do_request Scenario.cfg0 Scenario.ext0 Scenario.req_both
                                blueprint_id w)
                = Raise (BadParametersError MSG_BOTH))).
Proof.
  apply (C3_both_sources_rejected Scenario.cfg0 Scenario.ext0 Scenario.req_both);
    reflexivity.
Defined.

Lemma save_missing_rejected ext req archive_file_name w :
  has_key "blueprint_archive_url" (args req) = false ->
  has_header "Transfer-Encoding" (headers req) = false ->
  data req = EmptyString ->
  _save_file_locally ext req archive_file_name w
  = (Raise (BadParametersError MSG_MISSING), w).
Proof.
  intros Hurl Hte Hdata. unfold _save_file_locally.
  rewrite Hurl, Hte, Hdata. reflexivity.
Qed.

(** C8 (as the code has it). A request with no [blueprint_archive_url], no
    body and no chunked transfer is rejected before anything is written,
    with [BadParametersError] — the same exception class as the rejection
    of a request that names two sources; only the message tells the two
    apart. *)
Theorem C8_missing_input_is_bad_parameters ext req archive_file_name w :
  has_key "blueprint_archive_url" (args req) = false ->
  has_header "Transfer-Encoding" (headers req) = false ->
  data req = EmptyString ->
  _save_file_locally ext req archive_file_name w
  = (Raise (BadParametersError MSG_MISSING), w)
  /\ class_name (BadParametersError MSG_MISSING)
     = class_name (BadParametersError MSG_BOTH)
  /\ MSG_MISSING <> MSG_BOTH.
Proof.
  intros Hurl Hte Hdata. split; [|split].
  - apply save_missing_rejected; assumption.
  - reflexivity.
  - discriminate.
Qed.

Lemma C8_witness :
  _save_file_locally Scenario.ext0 Scenario.req_none Scenario.archive0 Scenario.w0
  = (Raise (BadParametersError MSG_MISSING), Scenario.w0)
  /\ class_name (BadParametersError MSG_MISSING)
     = class_name (BadParametersError MSG_BOTH)
  /\ MSG_MISSING <> MSG_BOTH.
Proof.
  apply (C8_missing_input_is_bad_parameters Scenario.ext0 Scenario.req_none
           Scenario.archive0 Scenario.w0); reflexivity.
Defined.

(** The request with no source at all and the request with two sources
    fail with exceptions of one and the same class: there is no separate
    kind for a missing input. *)
Lemma C8_counterexample :
  exists e_missing e_both,
    _save_file_locally Scenario.ext0 Scenario.req_none Scenario.archive0 Scenario.w0
    = (Raise e_missing, Scenario.w0)
    /\ _save_file_locally Scenario.ext0 Scenario.req_both Scenario.archive0 Scenario.w0
       = (Raise e_both, Scenario.w0)
    /\ class_name e_missing = class_name e_both.
Proof.
  exists (BadParametersError MSG_MISSING), (BadParametersError MSG_BOTH).
  repeat split.
Qed.

(** *** The definition locator *)

Lemma locate_explicit ext req root application_dir name w :
  has_key "application_file_name" (args req) = true ->
  utf8_decode ext (unquote (get_key "application_file_name" (args req)))
  = Some name ->
  _extract_application_file ext req root application_dir w
  = (if path_isfile (fs w) (path_join (path_join root application_dir) name)
     then Ok (path_join application_dir name)
     else Raise (BadParametersError
                   (name ++ " does not exist in the application directory")%string),
     w).
Proof.
  intros Hkey Hdec. unfold _extract_application_file, bind, os_path_isfile.
  rewrite Hkey, Hdec.
  destruct (path_isfile (fs w) _); reflexivity.
Qed.

Lemma locate_default ext req root application_dir w :
  has_key "application_file_name" (args req) = false ->
  _extract_application_file ext req root application_dir w
  = (if path_isfile (fs w)
          (path_join (path_join root application_dir)
                     CONVENTION_APPLICATION_BLUEPRINT_FILE)
     then Ok (path_join application_dir CONVENTION_APPLICATION_BLUEPRINT_FILE)
     else Raise (BadParametersError
                   "application directory is missing blueprint.yaml and application_file_name query parameter was not passed"),
     w).
Proof.
  intros Hkey. unfold _extract_application_file, bind, os_path_isfile.
  rewrite Hkey.
  destruct (path_isfile (fs w) _); reflexivity.
Qed.

(** The locator never changes the world. *)
Lemma locate_pure ext req root application_dir w r w' :
  _extract_application_file ext req root application_dir w = (r, w') -> w' = w.
Proof.
  unfold _extract_application_file, bind, os_path_isfile. intros H.
  destruct (has_key _ _).
  - destruct (utf8_decode ext _); [|inversion H; reflexivity].
    destruct (path_isfile _ _); inversion H; reflexivity.
  - destruct (path_isfile _ _); inversion H; reflexivity.
Qed.

(** What the locator returns is relative whenever the staged directory's
    name and the decoded file name are. *)
Lemma path_join_relative a b :
  isabs a = false -> isabs b = false -> isabs (path_join a b) = false.
Proof.
  unfold isabs, path_join. intros Ha Hb. rewrite Hb.
  destruct a as [|c a']; [exact Hb|].
  destruct (ends_with_slash (String c a')); simpl in *; exact Ha.
Qed.

(** C10. With an explicit entry file name the locator joins the decoded
    name to the staged directory and asks only whether a regular file is
    there: a name whose parent-directory components lead to a file [q]
    outside the staged directory is accepted, and the joined path is
    returned. *)
Theorem C10_no_containment_check ext req root application_dir name w sp q d :
  has_key "application_file_name" (args req) = true ->
  utf8_decode ext (unquote (get_key "application_file_name" (args req)))
  = Some name ->
  resolve (fs w) (path_join root application_dir) = Some sp ->
  resolve (fs w) (path_join (path_join root application_dir) name) = Some q ->
  is_prefix sp q = false ->
  stat (fs w) q = Some (KFile d) ->
  _extract_application_file ext req root application_dir w
  = (Ok (path_join application_dir name), w).
Proof.
  intros Hkey Hdec _ Hq _ Hfile.
  rewrite (locate_explicit ext req root application_dir name w Hkey Hdec).
  unfold path_isfile, lstat. rewrite Hq, Hfile. reflexivity.
Qed.

Lemma C10_witness :
  _extract_application_file Scenario.ext0
    (Scenario.req_named "..%2Fsecret.yaml" "ZIP:app")
    "/srv/files" Scenario.staged0 Scenario.w_staged
  = (Ok "app-1f0c/../secret.yaml", Scenario.w_staged).
Proof.
  apply (C10_no_containment_check Scenario.ext0
           (Scenario.req_named "..%2Fsecret.yaml" "ZIP:app")
           "/srv/files" Scenario.staged0 "../secret.yaml" Scenario.w_staged
           ["srv"; "files"; "app-1f0c"] ["srv"; "files"; "secret.yaml"]
           "secret"); reflexivity.
Defined.

(** C9 (where the code departs from it). An explicit file name that is an
    absolute path of an existing file is accepted, and what the locator
    returns is that absolute path, not a path relative to the store
    root. *)
Theorem C9_absolute_name_returned :
  _extract_application_file Scenario.ext0
    (Scenario.req_named "%2Fsrv%2Ffiles%2Fsecret.yaml" "ZIP:app")
    "/srv/files" Scenario.staged0 Scenario.w_staged
  = (Ok "/srv/files/secret.yaml", Scenario.w_staged)
  /\ isabs "/srv/files/secret.yaml" = true.
Proof. split; reflexivity. Qed.

(** *** Reasoning about runs *)

Lemma bind_inv {A B} (m : M A) (k : A -> M B) w r w' :
  bind m k w = (r, w') ->
  (exists a w1, m w = (Ok a, w1) /\ k a w1 = (r, w'))
  \/ (exists e, m w = (Raise e, w') /\ r = Raise e).
Proof.
  unfold bind. destruct (m w) as [[a|e] w1]; intros H.
  - left. exists a, w1. split; [reflexivity | exact H].
  - right. exists e. inversion H; subst. split; reflexivity.
Qed.

Lemma try_except_inv {A} (body : M A) handler w r w' :
  try_except body handler w = (r, w') ->
  (exists a, body w = (Ok a, w') /\ r = Ok a)
  \/ (exists e w1 h, body w = (Raise e, w1) /\ handler e = Some h /\ h w1 = (r, w'))
  \/ (exists e, body w = (Raise e, w') /\ handler e = None /\ r = Raise e).
Proof.
  unfold try_except. destruct (body w) as [[a|e] w1]; intros H.
  - left. exists a. inversion H; subst. split; reflexivity.
  - destruct (handler e) as [h|] eqn:Hh.
    + right; left. exists e, w1, h. repeat split; assumption.
    + right; right. exists e. inversion H; subst. repeat split; assumption.
Qed.

Lemma try_finally_inv {A} (body : M A) fin w r w' :
  try_finally body fin w = (r, w') ->
  exists rb w1, body w = (rb, w1)
    /\ ((fin w1 = (Ok tt, w') /\ r = rb)
        \/ (exists e, fin w1 = (Raise e, w') /\ r = Raise e)).
Proof.
  unfold try_finally. destruct (body w) as [rb w1]. intros H.
  exists rb, w1. split; [reflexivity|].
  destruct (fin w1) as [[[]|e] w2]; inversion H; subst.
  - left. split; reflexivity.
  - right. exists e. split; reflexivity.
Qed.

Lemma raises_ret {A} P (a : A) : raises_only P (ret a).
Proof. intros w e w' H. discriminate. Qed.

Lemma raises_raise {A} (P : Exn -> Prop) e : P e -> raises_only P (@raise A e).
Proof. intros He w e' w' H. inversion H; subst. exact He. Qed.

Lemma raises_commit P ev m : raises_only P (commit ev m).
Proof. intros w e w' H. discriminate. Qed.

Lemma raises_bind {A B} P (m : M A) (k : A -> M B) :
  raises_only P m -> (forall a, raises_only P (k a)) -> raises_only P (bind m k).
Proof.
  intros Hm Hk w e w' H. apply bind_inv in H.
  destruct H as [(a & w1 & _ & H2) | (e' & H1 & H2)].
  - eapply Hk; eassumption.
  - inversion H2; subst. eapply Hm; eassumption.
Qed.

Lemma raises_with_fs {A} P (k : FS -> M A) :
  (forall m, raises_only P (k m)) -> raises_only P (bind get_fs k).
Proof.
  intros Hk. apply raises_bind; [|exact Hk].
  intros w e w' H. discriminate.
Qed.

Lemma raises_try_except {A} (P Q : Exn -> Prop) (body : M A) handler :
  raises_only Q body ->
  (forall e, Q e -> match handler e with
                    | Some h => raises_only P h
                    | None => P e
                    end) ->
  raises_only P (try_except body handler).
Proof.
  intros Hb Hh w e w' H. apply try_except_inv in H.
  destruct H as [(a & _ & H) | [(e0 & w1 & h & H1 & H2 & H3) | (e0 & H1 & H2 & H3)]].
  - discriminate.
  - specialize (Hh e0 (Hb _ _ _ H1)). rewrite H2 in Hh. eapply Hh; eassumption.
  - inversion H3; subst. specialize (Hh _ (Hb _ _ _ H1)). rewrite H2 in Hh. exact Hh.
Qed.

Lemma raises_for_each {A} P (l : list A) body :
  (forall a, raises_only P (body a)) -> raises_only P (for_each l body).
Proof.
  intros Hb. induction l as [|a l IH]; simpl.
  - apply raises_ret.
  - apply raises_bind; [apply Hb | intros _; exact IH].
Qed.

Ltac raises_step :=
  first [ apply raises_ret
        | apply raises_commit
        | apply raises_raise; exact I
        | apply raises_with_fs; intros ?
        | apply raises_bind; [|intros ?] ].

Lemma raises_mkdir_at p : raises_only fs_error (mkdir_at p).
Proof.
  unfold mkdir_at. raises_step.
  destruct p; [raises_step|].
  destruct (stat m (s :: p)); [raises_step|].
  destruct (stat m (parent (s :: p))) as [[]|]; raises_step.
Qed.

Lemma raises_makedirs_rev rp : raises_only fs_error (makedirs_rev rp).
Proof.
  induction rp as [|c rhead IH]; simpl.
  - raises_step.
  - raises_step. raises_step; [|apply raises_mkdir_at].
    destruct (stat m (rev rhead)); [raises_step|].
    eapply raises_try_except; [exact IH|].
    intros e He. destruct (is_eexist e); [apply raises_ret | exact He].
Qed.

Lemma raises_os_makedirs s : raises_only fs_error (os_makedirs s).
Proof.
  unfold os_makedirs. raises_step.
  destruct (resolve m s); [apply raises_makedirs_rev | raises_step].
Qed.

Lemma raises_rename_at src dst : raises_only fs_error (rename_at src dst).
Proof.
  unfold rename_at. raises_step.
  destruct src; [raises_step|]. destruct dst; [raises_step|].
  destruct (stat m (s :: src)) as [k|]; [|raises_step].
  destruct (path_eq_dec _ _); [raises_step|].
  destruct (stat m (parent _)) as [[]|]; try raises_step.
  destruct (is_prefix _ _); [raises_step|].
  destruct k, (stat m (s0 :: dst)) as [[]|]; try raises_step.
  destruct (has_descendant _ _); raises_step.
Qed.

Lemma raises_os_rename src dst : raises_only fs_error (os_rename src dst).
Proof.
  unfold os_rename. raises_step.
  destruct (resolve m src); [|raises_step].
  destruct (resolve m dst); [apply raises_rename_at | raises_step].
Qed.

Lemma raises_shutil_rmtree s : raises_only fs_error (shutil_rmtree s).
Proof.
  unfold shutil_rmtree. raises_step.
  destruct (resolve m s) as [p|]; [|raises_step].
  destruct (stat m p) as [[]|]; [raises_step| |raises_step].
  apply raises_bind; [apply raises_commit|]. intros _. destruct p; raises_step.
Qed.

Lemma raises_copytree src dst : raises_only fs_error (copytree src dst).
Proof.
  unfold copytree. raises_step. raises_step; [apply raises_os_makedirs|].
  raises_step. destruct (resolve m0 dst); [|raises_step].
  apply raises_for_each. intros e. raises_step. raises_step.
Qed.

Lemma raises_shutil_move src dst : raises_only fs_error (shutil_move src dst).
Proof.
  unfold shutil_move. raises_step.
  destruct (path_isdir m dst && _); [apply raises_os_rename|].
  destruct (path_isdir m dst && _); [raises_step|].
  eapply raises_try_except; [apply raises_os_rename|].
  intros e He. destruct e; try contradiction.
  - destruct (resolve m src); [|raises_step].
    destruct (path_isdir m src); [|raises_step].
    destruct (match resolve m dst with Some pd => _ | None => _ end);
      [raises_step|].
    raises_step; [apply raises_copytree | apply raises_shutil_rmtree].
  - exact I.
  - exact I.
Qed.

(** *** Path resolution *)

(** Where a path string leads does not depend on the store; the store only
    decides whether the walk gets through. *)
Lemma walk_det m m' cs : forall cur p p',
  walk m cur cs = Some p -> walk m' cur cs = Some p' -> p = p'.
Proof.
  induction cs as [|c cs IH]; intros cur p p' H H'; simpl in *.
  - congruence.
  - destruct (is_cur c).
    + destruct (stat m cur) as [[]|]; try discriminate.
      destruct (stat m' cur) as [[]|]; try discriminate.
      eapply IH; eassumption.
    + destruct (String.eqb c "..").
      * destruct (stat m cur) as [[]|]; try discriminate.
        destruct (stat m' cur) as [[]|]; try discriminate.
        eapply IH; eassumption.
      * eapply IH; eassumption.
Qed.

Lemma resolve_det m m' s p p' :
  resolve m s = Some p -> resolve m' s = Some p' -> p = p'.
Proof.
  unfold resolve. destruct s; [discriminate|]. apply walk_det.
Qed.

(** *** Extraction and structural validation *)

Lemma os_listdir_inv s w r w' :
  os_listdir s w = (r, w') ->
  w' = w /\ (forall l, r = Ok l ->
             exists p, resolve (fs w) s = Some p /\ stat (fs w) p = Some KDir
                       /\ l = fs_listdir p (fs w)).
Proof.
  unfold os_listdir, bind, get_fs. intros H.
  destruct (resolve (fs w) s) as [p|]; [|inversion H; subst; split; [reflexivity|discriminate]].
  destruct (stat (fs w) p) as [[]|] eqn:Hs;
    inversion H; subst; (split; [reflexivity|]); try discriminate.
  intros l Hl. inversion Hl; subst. exists p. repeat split. exact Hs.
Qed.

Lemma mkdir_at_inv p w r w' :
  mkdir_at p w = (r, w') ->
  (exists e, r = Raise e /\ w' = w)
  \/ (r = Ok tt /\ p <> [] /\ stat (fs w) p = None
      /\ stat (fs w) (parent p) = Some KDir
      /\ w' = mkWorld (fs_set p KDir (fs w))
                      ((EvMkdir p, fs_set p KDir (fs w)) :: history w)).
Proof.
  unfold mkdir_at, bind, get_fs. intros H.
  destruct p as [|c p]; [left; inversion H; eauto|].
  destruct (stat (fs w) (c :: p)) eqn:Hs; [left; inversion H; eauto|].
  destruct (stat (fs w) (parent (c :: p))) as [[]|] eqn:Hp;
    try (left; inversion H; eauto; fail).
  right. inversion H; subst. repeat split; try assumption. discriminate.
Qed.

(** The directory [mkdtemp] returns was made at a path below the root. *)
Lemma mkdtemp_from_made d suffix names : forall w t w1,
  mkdtemp_from d suffix names w = (Ok t, w1) ->
  exists m p, resolve m t = Some p /\ p <> [].
Proof.
  induction names as [|n names IH]; intros w t w1 H; simpl in H.
  - discriminate.
  - apply try_except_inv in H.
    destruct H as [(a & H & Ha) | [(e & w2 & h & H1 & H2 & H3) | (e & _ & _ & H3)]].
    + inversion Ha; subst a. apply bind_inv in H.
      destruct H as [(u & w2 & Hmk & Hret) | (e & _ & He)]; [|discriminate].
      inversion Hret; subst. unfold os_mkdir, bind, get_fs in Hmk.
      destruct (resolve (fs w) _) as [p|] eqn:Hr; [|discriminate].
      apply mkdir_at_inv in Hmk.
      destruct Hmk as [(e & He & _) | (_ & Hne & _)]; [discriminate|].
      exists (fs w), p. split; assumption.
    + destruct (is_eexist e); [|discriminate]. inversion H2; subst h.
      eapply IH; eassumption.
    + discriminate.
Qed.

Lemma shutil_rmtree_ok s w p :
  resolve (fs w) s = Some p -> stat (fs w) p = Some KDir -> p <> [] ->
  shutil_rmtree s w
  = (Ok tt, mkWorld (fs_rmtree p (fs w))
                    ((EvRmtree p, fs_rmtree p (fs w)) :: history w)).
Proof.
  intros Hr Hs Hne. unfold shutil_rmtree, bind, get_fs. rewrite Hr, Hs.
  destruct p; [contradiction|]. reflexivity.
Qed.

(** C4. Once the archive is unpacked into the temporary directory,
    [_extract_file_to_file_server] fails with "archive must contain
    exactly 1 directory" exactly when the listing of that directory is not
    a single entry that is a directory: two top-level directories or a
    top-level file always fail so, a single top-level directory never
    does. *)
Theorem C4_structural_validation ext root archive w tempdir w1 w2 listing :
  mkdtemp_from (gettempdir ext) "-blueprint-submit" (mkdtemp_names ext) w
  = (Ok tempdir, w1) ->
  unpack_archive ext archive tempdir w1 = (Ok tt, w2) ->
  os_listdir tempdir w2 = (Ok listing, w2) ->
  (fst (_extract_file_to_file_server ext root archive w)
   = Raise (BadParametersError MSG_ONE_DIR)
   <-> ~ (exists d, listing = [d]
                    /\ path_isdir (fs w2) (path_join tempdir d) = true)).
Proof.
  intros Hmk Hun Hls.
  destruct (os_listdir_inv _ _ _ _ Hls) as [_ Hl].
  destruct (Hl listing eq_refl) as (p & Hres & Hdir & _).
  destruct (mkdtemp_from_made _ _ _ _ _ _ Hmk) as (m0 & p0 & Hres0 & Hne0).
  assert (p = p0) by (eapply resolve_det; eassumption). subst p0.
  pose proof (shutil_rmtree_ok tempdir w2 p Hres Hdir Hne0) as Hrm.
  unfold _extract_file_to_file_server, extract_body, bind, try_finally,
    try_except, os_path_isdir, ret, raise.
  rewrite Hmk, Hun, Hls.
  destruct (Nat.eqb (length listing) 1) eqn:Hlen; cbn [negb].
  - apply Nat.eqb_eq in Hlen.
    destruct listing as [|d [|d' rest]]; try discriminate. clear Hlen.
    cbn [nth].
    destruct (path_isdir (fs w2) (path_join tempdir d)) eqn:Hisd; cbn [negb].
    + (* one directory: validation passes *)
      split.
      * intros Hres'. exfalso.
        destruct (shutil_move _ _ w2) as [[[]|e1] w3] eqn:Hm1.
        -- destruct (shutil_move _ _ w3) as [[[]|e2] w4] eqn:Hm2.
           ++ destruct (shutil_rmtree tempdir w4) as [[[]|e3] w5] eqn:Hfin;
                simpl in Hres'; [discriminate|].
              inversion Hres'; subst e3.
              exact (raises_shutil_rmtree _ _ _ _ Hfin).
           ++ destruct (shutil_rmtree tempdir w4) as [[[]|e3] w5] eqn:Hfin;
                simpl in Hres'; inversion Hres'; subst.
              ** exact (raises_shutil_move _ _ _ _ _ Hm2).
              ** exact (raises_shutil_rmtree _ _ _ _ Hfin).
        -- destruct (shutil_rmtree tempdir w3) as [[[]|e3] w5] eqn:Hfin;
             simpl in Hres'; inversion Hres'; subst.
           ++ exact (raises_shutil_move _ _ _ _ _ Hm1).
           ++ exact (raises_shutil_rmtree _ _ _ _ Hfin).
      * intros Hno. exfalso. apply Hno. exists d. split; [reflexivity|exact Hisd].
    + rewrite Hrm. simpl. split.
      * intros _ (d0 & Heq & Hd0). inversion Heq; subst d0. congruence.
      * reflexivity.
  - rewrite Hrm. simpl. split.
    + intros _ (d0 & Heq & _). subst listing. discriminate.
    + reflexivity.
Qed.

(** *** The store: prefixes and lookups *)

Arguments temp_name : simpl never.
Arguments upd : simpl never.
Arguments remove_key : simpl never.

Lemma is_prefix_spec p : forall q,
  is_prefix p q = true <-> exists r, q = p ++ r.
Proof.
  induction p as [|a p IH]; intros q; simpl.
  - split; [intros _; exists q; reflexivity | reflexivity].
  - destruct q as [|b q].
    + split; [discriminate | intros [r Hr]; discriminate].
    + rewrite andb_true_iff, String.eqb_eq, IH. split.
      * intros [-> [r ->]]. exists r. reflexivity.
      * intros [r Hr]. inversion Hr; subst. split; [reflexivity|].
        exists r. reflexivity.
Qed.

Lemma is_prefix_app p r : is_prefix p (p ++ r) = true.
Proof. apply is_prefix_spec. exists r. reflexivity. Qed.

Lemma is_prefix_refl p : is_prefix p p = true.
Proof. apply is_prefix_spec. exists []. symmetry. apply app_nil_r. Qed.

Lemma is_prefix_trans p q r :
  is_prefix p q = true -> is_prefix q r = true -> is_prefix p r = true.
Proof.
  rewrite !is_prefix_spec. intros [a ->] [b ->].
  exists (a ++ b). symmetry. apply app_assoc.
Qed.

Lemma is_prefix_length p q : is_prefix p q = true -> length p <= length q.
Proof.
  rewrite is_prefix_spec. intros [r ->]. rewrite length_app. lia.
Qed.

Lemma is_prefix_same_length p q :
  is_prefix p q = true -> length p = length q -> p = q.
Proof.
  rewrite is_prefix_spec. intros [r ->]. rewrite length_app. intros H.
  destruct r; [symmetry; apply app_nil_r | simpl in H; lia].
Qed.

Lemma skipn_app_exact {A} (p r : list A) : skipn (length p) (p ++ r) = r.
Proof. induction p; simpl; auto. Qed.

(** Two prefixes of one path are comparable. *)
Lemma is_prefix_comparable p : forall q r,
  is_prefix p r = true -> is_prefix q r = true ->
  is_prefix p q = true \/ is_prefix q p = true.
Proof.
  induction p as [|a p IH]; intros q r Hp Hq.
  - left. reflexivity.
  - destruct q as [|b q]; [right; reflexivity|].
    destruct r as [|c r]; [discriminate|]. simpl in *.
    apply andb_true_iff in Hp, Hq. destruct Hp as [Hac Hp], Hq as [Hbc Hq].
    apply String.eqb_eq in Hac, Hbc. subst.
    rewrite !String.eqb_refl. simpl. eapply IH; eassumption.
Qed.

Lemma parent_cons c d p : parent (c :: d :: p) = c :: parent (d :: p).
Proof. reflexivity. Qed.

Lemma parent_snoc p c : parent (p ++ [c]) = p.
Proof. unfold parent. apply removelast_last. Qed.

Lemma assoc_remove_key c c' es :
  assoc c' (remove_key c es) = if String.eqb c c' then None else assoc c' es.
Proof.
  unfold remove_key. induction es as [|[k n] es IH]; simpl.
  - destruct (String.eqb c c'); reflexivity.
  - destruct (String.eqb k c) eqn:Hkc; simpl.
    + apply String.eqb_eq in Hkc. subst k. rewrite IH.
      destruct (String.eqb c c'); reflexivity.
    + destruct (String.eqb k c') eqn:Hkc'; [|exact IH].
      apply String.eqb_eq in Hkc'. subst k.
      rewrite String.eqb_sym, Hkc. reflexivity.
Qed.

Lemma assoc_upd c n c' es :
  assoc c' (upd c n es) = if String.eqb c c' then Some n else assoc c' es.
Proof.
  unfold upd. simpl. destruct (String.eqb c c') eqn:E; [reflexivity|].
  rewrite assoc_remove_key, E. reflexivity.
Qed.

Lemma get_node_app n p r :
  get_node n (p ++ r)
  = match get_node n p with
    | Some n' => get_node n' r
    | None => None
    end.
Proof.
  revert n. induction p as [|c p IH]; intros n; simpl; [reflexivity|].
  destruct n as [d|es]; [reflexivity|].
  destruct (assoc c es); [apply IH | reflexivity].
Qed.

Lemma get_node_file d q : q <> [] -> get_node (File d) q = None.
Proof. destruct q; [contradiction | reflexivity]. Qed.

(** What a lookup sees after [put_node]. *)
Lemma get_put_node p : forall n new q es0,
  p <> [] ->
  get_node n (parent p) = Some (Dir es0) ->
  option_map kind_of (get_node (put_node n p new) q)
  = if is_prefix p q
    then option_map kind_of (get_node new (skipn (length p) q))
    else option_map kind_of (get_node n q).
Proof.
  induction p as [|c p IH]; intros n new q es0 Hne Hpar; [contradiction|].
  destruct p as [|c2 p].
  - (* the last name *)
    simpl in Hpar. inversion Hpar; subst n. cbn [put_node].
    destruct q as [|c' q]; [reflexivity|].
    cbn [get_node]. rewrite assoc_upd. cbn [is_prefix].
    destruct (String.eqb c c') eqn:E; simpl; reflexivity.
  - rewrite parent_cons in Hpar. cbn [get_node] in Hpar.
    destruct n as [d|es]; [discriminate|].
    destruct (assoc c es) as [n'|] eqn:Hc; [|discriminate].
    change (put_node (Dir es) (c :: c2 :: p) new)
      with (match assoc c es with
            | Some n' => Dir (upd c (put_node n' (c2 :: p) new) es)
            | None => Dir es
            end).
    rewrite Hc.
    destruct q as [|c' q]; [reflexivity|].
    cbn [get_node]. rewrite assoc_upd.
    change (is_prefix (c :: c2 :: p) (c' :: q))
      with (String.eqb c c' && is_prefix (c2 :: p) q).
    destruct (String.eqb c c') eqn:E.
    + apply String.eqb_eq in E. subst c'. rewrite Hc. simpl andb.
      change (skipn (length (c :: c2 :: p)) (c :: q))
        with (skipn (length (c2 :: p)) q).
      eapply IH; [discriminate | exact Hpar].
    + reflexivity.
Qed.

(** What a lookup sees after [del_node]. *)
Lemma get_del_node p : forall n q,
  p <> [] ->
  option_map kind_of (get_node (del_node n p) q)
  = if is_prefix p q then None else option_map kind_of (get_node n q).
Proof.
  induction p as [|c p IH]; intros n q Hne; [contradiction|].
  destruct p as [|c2 p].
  - cbn [del_node]. destruct n as [d|es].
    + destruct q as [|c' q]; simpl; [reflexivity|].
      destruct (String.eqb c c'); reflexivity.
    + destruct q as [|c' q]; [reflexivity|].
      cbn [get_node]. rewrite assoc_remove_key. cbn [is_prefix].
      destruct (String.eqb c c'); reflexivity.
  - change (del_node n (c :: c2 :: p))
      with (match n with
            | Dir es =>
                match assoc c es with
                | Some n' => Dir (upd c (del_node n' (c2 :: p)) es)
                | None => n
                end
            | File _ => n
            end).
    change (is_prefix (c :: c2 :: p) q)
      with (match q with
            | [] => false
            | c' :: q' => String.eqb c c' && is_prefix (c2 :: p) q'
            end).
    destruct n as [d|es].
    + destruct q as [|c' q]; simpl; [reflexivity|].
      destruct (String.eqb c c' && _); reflexivity.
    + destruct (assoc c es) as [n'|] eqn:Hc.
      * destruct q as [|c' q]; [reflexivity|].
        cbn [get_node]. rewrite assoc_upd.
        destruct (String.eqb c c') eqn:E.
        -- apply String.eqb_eq in E. subst c'. rewrite Hc. simpl andb.
           apply IH. discriminate.
        -- reflexivity.
      * destruct q as [|c' q]; [reflexivity|].
        cbn [get_node].
        destruct (String.eqb c c') eqn:E; [|reflexivity].
        apply String.eqb_eq in E. subst c'. rewrite Hc. cbn [andb option_map].
        destruct (is_prefix (c2 :: p) q); reflexivity.
Qed.

Lemma put_node_dir p : forall es new,
  p <> [] -> exists es', put_node (Dir es) p new = Dir es'.
Proof.
  intros es new Hne. destruct p as [|c p]; [contradiction|].
  destruct p as [|c2 p]; simpl.
  - eexists. reflexivity.
  - destruct (assoc c es); eexists; reflexivity.
Qed.

Lemma del_node_dir p : forall es,
  exists es', del_node (Dir es) p = Dir es'.
Proof.
  intros es. destruct p as [|c p]; [eexists; reflexivity|].
  destruct p as [|c2 p]; simpl.
  - eexists. reflexivity.
  - destruct (assoc c es); eexists; reflexivity.
Qed.

Lemma stat_nil m : stat m [] = Some KDir.
Proof. reflexivity. Qed.

Lemma get_kind m p n : get m p = Some n -> stat m p = Some (kind_of n).
Proof. unfold stat. intros ->. reflexivity. Qed.

Lemma stat_dir_get m p :
  stat m p = Some KDir -> exists es, get m p = Some (Dir es).
Proof.
  unfold stat. destruct (get m p) as [[d|es]|]; try discriminate.
  intros _. exists es. reflexivity.
Qed.

(** An entry exists only below directories. *)
Lemma stat_app m p r :
  stat m (p ++ r)
  = match get m p with
    | Some n => option_map kind_of (get_node n r)
    | None => None
    end.
Proof.
  unfold stat, get. rewrite get_node_app.
  destruct (get_node (Dir m) p); reflexivity.
Qed.

Lemma stat_below_absent m p r : stat m p = None -> stat m (p ++ r) = None.
Proof.
  intros H. rewrite stat_app. unfold stat in H.
  destruct (get m p); [discriminate | reflexivity].
Qed.

Lemma stat_below_file m p r d :
  stat m p = Some (KFile d) -> r <> [] -> stat m (p ++ r) = None.
Proof.
  intros H Hr. rewrite stat_app. unfold stat in H.
  destruct (get m p) as [[d'|es]|]; try discriminate.
  rewrite get_node_file by exact Hr. reflexivity.
Qed.

Lemma stat_above m p r k :
  stat m (p ++ r) = Some k -> r <> [] -> stat m p = Some KDir.
Proof.
  intros H Hr. destruct (stat m p) as [[d|]|] eqn:Hp.
  - rewrite (stat_below_file m p r d Hp Hr) in H. discriminate.
  - reflexivity.
  - rewrite (stat_below_absent m p r Hp) in H. discriminate.
Qed.

Lemma stat_prefix_absent m p q :
  stat m p = None -> is_prefix p q = true -> stat m q = None.
Proof.
  intros H Hpq. apply is_prefix_spec in Hpq. destruct Hpq as [r ->].
  apply stat_below_absent. exact H.
Qed.

Lemma stat_fs_set p k m q :
  p <> [] -> stat m (parent p) = Some KDir ->
  stat (fs_set p k m) q
  = if is_prefix p q
    then (if path_eq_dec p q then Some k else None)
    else stat m q.
Proof.
  intros Hne Hpar. apply stat_dir_get in Hpar. destruct Hpar as [es0 Hpar].
  unfold stat, get, fs_set. destruct p as [|c p]; [contradiction|].
  destruct (put_node_dir (c :: p) m (node_of k) Hne) as [es' Hput].
  rewrite Hput. simpl entries_of. rewrite <- Hput.
  rewrite (get_put_node (c :: p) (Dir m) (node_of k) q es0 Hne Hpar).
  destruct (is_prefix (c :: p) q) eqn:Hpq; [|reflexivity].
  apply is_prefix_spec in Hpq. destruct Hpq as [r ->].
  rewrite skipn_app_exact.
  destruct r as [|c' r].
  - rewrite app_nil_r. destruct (path_eq_dec (c :: p) (c :: p)); [|congruence].
    destruct k; reflexivity.
  - destruct (path_eq_dec (c :: p) ((c :: p) ++ c' :: r)) as [E|_].
    + exfalso. apply (f_equal (@length string)) in E.
      rewrite length_app in E. simpl in E. lia.
    + destruct k; reflexivity.
Qed.

Lemma stat_fs_rmtree p m q :
  p <> [] ->
  stat (fs_rmtree p m) q = if is_prefix p q then None else stat m q.
Proof.
  intros Hne. unfold stat, get, fs_rmtree. destruct p as [|c p]; [contradiction|].
  destruct (del_node_dir (c :: p) m) as [es' Hdel].
  rewrite Hdel. simpl entries_of. rewrite <- Hdel.
  apply get_del_node. exact Hne.
Qed.

Lemma stat_fs_unlink p m q :
  p <> [] ->
  stat (fs_unlink p m) q = if is_prefix p q then None else stat m q.
Proof.
  intros Hne. unfold stat, get, fs_unlink.
  destruct (del_node_dir p m) as [es' Hdel].
  rewrite Hdel. simpl entries_of. rewrite <- Hdel.
  apply get_del_node. exact Hne.
Qed.

Lemma stat_fs_rename src dst m q :
  src <> [] -> dst <> [] -> stat m src <> None ->
  stat m (parent dst) = Some KDir -> is_prefix src dst = false ->
  stat (fs_rename src dst m) q
  = if is_prefix dst q then stat m (src ++ skipn (length dst) q)
    else if is_prefix src q then None
    else stat m q.
Proof.
  intros Hs Hd Hex Hpar Hsd.
  unfold fs_rename. destruct (get m src) as [n|] eqn:Hget;
    [|unfold stat in Hex; rewrite Hget in Hex; contradiction].
  destruct src as [|cs src]; [contradiction|].
  destruct dst as [|cd dst]; [contradiction|].
  assert (Hpar' : exists es0,
             get_node (del_node (Dir m) (cs :: src)) (parent (cd :: dst))
             = Some (Dir es0)).
  { pose proof (get_del_node (cs :: src) (Dir m) (parent (cd :: dst)) Hs) as H.
    destruct (is_prefix (cs :: src) (parent (cd :: dst))) eqn:Hsp.
    - exfalso. assert (is_prefix (cs :: src) (cd :: dst) = true); [|congruence].
      eapply is_prefix_trans; [exact Hsp|].
      apply is_prefix_spec. exists [last (cd :: dst) EmptyString].
      unfold parent. apply app_removelast_last. discriminate.
    - unfold stat, get in Hpar. rewrite Hpar in H.
      destruct (get_node (del_node (Dir m) (cs :: src)) (parent (cd :: dst)))
        as [[d|es0]|]; try discriminate.
      exists es0. reflexivity. }
  destruct Hpar' as [es0 Hpar'].
  unfold stat, get.
  destruct (del_node_dir (cs :: src) m) as [es1 Hdel].
  rewrite Hdel in *.
  destruct (put_node_dir (cd :: dst) es1 n Hd) as [es2 Hput].
  rewrite Hput. simpl entries_of. rewrite <- Hput.
  rewrite (get_put_node (cd :: dst) (Dir es1) n q es0 Hd Hpar').
  destruct (is_prefix (cd :: dst) q) eqn:Hdq.
  - rewrite get_node_app. unfold get in Hget. rewrite Hget. reflexivity.
  - rewrite <- Hdel. apply get_del_node. exact Hs.
Qed.

Lemma in_map_fst_assoc c (es : list (string * Node)) :
  In c (map fst es) <-> assoc c es <> None.
Proof.
  induction es as [|[k n] es IH]; simpl.
  - split; [contradiction | congruence].
  - destruct (String.eqb k c) eqn:E.
    + apply String.eqb_eq in E. split; [discriminate | intros _; left; exact E].
    + apply String.eqb_neq in E. rewrite <- IH. split.
      * intros [H|H]; [contradiction | exact H].
      * intros H. right. exact H.
Qed.

(** A name is listed in a directory exactly when the path it makes
    exists. *)
Lemma in_fs_listdir m p c :
  stat m p = Some KDir ->
  (In c (fs_listdir p m) <-> stat m (p ++ [c]) <> None).
Proof.
  intros Hdir. apply stat_dir_get in Hdir. destruct Hdir as [es Hget].
  unfold fs_listdir. rewrite Hget, nodup_In, in_map_fst_assoc.
  rewrite stat_app, Hget. simpl.
  destruct (assoc c es); simpl; split; congruence.
Qed.

(** *** Path strings and their resolution *)

Lemma string_app_nil_r (s : string) : (s ++ EmptyString)%string = s.
Proof. induction s; simpl; congruence. Qed.

Lemma string_app_assoc (a b c : string) :
  ((a ++ b) ++ c)%string = (a ++ (b ++ c))%string.
Proof. induction a; simpl; congruence. Qed.

Lemma has_char_app c a b :
  has_char c (a ++ b)%string = has_char c a || has_char c b.
Proof.
  induction a as [|d a IH]; simpl; [reflexivity|].
  rewrite IH. apply orb_assoc.
Qed.

Lemma split_slash_not_nil s : split_slash s <> [].
Proof.
  destruct s as [|c s]; simpl; [discriminate|].
  destruct (Ascii.eqb c slash); [discriminate|].
  destruct (split_slash s); discriminate.
Qed.

Lemma split_slash_app_no_slash a s :
  no_slash a = true ->
  split_slash (a ++ s)
  = match split_slash s with
    | h :: t => (a ++ h)%string :: t
    | [] => [a]
    end.
Proof.
  unfold no_slash. induction a as [|c a IH]; simpl; intros H.
  - destruct (split_slash s) eqn:E; [|reflexivity].
    exfalso. exact (split_slash_not_nil s E).
  - apply negb_true_iff, orb_false_iff in H. destruct H as [Hc Ha].
    rewrite Hc. rewrite IH by (rewrite Ha; reflexivity).
    destruct (split_slash s); reflexivity.
Qed.

Lemma split_slash_no_slash a : no_slash a = true -> split_slash a = [a].
Proof.
  intros H. rewrite <- (string_app_nil_r a) at 1.
  rewrite split_slash_app_no_slash by exact H. simpl.
  rewrite string_app_nil_r. reflexivity.
Qed.

Lemma plain_name_spec s :
  plain_name s = true ->
  s <> EmptyString /\ is_cur s = false /\ String.eqb s ".." = false
  /\ no_slash s = true.
Proof.
  unfold plain_name, is_cur, no_slash. rewrite !andb_true_iff, !negb_true_iff.
  intros [[[H1 H2] H3] H4]. repeat split; try assumption.
  - intros ->. discriminate.
  - rewrite H1, H2. reflexivity.
Qed.

Lemma abspath_app a b : abspath (a ++ b) = (abspath a ++ abspath b)%string.
Proof.
  induction a as [|c a IH]; simpl; [reflexivity|].
  rewrite IH, string_app_assoc. reflexivity.
Qed.

Lemma split_abspath cs :
  forallb plain_name cs = true -> cs <> [] ->
  split_slash (abspath cs) = EmptyString :: cs.
Proof.
  induction cs as [|c cs IH]; intros Hp Hne; [contradiction|].
  simpl in Hp. apply andb_true_iff in Hp. destruct Hp as [Hc Hcs].
  destruct (plain_name_spec c Hc) as (_ & _ & _ & Hns).
  simpl. f_equal. rewrite split_slash_app_no_slash by exact Hns.
  destruct cs as [|c2 cs].
  - simpl. rewrite string_app_nil_r. reflexivity.
  - rewrite IH by (assumption || discriminate).
    rewrite string_app_nil_r. reflexivity.
Qed.

Lemma walk_plain m cs : forall cur,
  forallb plain_name cs = true -> walk m cur cs = Some (cur ++ cs).
Proof.
  induction cs as [|c cs IH]; intros cur Hp; simpl.
  - rewrite app_nil_r. reflexivity.
  - simpl in Hp. apply andb_true_iff in Hp. destruct Hp as [Hc Hcs].
    destruct (plain_name_spec c Hc) as (_ & H1 & H2 & _).
    rewrite H1, H2, IH by exact Hcs. rewrite <- app_assoc. reflexivity.
Qed.

(** An absolute path of plain names resolves to those names, whatever the
    store holds. *)
Lemma resolve_abspath m cs :
  forallb plain_name cs = true -> cs <> [] ->
  resolve m (abspath cs) = Some cs.
Proof.
  intros Hp Hne. unfold resolve.
  destruct (abspath cs) eqn:E; [destruct cs; [contradiction | discriminate]|].
  rewrite <- E, split_abspath by assumption.
  simpl. apply walk_plain. exact Hp.
Qed.

Lemma ends_with_slash_app a b :
  b <> EmptyString -> ends_with_slash (a ++ b) = ends_with_slash b.
Proof.
  intros Hb. induction a as [|d a IH]; [reflexivity|].
  change ((String d a ++ b)%string) with (String d (a ++ b)).
  cbn [ends_with_slash]. destruct (a ++ b)%string eqn:E; [|exact IH].
  destruct a; [simpl in E; contradiction | discriminate].
Qed.

Lemma ends_with_slash_no_slash s : no_slash s = true -> ends_with_slash s = false.
Proof.
  unfold no_slash. induction s as [|c s IH]; [reflexivity|].
  simpl. intros H. apply negb_true_iff, orb_false_iff in H.
  destruct H as [Hc Hs]. destruct s; [exact Hc|].
  apply IH. rewrite Hs. reflexivity.
Qed.

Lemma ends_with_slash_abspath cs :
  forallb plain_name cs = true -> ends_with_slash (abspath cs) = false.
Proof.
  intros Hp. destruct cs as [|c0 cs0] using rev_ind; [reflexivity|]. clear IHcs0.
  rewrite forallb_app in Hp. apply andb_true_iff in Hp. destruct Hp as [_ Hc].
  simpl in Hc. rewrite andb_true_r in Hc.
  destruct (plain_name_spec c0 Hc) as (Hne & _ & _ & Hns).
  rewrite abspath_app. simpl abspath. rewrite string_app_nil_r.
  rewrite ends_with_slash_app by discriminate.
  change (("/" ++ c0)%string) with (String "/" c0).
  cbn [ends_with_slash]. destruct c0; [contradiction|].
  apply ends_with_slash_no_slash. exact Hns.
Qed.

Lemma starts_with_slash_plain c : plain_name c = true -> starts_with_slash c = false.
Proof.
  intros H. destruct (plain_name_spec c H) as (_ & _ & _ & Hns).
  unfold no_slash in Hns. destruct c as [|x c]; [reflexivity|].
  simpl in *. apply negb_true_iff, orb_false_iff in Hns. tauto.
Qed.

(** Joining a plain name to an absolute path of plain names. *)
Lemma path_join_abspath cs c :
  forallb plain_name cs = true -> cs <> [] -> plain_name c = true ->
  path_join (abspath cs) c = abspath (cs ++ [c]).
Proof.
  intros Hp Hne Hc. unfold path_join.
  rewrite (starts_with_slash_plain c Hc).
  rewrite (ends_with_slash_abspath cs Hp).
  rewrite abspath_app. simpl abspath. rewrite string_app_nil_r.
  destruct (abspath cs) eqn:E; [destruct cs; [contradiction|discriminate]|].
  reflexivity.
Qed.

Lemma forallb_plain_snoc cs c :
  forallb plain_name cs = true -> plain_name c = true ->
  forallb plain_name (cs ++ [c]) = true.
Proof.
  intros H1 H2. rewrite forallb_app, H1. simpl. rewrite H2. reflexivity.
Qed.

Lemma snoc_not_nil {A} (l : list A) (a : A) : l ++ [a] <> [].
Proof. destruct l; discriminate. Qed.

Lemma rstrip_slash_no_trailing s :
  ends_with_slash s = false -> rstrip_slash s = s.
Proof.
  induction s as [|c s IH]; [reflexivity|].
  intros H. simpl. destruct s as [|c2 s].
  - simpl in *. rewrite H. reflexivity.
  - rewrite IH by exact H. reflexivity.
Qed.

Lemma basename_abspath cs c :
  forallb plain_name cs = true -> plain_name c = true ->
  basename (abspath (cs ++ [c])) = c.
Proof.
  intros Hp Hc. unfold basename.
  rewrite split_abspath;
    [| apply forallb_plain_snoc; assumption | apply snoc_not_nil].
  change (EmptyString :: cs ++ [c]) with ((EmptyString :: cs) ++ [c]).
  apply last_last.
Qed.

(** The names the pipeline generates are plain. *)
Lemma plain_tmp_name n suffix :
  no_slash n = true -> no_slash suffix = true ->
  plain_name (temp_name n suffix) = true.
Proof.
  unfold no_slash, plain_name, temp_name. intros Hn Hs.
  apply negb_true_iff in Hn, Hs. simpl.
  rewrite has_char_app, Hn, Hs. reflexivity.
Qed.

Lemma string_eqb_app_dash b u t :
  has_char "-"%char t = false -> String.eqb (b ++ "-" ++ u) t = false.
Proof.
  intros H. apply String.eqb_neq. intros E. subst t.
  rewrite has_char_app in H. simpl in H. rewrite orb_true_r in H. discriminate.
Qed.

Lemma plain_generated_name b u :
  no_slash b = true -> no_slash u = true -> plain_name (b ++ "-" ++ u) = true.
Proof.
  unfold no_slash, plain_name. intros Hb Hu.
  apply negb_true_iff in Hb, Hu.
  rewrite !string_eqb_app_dash by reflexivity.
  rewrite !has_char_app. simpl. rewrite Hb, Hu. reflexivity.
Qed.

Lemma string_length_app (a b : string) :
  String.length (a ++ b) = String.length a + String.length b.
Proof. induction a; simpl; congruence. Qed.

Lemma generated_name_differs b u : (b ++ "-" ++ u)%string <> b.
Proof.
  intros E. apply (f_equal String.length) in E.
  rewrite string_length_app in E. simpl in E. lia.
Qed.

(** *** Frames *)

Lemma put_node_outside p : forall n new q,
  p <> [] -> is_prefix p q = false ->
  option_map kind_of (get_node (put_node n p new) q)
  = option_map kind_of (get_node n q).
Proof.
  induction p as [|c p IH]; intros n new q Hne Hpq; [contradiction|].
  destruct p as [|c2 p].
  - cbn [put_node]. destruct n as [d|es]; [reflexivity|].
    destruct q as [|c' q]; [reflexivity|].
    cbn [get_node]. rewrite assoc_upd. cbn [is_prefix] in Hpq.
    rewrite andb_true_r in Hpq. rewrite Hpq. reflexivity.
  - change (put_node n (c :: c2 :: p) new)
      with (match n with
            | Dir es =>
                match assoc c es with
                | Some n' => Dir (upd c (put_node n' (c2 :: p) new) es)
                | None => n
                end
            | File _ => n
            end).
    destruct n as [d|es]; [reflexivity|].
    destruct (assoc c es) as [n'|] eqn:Hc; [|reflexivity].
    destruct q as [|c' q]; [reflexivity|].
    cbn [get_node]. rewrite assoc_upd.
    change (is_prefix (c :: c2 :: p) (c' :: q))
      with (String.eqb c c' && is_prefix (c2 :: p) q) in Hpq.
    destruct (String.eqb c c') eqn:E; [|reflexivity].
    apply String.eqb_eq in E. subst c'. rewrite Hc.
    apply IH; [discriminate | exact Hpq].
Qed.

Lemma stat_fs_set_outside p k m q :
  is_prefix p q = false -> stat (fs_set p k m) q = stat m q.
Proof.
  intros Hpq. unfold fs_set. destruct p as [|c p]; [reflexivity|].
  unfold stat, get.
  destruct (put_node_dir (c :: p) m (node_of k)) as [es' Hput]; [discriminate|].
  rewrite Hput. simpl entries_of. rewrite <- Hput.
  apply put_node_outside; [discriminate | exact Hpq].
Qed.

Lemma stat_fs_rename_outside src dst m q :
  is_prefix src q = false -> is_prefix dst q = false ->
  stat (fs_rename src dst m) q = stat m q.
Proof.
  intros Hs Hd. unfold fs_rename.
  destruct (get m src) as [n|]; [|reflexivity].
  destruct src as [|cs src]; [reflexivity|].
  destruct dst as [|cd dst]; [reflexivity|].
  unfold stat, get.
  destruct (del_node_dir (cs :: src) m) as [es1 Hdel]. rewrite Hdel.
  destruct (put_node_dir (cd :: dst) es1 n) as [es2 Hput]; [discriminate|].
  rewrite Hput. simpl entries_of. rewrite <- Hput.
  rewrite put_node_outside by (discriminate || exact Hd).
  rewrite <- Hdel, get_del_node by discriminate. rewrite Hs. reflexivity.
Qed.

Lemma agree_outside_refl R m : agree_outside R m m.
Proof. intros q _. reflexivity. Qed.

Lemma agree_outside_trans R m1 m2 m3 :
  agree_outside R m1 m2 -> agree_outside R m2 m3 -> agree_outside R m1 m3.
Proof. intros H12 H23 q Hq. rewrite (H23 q Hq). apply H12. exact Hq. Qed.

Lemma agree_outside_weaken (R R' : Path -> bool) m m' :
  (forall q, R q = true -> R' q = true) ->
  agree_outside R m m' -> agree_outside R' m m'.
Proof.
  intros Hsub H q Hq. apply H. destruct (R q) eqn:E; [|reflexivity].
  rewrite (Hsub q E) in Hq. discriminate.
Qed.

Lemma touches_only_refl R w : touches_only R w w.
Proof.
  exists []. split; [reflexivity|]. split; [constructor | apply agree_outside_refl].
Qed.

Lemma touches_only_trans R w1 w2 w3 :
  touches_only R w1 w2 -> touches_only R w2 w3 -> touches_only R w1 w3.
Proof.
  intros (n1 & H1 & F1 & A1) (n2 & H2 & F2 & A2).
  exists (n2 ++ n1). split; [|split].
  - rewrite H2, H1. apply app_assoc.
  - apply Forall_app. split; [|exact F1].
    eapply Forall_impl; [|exact F2]. intros em Hem.
    eapply agree_outside_trans; eassumption.
  - eapply agree_outside_trans; eassumption.
Qed.

Lemma touches_only_weaken (R R' : Path -> bool) w w' :
  (forall q, R q = true -> R' q = true) ->
  touches_only R w w' -> touches_only R' w w'.
Proof.
  intros Hsub (n & H & F & A). exists n. split; [exact H|]. split.
  - eapply Forall_impl; [|exact F]. intros em.
    apply agree_outside_weaken. exact Hsub.
  - eapply agree_outside_weaken; eassumption.
Qed.

Lemma touches_only_commit R ev m' w :
  agree_outside R (fs w) m' ->
  touches_only R w (mkWorld m' ((ev, m') :: history w)).
Proof.
  intros H. exists [(ev, m')]. split; [reflexivity|]. split; [|exact H].
  constructor; [exact H | constructor].
Qed.

Lemma touches_only_call_out R ev w :
  touches_only R w (mkWorld (fs w) ((ev, fs w) :: history w)).
Proof. apply touches_only_commit, agree_outside_refl. Qed.

Lemma touches_only_agree R w w' :
  touches_only R w w' -> agree_outside R (fs w) (fs w').
Proof. intros (n & _ & _ & A). exact A. Qed.

Lemma parent_last p : p <> [] -> p = parent p ++ [last p EmptyString].
Proof. intros H. unfold parent. apply app_removelast_last. exact H. Qed.

Lemma stat_parent_dir m p k :
  stat m p = Some k -> p <> [] -> stat m (parent p) = Some KDir.
Proof.
  intros H Hne. rewrite (parent_last p Hne) in H.
  eapply stat_above; [exact H | discriminate].
Qed.

Lemma is_prefix_parent p : p <> [] -> is_prefix p (parent p) = false.
Proof.
  intros Hne. destruct (is_prefix p (parent p)) eqn:E; [|reflexivity].
  apply is_prefix_length in E. rewrite (parent_last p Hne) in E at 1.
  rewrite length_app in E. simpl in E. lia.
Qed.

Lemma stat_fs_set_same p k m :
  p <> [] -> stat m (parent p) = Some KDir -> stat (fs_set p k m) p = Some k.
Proof.
  intros Hne Hpar. rewrite stat_fs_set, is_prefix_refl by assumption.
  destruct (path_eq_dec p p); [reflexivity | congruence].
Qed.

Lemma agree_outside_fs_set p k m : agree_outside (is_prefix p) m (fs_set p k m).
Proof. intros q Hq. apply stat_fs_set_outside. exact Hq. Qed.

Lemma agree_outside_fs_rmtree p m :
  p <> [] -> agree_outside (is_prefix p) m (fs_rmtree p m).
Proof. intros Hne q Hq. rewrite stat_fs_rmtree, Hq by exact Hne. reflexivity. Qed.

Lemma agree_outside_fs_unlink p m :
  p <> [] -> agree_outside (is_prefix p) m (fs_unlink p m).
Proof. intros Hne q Hq. rewrite stat_fs_unlink, Hq by exact Hne. reflexivity. Qed.

Lemma agree_outside_fs_rename src dst m :
  agree_outside (fun q => is_prefix src q || is_prefix dst q) m
                (fs_rename src dst m).
Proof.
  intros q Hq. apply orb_false_iff in Hq. destruct Hq as [Hs Hd].
  apply stat_fs_rename_outside; assumption.
Qed.

(** *** The library calls, step by step *)

Lemma open_w_inv s w r w' :
  open_w s w = (r, w') ->
  (exists e, r = Raise e /\ w' = w)
  \/ (exists p, r = Ok p /\ resolve (fs w) s = Some p /\ p <> []
                /\ stat (fs w) (parent p) = Some KDir
                /\ stat (fs w) p <> Some KDir
                /\ w' = mkWorld (fs_set p (KFile EmptyString) (fs w))
                                ((EvCreate p, fs_set p (KFile EmptyString) (fs w))
                                   :: history w)).
Proof.
  unfold open_w, bind, get_fs. intros H.
  destruct (resolve (fs w) s) as [p|]; [|left; inversion H; eauto].
  destruct p as [|c p]; [left; inversion H; eauto|].
  destruct (stat (fs w) (c :: p)) as [[d|]|] eqn:Hs;
    destruct (stat (fs w) (parent (c :: p))) as [[d'|]|] eqn:Hp;
    try (left; inversion H; eauto; fail);
    right; exists (c :: p); inversion H; subst;
    repeat split; try reflexivity; try assumption; try discriminate;
    try (rewrite Hs; discriminate).
Qed.

Lemma file_write_spec h d w :
  exists w', file_write h d w = (Ok tt, w')
    /\ touches_only (is_prefix h) w w'
    /\ (forall old, stat (fs w) h = Some (KFile old) ->
                    stat (fs w') h = Some (KFile (old ++ d)))
    /\ (stat (fs w) h = Some KDir -> w' = w).
Proof.
  unfold file_write, bind, get_fs.
  destruct (stat (fs w) h) as [[old|]|] eqn:Hs.
  - eexists. split; [reflexivity|]. split; [|split].
    + apply touches_only_commit, agree_outside_fs_set.
    + intros old' Ho. inversion Ho; subst old'. simpl fs.
      assert (Hne : h <> []) by (intros ->; discriminate).
      apply stat_fs_set_same; [exact Hne|].
      eapply stat_parent_dir; eassumption.
    + discriminate.
  - exists w. split; [reflexivity|]. split; [apply touches_only_refl|].
    split; [discriminate | reflexivity].
  - exists w. split; [reflexivity|]. split; [apply touches_only_refl|].
    split; [discriminate | discriminate].
Qed.

Lemma write_chunks_spec h chunks : forall w d0,
  stat (fs w) h = Some (KFile d0) ->
  exists w' d, for_each chunks (file_write h) w = (Ok tt, w')
    /\ touches_only (is_prefix h) w w'
    /\ stat (fs w') h = Some (KFile d).
Proof.
  induction chunks as [|c chunks IH]; intros w d0 Hs; simpl.
  - exists w, d0. split; [reflexivity|]. split; [apply touches_only_refl | exact Hs].
  - destruct (file_write_spec h c w) as (w1 & Hw & T1 & Hf & _).
    destruct (IH w1 _ (Hf d0 Hs)) as (w' & d & Hrest & T2 & Hs').
    exists w', d. unfold bind. rewrite Hw. split; [exact Hrest|].
    split; [eapply touches_only_trans; eassumption | exact Hs'].
Qed.

(** Acquisition either fails and leaves the store as it was, or leaves a
    regular file at the target and touches nothing else. *)
Lemma save_spec ext req A w r w' :
  forallb plain_name A = true -> A <> [] ->
  _save_file_locally ext req (abspath A) w = (r, w') ->
  (exists e, r = Raise e /\ fs w' = fs w
             /\ touches_only (fun _ => false) w w')
  \/ (r = Ok tt
      /\ stat (fs w) (parent A) = Some KDir
      /\ (exists d, stat (fs w') A = Some (KFile d))
      /\ touches_only (is_prefix A) w w').
Proof.
  intros Hplain Hne H.
  assert (Hopen : forall w0 (k : Path -> M unit) r0 w0',
             (f <- open_w (abspath A) ;; k f) w0 = (r0, w0') ->
             (forall w1 d0, stat (fs w1) A = Some (KFile d0) ->
                exists w2 d, k A w1 = (Ok tt, w2)
                  /\ touches_only (is_prefix A) w1 w2
                  /\ stat (fs w2) A = Some (KFile d)) ->
             (exists e, r0 = Raise e /\ fs w0' = fs w0
                        /\ touches_only (fun _ => false) w0 w0')
             \/ (r0 = Ok tt
                 /\ stat (fs w0) (parent A) = Some KDir
                 /\ (exists d, stat (fs w0') A = Some (KFile d))
                 /\ touches_only (is_prefix A) w0 w0')).
  { intros w0 k r0 w0' Hrun Hk. apply bind_inv in Hrun.
    destruct Hrun as [(p & w1 & Ho & Hrest) | (e & Ho & ->)].
    - apply open_w_inv in Ho.
      destruct Ho as [(e & He & _) | (p' & Hp & Hr & Hpne & Hpar & _ & ->)];
        [discriminate|].
      inversion Hp; subst p'. rewrite resolve_abspath in Hr by assumption.
      inversion Hr; subst p.
      edestruct (Hk (mkWorld (fs_set A (KFile EmptyString) (fs w0))
                       ((EvCreate A, fs_set A (KFile EmptyString) (fs w0))
                          :: history w0)) EmptyString)
        as (w2 & d & Hk2 & T2 & Hs2).
      { simpl. apply stat_fs_set_same; assumption. }
      rewrite Hk2 in Hrest. inversion Hrest; subst. right.
      split; [reflexivity|]. split; [exact Hpar|].
      split; [exists d; exact Hs2|].
      eapply touches_only_trans; [|exact T2].
      apply touches_only_commit, agree_outside_fs_set.
    - apply open_w_inv in Ho.
      destruct Ho as [(e' & He & ->) | (p' & Hp & _)]; [|discriminate].
      left. exists e. split; [reflexivity|]. split; [reflexivity|].
      apply touches_only_refl. }
  unfold _save_file_locally in H.
  destruct (has_key "blueprint_archive_url" (args req)).
  - destruct (truthy (data req) || has_header "Transfer-Encoding" (headers req)).
    + inversion H; subst. left. eexists. split; [reflexivity|].
      split; [reflexivity | apply touches_only_refl].
    + apply bind_inv in H.
      destruct H as [(u & w1 & Hc & Hrest) | (e & Hc & _)]; [|discriminate].
      unfold call_out in Hc. inversion Hc; subst u w1. clear Hc.
      set (w1 := {| fs := fs w; history := _ |}) in *.
      assert (T0 : touches_only (fun _ => false) w w1)
        by apply touches_only_call_out.
      destruct (urlopen ext _) as [bytes| |].
      * apply Hopen in Hrest.
        -- destruct Hrest as [(e & -> & Hfs & T1) | (-> & Hpar & Hd & T1)].
           ++ left. exists e. split; [reflexivity|]. split; [exact Hfs|].
              eapply touches_only_trans; eassumption.
           ++ right. split; [reflexivity|]. split; [exact Hpar|].
              split; [exact Hd|].
              eapply touches_only_trans; [|exact T1].
              eapply touches_only_weaken; [|exact T0]. discriminate.
        -- intros w2 d0 Hs. destruct (file_write_spec A bytes w2) as (w3 & Hw & T & Hf & _).
           exists w3, (d0 ++ bytes)%string. split; [exact Hw|].
           split; [exact T | apply Hf; exact Hs].
      * inversion Hrest; subst. left. eexists. split; [reflexivity|].
        split; [reflexivity | exact T0].
      * inversion Hrest; subst. left. eexists. split; [reflexivity|].
        split; [reflexivity | exact T0].
  - destruct (has_header "Transfer-Encoding" (headers req)).
    + apply Hopen in H; [exact H|].
      intros w1 d0 Hs. apply write_chunks_spec with (d0 := d0). exact Hs.
    + destruct (negb (truthy (data req))).
      * inversion H; subst. left. eexists. split; [reflexivity|].
        split; [reflexivity | apply touches_only_refl].
      * apply Hopen in H; [exact H|].
        intros w2 d0 Hs.
        destruct (file_write_spec A (data req) w2) as (w3 & Hw & T & Hf & _).
        exists w3, (d0 ++ data req)%string. split; [exact Hw|].
        split; [exact T | apply Hf; exact Hs].
Qed.

Lemma lstat_abspath m cs :
  forallb plain_name cs = true -> cs <> [] -> lstat m (abspath cs) = stat m cs.
Proof. intros Hp Hne. unfold lstat. rewrite resolve_abspath by assumption. reflexivity. Qed.

Lemma os_mkdir_inv s w r w' :
  os_mkdir s w = (r, w') ->
  (exists e, r = Raise e /\ w' = w)
  \/ (exists p, resolve (fs w) s = Some p /\ r = Ok tt /\ p <> []
                /\ stat (fs w) p = None
                /\ stat (fs w) (parent p) = Some KDir
                /\ w' = mkWorld (fs_set p KDir (fs w))
                                ((EvMkdir p, fs_set p KDir (fs w)) :: history w)).
Proof.
  unfold os_mkdir, bind, get_fs. intros H.
  destruct (resolve (fs w) s) as [p|]; [|left; inversion H; eauto].
  apply mkdir_at_inv in H. destruct H as [H | H]; [left; exact H|].
  right. exists p. tauto.
Qed.

Lemma mkdtemp_spec tmpp suffix names :
  forallb plain_name tmpp = true -> tmpp <> [] ->
  forallb no_slash names = true -> no_slash suffix = true ->
  forall w r w1,
  mkdtemp_from (abspath tmpp) suffix names w = (r, w1) ->
  (exists e, r = Raise e /\ w1 = w)
  \/ (exists n, In n names
        /\ plain_name (temp_name n suffix) = true
        /\ r = Ok (abspath (tmpp ++ [(temp_name n suffix)]))
        /\ stat (fs w) (tmpp ++ [(temp_name n suffix)]) = None
        /\ stat (fs w) tmpp = Some KDir
        /\ w1 = mkWorld
                  (fs_set (tmpp ++ [(temp_name n suffix)]) KDir (fs w))
                  ((EvMkdir (tmpp ++ [(temp_name n suffix)]),
                    fs_set (tmpp ++ [(temp_name n suffix)]) KDir (fs w))
                     :: history w)).
Proof.
  intros Hp Hne Hnames Hsuf.
  induction names as [|n names IH]; intros w r w1 H.
  - simpl in H. inversion H; subst. left. eauto.
  - simpl in Hnames. apply andb_true_iff in Hnames. destruct Hnames as [Hn Hnames].
    pose proof (plain_tmp_name n suffix Hn Hsuf) as Hplain.
    cbn [mkdtemp_from] in H.
    rewrite path_join_abspath in H by assumption.
    apply try_except_inv in H.
    destruct H as [(a & H & ->) | [(e & w2 & h & H1 & H2 & H3) | (e & H1 & _ & ->)]].
    + apply bind_inv in H.
      destruct H as [(u & w2 & Hmk & Hret) | (e & _ & He)]; [|discriminate].
      inversion Hret; subst a w2. apply os_mkdir_inv in Hmk.
      destruct Hmk as [(e & He & _) | (p & Hr & _ & _ & Hs & Hpar & ->)];
        [discriminate|].
      rewrite resolve_abspath in Hr
        by (apply forallb_plain_snoc || apply snoc_not_nil; assumption).
      inversion Hr; subst p. rewrite parent_snoc in Hpar.
      right. exists n. split; [left; reflexivity|]. repeat split; assumption.
    + apply bind_inv in H1.
      destruct H1 as [(u & w3 & _ & Hret) | (e' & Hmk & He)]; [discriminate|].
      apply os_mkdir_inv in Hmk.
      destruct Hmk as [(e0 & _ & ->) | (p & _ & Hok & _)]; [|discriminate].
      destruct (is_eexist e); [|discriminate]. inversion H2; subst h.
      apply (IH Hnames) in H3.
      destruct H3 as [H3 | (n' & Hin & H3)]; [left; exact H3|].
      right. exists n'. split; [right; exact Hin | exact H3].
    + apply bind_inv in H1.
      destruct H1 as [(u & w3 & _ & Hret) | (e' & Hmk & He)]; [discriminate|].
      apply os_mkdir_inv in Hmk.
      destruct Hmk as [(e0 & _ & ->) | (p & _ & Hok & _)]; [|discriminate].
      left. eauto.
Qed.

Lemma is_prefix_app_l p a b : is_prefix (p ++ a) (p ++ b) = is_prefix a b.
Proof.
  induction p as [|c p IH]; simpl; [reflexivity|].
  rewrite String.eqb_refl. exact IH.
Qed.

Lemma is_prefix_snoc_self p c : is_prefix (p ++ [c]) p = false.
Proof.
  rewrite <- (app_nil_r p) at 2. rewrite is_prefix_app_l. reflexivity.
Qed.

Lemma is_prefix_snoc_snoc p c c' :
  is_prefix (p ++ [c]) (p ++ [c']) = String.eqb c c'.
Proof. rewrite is_prefix_app_l. simpl. apply andb_true_r. Qed.

Lemma ensure_dirs_spec rel : forall cur m m',
  ensure_dirs cur rel m = Some m' ->
  stat m cur = Some KDir ->
  stat m' (cur ++ rel) = Some KDir
  /\ agree_outside (fun q => match rel with
                             | [] => false
                             | c :: _ => is_prefix (cur ++ [c]) q
                             end) m m'.
Proof.
  induction rel as [|c rel IH]; intros cur m m' H Hcur; simpl in H.
  - inversion H; subst. rewrite app_nil_r. split; [exact Hcur|].
    apply agree_outside_refl.
  - assert (Hstep : forall m1, stat m1 (cur ++ [c]) = Some KDir ->
               agree_outside (is_prefix (cur ++ [c])) m m1 ->
               ensure_dirs (cur ++ [c]) rel m1 = Some m' ->
               stat m' (cur ++ c :: rel) = Some KDir
               /\ agree_outside (is_prefix (cur ++ [c])) m m').
    { intros m1 Hc A1 H1. destruct (IH _ _ _ H1 Hc) as [Hs A2].
      rewrite <- app_assoc in Hs. split; [exact Hs|].
      eapply agree_outside_trans; [exact A1|].
      eapply agree_outside_weaken; [|exact A2].
      intros q. destruct rel as [|c2 rel]; [discriminate|].
      intros Hq. eapply is_prefix_trans; [|exact Hq].
      apply is_prefix_app. }
    destruct (stat m (cur ++ [c])) as [[d|]|] eqn:Hc; [discriminate| |].
    + apply (Hstep m); [exact Hc | apply agree_outside_refl | exact H].
    + apply (Hstep (fs_set (cur ++ [c]) KDir m)); [| |exact H].
      * apply stat_fs_set_same; [apply snoc_not_nil|].
        rewrite parent_snoc. exact Hcur.
      * apply agree_outside_fs_set.
Qed.

Lemma removelast_hd (c : string) rel :
  removelast (c :: rel) = [] \/ exists r, removelast (c :: rel) = c :: r.
Proof.
  destruct rel as [|c2 rel]; [left; reflexivity|].
  right. exists (removelast (c2 :: rel)). reflexivity.
Qed.

Lemma install_member_spec base mem m m' :
  install_member base mem m = Some m' ->
  member_ok mem = true ->
  stat m base = Some KDir ->
  exists c, plain_name c = true
    /\ agree_outside (is_prefix (base ++ [c])) m m'.
Proof.
  unfold install_member, member_ok. destruct mem as [rel k]. simpl fst. simpl snd.
  intros H Hok Hbase. destruct rel as [|c rel]; [discriminate|].
  exists c. split.
  { simpl in Hok. apply andb_true_iff in Hok. tauto. }
  destruct (ensure_dirs base (removelast (c :: rel)) m) as [m1|] eqn:He;
    [|discriminate].
  destruct (ensure_dirs_spec _ _ _ _ He Hbase) as [_ A1].
  assert (A1' : agree_outside (is_prefix (base ++ [c])) m m1).
  { destruct (removelast_hd c rel) as [E | [r E]]; rewrite E in A1.
    - eapply agree_outside_weaken; [|exact A1]. discriminate.
    - exact A1. }
  assert (A2 : agree_outside (is_prefix (base ++ [c])) m
                 (fs_set (base ++ c :: rel) k m1)).
  { eapply agree_outside_trans; [exact A1'|].
    eapply agree_outside_weaken; [|apply agree_outside_fs_set].
    intros q Hq. eapply is_prefix_trans; [|exact Hq].
    rewrite is_prefix_app_l. simpl. rewrite String.eqb_refl. reflexivity. }
  destruct k as [d|];
    destruct (stat m1 (base ++ c :: rel)) as [[d'|]|];
    inversion H; subst; assumption.
Qed.

Lemma unpack_members_spec base mems : forall w r w',
  unpack_members base mems w = (r, w') ->
  stat (fs w) base = Some KDir ->
  names_plain (fs w) base ->
  touches_only (is_prefix base) w w'
  /\ stat (fs w') base = Some KDir
  /\ names_plain (fs w') base.
Proof.
  unfold unpack_members.
  induction (filter member_ok mems) as [|mem l IH] eqn:El in mems |- *;
    intros w r w' H Hbase Hnames.
  - simpl in H. inversion H; subst. split; [apply touches_only_refl|].
    split; assumption.
  - assert (Hok : member_ok mem = true).
    { assert (Hin : In mem (filter member_ok mems)) by (rewrite El; left; reflexivity).
      apply filter_In in Hin. tauto. }
    simpl in H. apply bind_inv in H.
    destruct H as [(u & w1 & Hstep & Hrest) | (e & Hstep & ->)].
    + unfold bind, get_fs in Hstep.
      destruct (install_member base mem (fs w)) as [m1|] eqn:Hi; [|discriminate].
      inversion Hstep; subst u w1. clear Hstep.
      destruct (install_member_spec _ _ _ _ Hi Hok Hbase) as (c & Hc & A).
      set (w1 := {| fs := m1; history := _ |}) in *.
      assert (Hbase1 : stat (fs w1) base = Some KDir).
      { simpl. rewrite (A base (is_prefix_snoc_self base c)). exact Hbase. }
      assert (Hnames1 : names_plain (fs w1) base).
      { intros c' Hc'. simpl in Hc'.
        destruct (String.eqb c c') eqn:E.
        - apply String.eqb_eq in E. subst c'. exact Hc.
        - apply Hnames. rewrite <- (A (base ++ [c'])); [exact Hc'|].
          rewrite is_prefix_snoc_snoc. exact E. }
      assert (El' : exists mems', filter member_ok mems' = l)
        by (exists l; clear -El;
            assert (H : forall x, In x l -> member_ok x = true)
              by (intros x Hx; assert (Hin : In x (filter member_ok mems))
                    by (rewrite El; right; exact Hx);
                  apply filter_In in Hin; tauto);
            clear El; induction l as [|x l IHl]; [reflexivity|];
            simpl; rewrite (H x (or_introl eq_refl)); f_equal;
            apply IHl; intros y Hy; apply H; right; exact Hy).
      destruct El' as [mems' El'].
      destruct (IH mems' El' _ _ _ Hrest Hbase1 Hnames1) as (T2 & Hb2 & Hn2).
      split; [|split; assumption].
      eapply touches_only_trans; [|exact T2].
      apply touches_only_commit.
      eapply agree_outside_weaken; [|exact A].
      intros q Hq. eapply is_prefix_trans; [|exact Hq]. apply is_prefix_app.
    + unfold bind, get_fs in Hstep.
      destruct (install_member base mem (fs w)); inversion Hstep; subst.
      split; [apply touches_only_refl|]. split; assumption.
Qed.

Lemma unpack_archive_spec ext archive T w r w' :
  forallb plain_name T = true -> T <> [] ->
  unpack_archive ext archive (abspath T) w = (r, w') ->
  stat (fs w) T = Some KDir ->
  names_plain (fs w) T ->
  touches_only (is_prefix T) w w'
  /\ stat (fs w') T = Some KDir
  /\ names_plain (fs w') T.
Proof.
  intros Hp Hne H Hdir Hnames. unfold unpack_archive, bind, get_fs in H.
  rewrite resolve_abspath in H by assumption.
  assert (Hstop : forall e, (Raise e, w) = (r, w') ->
             touches_only (is_prefix T) w w'
             /\ stat (fs w') T = Some KDir /\ names_plain (fs w') T).
  { intros e He. inversion He; subst. split; [apply touches_only_refl|].
    split; assumption. }
  destruct (resolve (fs w) archive) as [p|];
    destruct (lstat (fs w) archive) as [[bytes|]|];
    try (eapply Hstop; exact H);
    try (eapply unpack_members_spec; eassumption).
  - destruct (decode_archive ext bytes); [|eapply Hstop; exact H].
    eapply unpack_members_spec; eassumption.
  - destruct (decode_archive ext bytes); [|eapply Hstop; exact H].
    eapply unpack_members_spec; eassumption.
Qed.

Lemma os_listdir_abspath T w :
  forallb plain_name T = true -> T <> [] ->
  stat (fs w) T = Some KDir ->
  os_listdir (abspath T) w = (Ok (fs_listdir T (fs w)), w).
Proof.
  intros Hp Hne Hdir. unfold os_listdir, bind, get_fs.
  rewrite resolve_abspath, Hdir by assumption. reflexivity.
Qed.

Lemma path_isdir_abspath m cs :
  forallb plain_name cs = true -> cs <> [] ->
  path_isdir m (abspath cs)
  = match stat m cs with Some KDir => true | _ => false end.
Proof. intros. unfold path_isdir. rewrite lstat_abspath by assumption. reflexivity. Qed.

Lemma path_exists_abspath m cs :
  forallb plain_name cs = true -> cs <> [] ->
  path_exists m (abspath cs)
  = match stat m cs with Some _ => true | None => false end.
Proof. intros. unfold path_exists. rewrite lstat_abspath by assumption. reflexivity. Qed.

Lemma rename_at_fresh ps pd w k :
  ps <> [] -> pd <> [] ->
  stat (fs w) ps = Some k -> stat (fs w) pd = None ->
  stat (fs w) (parent pd) = Some KDir -> is_prefix ps pd = false ->
  rename_at ps pd w
  = (Ok tt, mkWorld (fs_rename ps pd (fs w))
                    ((EvRename ps pd, fs_rename ps pd (fs w)) :: history w)).
Proof.
  intros Hs Hd Hk Hnone Hpar Hpre. unfold rename_at, bind, get_fs.
  destruct ps as [|cs ps]; [contradiction|].
  destruct pd as [|cd pd]; [contradiction|].
  rewrite Hk.
  destruct (path_eq_dec (cs :: ps) (cd :: pd)) as [E|_];
    [rewrite E in Hk; congruence|].
  rewrite Hpar, Hpre, Hnone. destruct k; reflexivity.
Qed.

(** [shutil.move] to a destination that does not exist is one rename. *)
Lemma shutil_move_fresh ps pd w k :
  forallb plain_name ps = true -> ps <> [] ->
  forallb plain_name pd = true -> pd <> [] ->
  stat (fs w) ps = Some k -> stat (fs w) pd = None ->
  stat (fs w) (parent pd) = Some KDir -> is_prefix ps pd = false ->
  shutil_move (abspath ps) (abspath pd) w
  = (Ok tt, mkWorld (fs_rename ps pd (fs w))
                    ((EvRename ps pd, fs_rename ps pd (fs w)) :: history w)).
Proof.
  intros Hps Hs Hpd Hd Hk Hnone Hpar Hpre.
  unfold shutil_move, bind, get_fs.
  rewrite (path_isdir_abspath _ pd), Hnone by assumption. cbn [andb].
  unfold try_except, os_rename, bind, get_fs.
  rewrite !resolve_abspath by assumption.
  erewrite rename_at_fresh by eassumption. reflexivity.
Qed.

(** [shutil.move] into an existing directory: refused when the name is
    taken there, one rename otherwise. *)
Lemma shutil_move_into pp c pd w k :
  forallb plain_name (pp ++ [c]) = true ->
  forallb plain_name pd = true -> pd <> [] ->
  stat (fs w) (pp ++ [c]) = Some k -> stat (fs w) pd = Some KDir ->
  pp ++ [c] <> pd -> is_prefix (pp ++ [c]) (pd ++ [c]) = false ->
  shutil_move (abspath (pp ++ [c])) (abspath pd) w
  = match stat (fs w) (pd ++ [c]) with
    | Some _ => (Raise (ShutilError "Destination path already exists"), w)
    | None =>
        (Ok tt, mkWorld (fs_rename (pp ++ [c]) (pd ++ [c]) (fs w))
                        ((EvRename (pp ++ [c]) (pd ++ [c]),
                          fs_rename (pp ++ [c]) (pd ++ [c]) (fs w))
                           :: history w))
    end.
Proof.
  intros Hps Hpd Hd Hk Hdir Hneq Hpre.
  assert (Hc : plain_name c = true).
  { rewrite forallb_app in Hps. apply andb_true_iff in Hps.
    destruct Hps as [_ Hc]. simpl in Hc. rewrite andb_true_r in Hc. exact Hc. }
  assert (Hpp : forallb plain_name pp = true).
  { rewrite forallb_app in Hps. apply andb_true_iff in Hps. tauto. }
  unfold shutil_move, bind, get_fs.
  rewrite (path_isdir_abspath _ pd), Hdir by assumption.
  rewrite !resolve_abspath by (assumption || apply snoc_not_nil).
  destruct (path_eq_dec (pp ++ [c]) pd) as [E|_]; [contradiction|].
  cbn [andb].
  rewrite rstrip_slash_no_trailing by (apply ends_with_slash_abspath; exact Hps).
  rewrite basename_abspath by assumption.
  rewrite path_join_abspath by assumption.
  rewrite path_exists_abspath
    by (apply forallb_plain_snoc || apply snoc_not_nil; assumption).
  destruct (stat (fs w) (pd ++ [c])) as [k'|] eqn:Hdst; [reflexivity|].
  unfold try_except, os_rename, bind, get_fs.
  rewrite !resolve_abspath
    by (assumption || apply forallb_plain_snoc || apply snoc_not_nil; assumption).
  erewrite rename_at_fresh;
    [reflexivity | apply snoc_not_nil | apply snoc_not_nil | exact Hk | exact Hdst
     | rewrite parent_snoc; exact Hdir | exact Hpre].
Qed.

Lemma is_prefix_of_snoc p q c :
  is_prefix p (q ++ [c]) = true -> p = q ++ [c] \/ is_prefix p q = true.
Proof.
  intros H. apply is_prefix_spec in H. destruct H as [r Hr].
  destruct r as [|x r] using rev_ind.
  - left. rewrite app_nil_r in Hr. symmetry. exact Hr.
  - right. rewrite app_assoc in Hr. apply app_inj_tail in Hr.
    destruct Hr as [Hq _]. apply is_prefix_spec. exists r. exact Hq.
Qed.

Lemma skipn_length_self {A} (p : list A) : skipn (length p) p = [].
Proof. induction p; simpl; auto. Qed.

Lemma stat_fs_rename_dst src dst m :
  src <> [] -> dst <> [] -> stat m src <> None ->
  stat m (parent dst) = Some KDir -> is_prefix src dst = false ->
  stat (fs_rename src dst m) dst = stat m src.
Proof.
  intros. rewrite stat_fs_rename, is_prefix_refl, skipn_length_self, app_nil_r
    by assumption. reflexivity.
Qed.

(** A path that exists is not below a path that does not. *)
Lemma not_below_absent m p q k :
  stat m p = None -> stat m q = Some k -> is_prefix p q = false.
Proof.
  intros Hp Hq. destruct (is_prefix p q) eqn:E; [|reflexivity].
  rewrite (stat_prefix_absent m p q Hp E) in Hq. discriminate.
Qed.

Lemma plain_no_slash c : plain_name c = true -> no_slash c = true.
Proof. intros H. apply plain_name_spec in H. tauto. Qed.

(** The [try] body of extraction works below the temporary directory [T]
    alone until its last step, which renames the one directory of the
    archive to a fresh name under the root. *)
Lemma extract_body_spec ext rootp T archive w1 rb w3 :
  forallb plain_name rootp = true -> rootp <> [] ->
  forallb plain_name T = true -> T <> [] ->
  no_slash (uuid4 ext) = true ->
  stat (fs w1) T = Some KDir ->
  names_plain (fs w1) T ->
  stat (fs w1) rootp = Some KDir ->
  is_prefix T rootp = false ->
  extract_body ext (abspath rootp) archive (abspath T) w1 = (rb, w3) ->
  stat (fs w3) T = Some KDir
  /\ match rb with
     | Raise e => touches_only (is_prefix T) w1 w3
     | Ok gen =>
         plain_name gen = true
         /\ stat (fs w1) (rootp ++ [gen]) = None
         /\ stat (fs w3) (rootp ++ [gen]) = Some KDir
         /\ touches_only (fun q => is_prefix T q || is_prefix (rootp ++ [gen]) q)
                         w1 w3
     end.
Proof.
  intros Hroot Hrne HT HTne Huuid Hdir Hnames Hrdir HTr H.
  unfold extract_body in H. apply bind_inv in H.
  destruct H as [(u & w2 & Hun & H) | (e & Hun & ->)].
  - (* unpacked *)
    apply try_except_inv in Hun.
    destruct Hun as [(a & Hun & _) | [(e & w2' & h & Hun & Hh & Hrun)
                                     | (e & _ & _ & He)]];
      [| destruct e; try discriminate; inversion Hh; subst h; discriminate
       | discriminate].
    destruct (unpack_archive_spec _ _ _ _ _ _ HT HTne Hun Hdir Hnames)
      as (T12 & Hdir2 & Hnames2).
    cbv beta in H. unfold bind at 1 in H.
    rewrite (os_listdir_abspath T w2 HT HTne Hdir2) in H.
    assert (Hfail : forall e, (Raise e, w2) = (rb, w3) ->
               stat (fs w3) T = Some KDir
               /\ match rb with
                  | Raise _ => touches_only (is_prefix T) w1 w3
                  | Ok gen =>
                      plain_name gen = true
                      /\ stat (fs w1) (rootp ++ [gen]) = None
                      /\ stat (fs w3) (rootp ++ [gen]) = Some KDir
                      /\ touches_only
                           (fun q => is_prefix T q || is_prefix (rootp ++ [gen]) q)
                           w1 w3
                  end).
    { intros e He. inversion He; subst. split; assumption. }
    destruct (Nat.eqb (length (fs_listdir T (fs w2))) 1) eqn:Hlen;
      [|eapply Hfail; exact H].
    apply Nat.eqb_eq in Hlen.
    destruct (fs_listdir T (fs w2)) as [|base [|b2 rest]] eqn:Hl;
      try discriminate. clear Hlen.
    cbn [negb nth] in H.
    assert (Hbase_ex : stat (fs w2) (T ++ [base]) <> None).
    { apply (in_fs_listdir _ _ _ Hdir2). rewrite Hl. left. reflexivity. }
    pose proof (Hnames2 base Hbase_ex) as Hbase.
    rewrite path_join_abspath in H by assumption.
    unfold bind, os_path_isdir, ret in H.
    rewrite path_isdir_abspath in H
      by (apply forallb_plain_snoc || apply snoc_not_nil; assumption).
    destruct (stat (fs w2) (T ++ [base])) as [[d|]|] eqn:Hsb;
      try (eapply Hfail; exact H). clear Hbase_ex.
    cbn [negb] in H.
    set (gen := (base ++ "-" ++ uuid4 ext)%string) in *.
    assert (Hgen : plain_name gen = true).
    { apply plain_generated_name; [apply plain_no_slash; exact Hbase | exact Huuid]. }
    assert (Hgb : String.eqb base gen = false).
    { apply String.eqb_neq. intros E. symmetry in E.
      exact (generated_name_differs _ _ E). }
    rewrite (path_join_abspath T gen) in H by assumption.
    assert (Hgen_absent : stat (fs w2) (T ++ [gen]) = None).
    { destruct (stat (fs w2) (T ++ [gen])) eqn:E; [|reflexivity].
      assert (Hin : In gen (fs_listdir T (fs w2))).
      { apply (in_fs_listdir _ _ _ Hdir2). rewrite E. discriminate. }
      rewrite Hl in Hin. destruct Hin as [Hin|[]].
      rewrite Hin, String.eqb_refl in Hgb. discriminate. }
    (* the first move: rename inside the temporary directory *)
    rewrite (shutil_move_fresh (T ++ [base]) (T ++ [gen]) w2 KDir) in H;
      try (apply forallb_plain_snoc; assumption); try apply snoc_not_nil;
      try assumption;
      [| rewrite parent_snoc; exact Hdir2
       | rewrite is_prefix_snoc_snoc; exact Hgb].
    cbv beta iota in H.
    set (ma := fs_rename (T ++ [base]) (T ++ [gen]) (fs w2)) in *.
    set (wa := {| fs := ma; history := _ |}) in *.
    assert (A2a : agree_outside (is_prefix T) (fs w2) ma).
    { eapply agree_outside_weaken; [|apply agree_outside_fs_rename].
      intros q Hq. apply orb_true_iff in Hq.
      destruct Hq as [Hq|Hq]; (eapply is_prefix_trans; [|exact Hq]);
        apply is_prefix_app. }
    assert (Hgen_dir : stat ma (T ++ [gen]) = Some KDir).
    { unfold ma. rewrite stat_fs_rename_dst; try apply snoc_not_nil.
      - exact Hsb.
      - rewrite Hsb. discriminate.
      - rewrite parent_snoc. exact Hdir2.
      - rewrite is_prefix_snoc_snoc. exact Hgb. }
    assert (HTa : stat ma T = Some KDir).
    { unfold ma. rewrite stat_fs_rename_outside by apply is_prefix_snoc_self.
      exact Hdir2. }
    assert (Hrdir2 : stat (fs w2) rootp = Some KDir).
    { rewrite (touches_only_agree _ _ _ T12 rootp HTr). exact Hrdir. }
    assert (Hrdira : stat ma rootp = Some KDir).
    { rewrite (A2a rootp HTr). exact Hrdir2. }
    assert (T1a : touches_only (is_prefix T) w1 wa).
    { eapply touches_only_trans; [exact T12|].
      apply touches_only_commit. exact A2a. }
    (* the second move: into the file server root *)
    assert (HTS : forall c, is_prefix (T ++ [c]) (rootp ++ [gen]) = false).
    { intros c. destruct (is_prefix (T ++ [c]) (rootp ++ [gen])) eqn:E;
        [|reflexivity].
      apply is_prefix_of_snoc in E. destruct E as [E|E].
      - apply app_inj_tail in E. destruct E as [E _]. subst rootp.
        rewrite is_prefix_refl in HTr. discriminate.
      - assert (is_prefix T rootp = true); [|congruence].
        eapply is_prefix_trans; [apply is_prefix_app | exact E]. }
    rewrite (shutil_move_into T gen rootp wa KDir) in H;
      try (apply forallb_plain_snoc; assumption); try assumption;
      [| intros E; subst rootp; rewrite is_prefix_app in HTr; discriminate
       | apply HTS].
    change (fs wa) with ma in H.
    destruct (stat ma (rootp ++ [gen])) as [k|] eqn:HS.
    + (* the name is taken under the root *)
      inversion H; subst. split; [exact HTa | exact T1a].
    + inversion H; subst. clear H.
      assert (HST : is_prefix (rootp ++ [gen]) T = false)
        by (eapply not_below_absent; eassumption).
      assert (HTS' : is_prefix T (rootp ++ [gen]) = false).
      { destruct (is_prefix T (rootp ++ [gen])) eqn:E; [|reflexivity].
        apply is_prefix_of_snoc in E. destruct E as [E|E]; [|congruence].
        rewrite <- E, HTa in HS. discriminate. }
      cbn [fs]. split; [|split; [exact Hgen|split; [|split]]].
      * rewrite stat_fs_rename_outside; [exact HTa | apply is_prefix_snoc_self | exact HST].
      * rewrite <- (touches_only_agree _ _ _ T1a _ HTS'). exact HS.
      * rewrite stat_fs_rename_dst; try apply snoc_not_nil.
        -- exact Hgen_dir.
        -- rewrite Hgen_dir. discriminate.
        -- rewrite parent_snoc. exact Hrdira.
        -- apply HTS.
      * eapply touches_only_trans.
        -- eapply touches_only_weaken; [|exact T1a].
           intros q Hq. rewrite Hq. reflexivity.
        -- apply touches_only_commit.
           eapply agree_outside_weaken; [|apply agree_outside_fs_rename].
           intros q Hq. apply orb_true_iff in Hq. apply orb_true_iff.
           destruct Hq as [Hq|Hq]; [left | right; exact Hq].
           eapply is_prefix_trans; [apply is_prefix_app | exact Hq].
  - (* unpacking raised *)
    apply try_except_inv in Hun.
    destruct Hun as [(a & _ & Ha) | [(e0 & w2 & h & Hun & Hh & Hrun)
                                    | (e0 & Hun & _ & _)]];
      [discriminate | |].
    + destruct (unpack_archive_spec _ _ _ _ _ _ HT HTne Hun Hdir Hnames)
        as (T12 & Hdir2 & _).
      destruct e0; try discriminate. inversion Hh; subst h.
      inversion Hrun; subst. split; assumption.
    + destruct (unpack_archive_spec _ _ _ _ _ _ HT HTne Hun Hdir Hnames)
        as (T12 & Hdir2 & _).
      split; assumption.
Qed.

(** Extraction as a whole: either no temporary directory could be made
    and nothing happened, or the temporary directory [T] is gone again
    and — on success — the archive's directory stands under a fresh name
    below the root, everything else being as it was. *)
Lemma extract_summary ext rootp tmpp archive w r w' :
  forallb plain_name rootp = true -> rootp <> [] ->
  gettempdir ext = abspath tmpp ->
  forallb plain_name tmpp = true -> tmpp <> [] ->
  forallb no_slash (mkdtemp_names ext) = true ->
  no_slash (uuid4 ext) = true ->
  stat (fs w) rootp = Some KDir ->
  _extract_file_to_file_server ext (abspath rootp) archive w = (r, w') ->
  (exists e, r = Raise e /\ w' = w)
  \/ exists n, In n (mkdtemp_names ext)
       /\ stat (fs w) (tmpp ++ [(temp_name n "-blueprint-submit")]) = None
       /\ stat (fs w') (tmpp ++ [(temp_name n "-blueprint-submit")]) = None
       /\ stat (fs w) tmpp = Some KDir
       /\ match r with
          | Raise e =>
              touches_only
                (is_prefix (tmpp ++ [(temp_name n "-blueprint-submit")]))
                w w'
          | Ok gen =>
              plain_name gen = true
              /\ stat (fs w) (rootp ++ [gen]) = None
              /\ stat (fs w') (rootp ++ [gen]) = Some KDir
              /\ touches_only
                   (fun q =>
                      is_prefix (tmpp ++ [(temp_name n "-blueprint-submit")]) q
                      || is_prefix (rootp ++ [gen]) q)
                   w w'
          end.
Proof.
  intros Hroot Hrne Htmp Htmpp Htne Hnames Huuid Hrdir H.
  unfold _extract_file_to_file_server in H. rewrite Htmp in H.
  apply bind_inv in H.
  destruct H as [(tempdir & w1 & Hmk & H) | (e & Hmk & ->)].
  - apply mkdtemp_spec in Hmk; try assumption; [|reflexivity].
    destruct Hmk as [(e & He & _) | (n & Hin & Hplain & Ht & Habs & Htd & ->)];
      [discriminate|].
    inversion Ht; subst tempdir. clear Ht.
    set (T := tmpp ++ [(temp_name n "-blueprint-submit")]) in *.
    assert (HT : forallb plain_name T = true)
      by (apply forallb_plain_snoc; assumption).
    assert (HTne : T <> []) by apply snoc_not_nil.
    assert (HTr : is_prefix T rootp = false)
      by (eapply not_below_absent; eassumption).
    set (m1 := fs_set T KDir (fs w)) in *.
    set (w1 := {| fs := m1; history := _ |}) in *.
    assert (HT1 : stat m1 T = Some KDir).
    { apply stat_fs_set_same; [exact HTne|]. unfold T. rewrite parent_snoc.
      exact Htd. }
    assert (T01 : touches_only (is_prefix T) w w1)
      by (apply touches_only_commit, agree_outside_fs_set).
    assert (Hnames1 : names_plain (fs w1) T).
    { intros c Hc. exfalso. apply Hc. simpl. unfold m1.
      rewrite stat_fs_set, is_prefix_app;
        [| exact HTne | unfold T; rewrite parent_snoc; exact Htd].
      destruct (path_eq_dec T (T ++ [c])) as [E|_]; [|reflexivity].
      apply (f_equal (@length string)) in E. rewrite length_app in E.
      simpl in E. lia. }
    assert (Hrdir1 : stat (fs w1) rootp = Some KDir).
    { rewrite (touches_only_agree _ _ _ T01 rootp HTr). exact Hrdir. }
    apply try_finally_inv in H.
    destruct H as (rb & w3 & Hbody & Hfin).
    destruct (extract_body_spec ext rootp T archive w1 rb w3
                Hroot Hrne HT HTne Huuid HT1 Hnames1 Hrdir1 HTr Hbody)
      as [HT3 Hrb].
    rewrite (shutil_rmtree_ok (abspath T) w3 T) in Hfin;
      [| apply resolve_abspath; assumption | exact HT3 | exact HTne].
    destruct Hfin as [[Hfin ->] | (e & Hfin & _)]; [|discriminate].
    inversion Hfin; subst w'. clear Hfin.
    right. exists n. fold T. split; [exact Hin|]. split; [exact Habs|].
    cbn [fs]. split.
    { rewrite stat_fs_rmtree, is_prefix_refl by exact HTne. reflexivity. }
    split; [exact Htd|].
    assert (Tfin : forall R, (forall q, is_prefix T q = true -> R q = true) ->
               touches_only R w w3 ->
               touches_only R w
                 {| fs := fs_rmtree T (fs w3);
                    history := (EvRmtree T, fs_rmtree T (fs w3)) :: history w3 |}).
    { intros R HR T03. eapply touches_only_trans; [exact T03|].
      apply touches_only_commit.
      eapply agree_outside_weaken; [exact HR|].
      apply agree_outside_fs_rmtree. exact HTne. }
    destruct rb as [gen|e].
    + destruct Hrb as (Hgen & HS1 & HS3 & T13).
      assert (HTS : is_prefix T (rootp ++ [gen]) = false).
      { destruct (is_prefix T (rootp ++ [gen])) eqn:E; [|reflexivity].
        apply is_prefix_of_snoc in E. destruct E as [E|E]; [|congruence].
        simpl in HS1. rewrite <- E, HT1 in HS1. discriminate. }
      split; [exact Hgen|]. split; [|split].
      * rewrite <- (touches_only_agree _ _ _ T01 _ HTS). exact HS1.
      * rewrite stat_fs_rmtree, HTS by exact HTne. exact HS3.
      * apply Tfin; [intros q Hq; cbv beta; rewrite Hq; reflexivity|].
        eapply touches_only_trans; [|exact T13].
        eapply touches_only_weaken; [|exact T01].
        intros q Hq. cbv beta. rewrite Hq. reflexivity.
    + apply Tfin; [intros q Hq; exact Hq|].
      eapply touches_only_trans; eassumption.
  - apply mkdtemp_spec in Hmk; try assumption; [|reflexivity].
    destruct Hmk as [(e0 & He & ->) | (n & _ & _ & Ht & _)]; [|discriminate].
    left. exists e. split; reflexivity.
Qed.

(** *** Putting runs together *)

Lemma under_in Ps P q : In P Ps -> is_prefix P q = true -> under Ps q = true.
Proof.
  intros Hin Hq. unfold under. apply existsb_exists. exists P. split; assumption.
Qed.

Lemma touches_only_under (Ps : list Path) P w w' :
  In P Ps -> touches_only (is_prefix P) w w' -> touches_only (under Ps) w w'.
Proof.
  intros Hin. apply touches_only_weaken. intros q. apply under_in. exact Hin.
Qed.

Lemma touches_only_under2 (Ps : list Path) P1 P2 w w' :
  In P1 Ps -> In P2 Ps ->
  touches_only (fun q => is_prefix P1 q || is_prefix P2 q) w w' ->
  touches_only (under Ps) w w'.
Proof.
  intros H1 H2. apply touches_only_weaken. intros q Hq.
  apply orb_true_iff in Hq.
  destruct Hq as [Hq|Hq]; [exact (under_in _ _ _ H1 Hq) | exact (under_in _ _ _ H2 Hq)].
Qed.

Lemma touches_only_nothing R w w' :
  touches_only (fun _ => false) w w' -> touches_only R w w'.
Proof. apply touches_only_weaken. discriminate. Qed.

(** If the only paths a run touched are below paths that are absent both
    before and after it, the store is as it was. *)
Lemma same_store_of_absent_roots Ps m m' :
  (forall P, In P Ps -> stat m P = None /\ stat m' P = None) ->
  agree_outside (under Ps) m m' -> same_store m m'.
Proof.
  intros Habs Hag q. destruct (under Ps q) eqn:E.
  - unfold under in E. apply existsb_exists in E. destruct E as (P & Hin & Hq).
    destruct (Habs P Hin) as [H1 H2].
    rewrite (stat_prefix_absent m P q H1 Hq), (stat_prefix_absent m' P q H2 Hq).
    reflexivity.
  - apply Hag. exact E.
Qed.

Lemma mktemp_spec rootp names :
  forallb plain_name rootp = true -> rootp <> [] ->
  forallb no_slash names = true ->
  forall w r w1,
  mktemp_from (abspath rootp) names w = (r, w1) ->
  w1 = w
  /\ match r with
     | Ok a => exists n, In n names
                 /\ plain_name (temp_name n EmptyString) = true
                 /\ a = abspath (rootp ++ [temp_name n EmptyString])
                 /\ stat (fs w) (rootp ++ [temp_name n EmptyString]) = None
     | Raise _ => True
     end.
Proof.
  intros Hp Hne Hnames. induction names as [|n names IH]; intros w r w1 H.
  - simpl in H. inversion H; subst. split; [reflexivity | exact I].
  - simpl in Hnames. apply andb_true_iff in Hnames. destruct Hnames as [Hn Hnames].
    pose proof (plain_tmp_name n EmptyString Hn eq_refl) as Hplain.
    cbn [mktemp_from] in H. unfold bind, os_path_exists in H.
    rewrite path_join_abspath in H by assumption.
    rewrite path_exists_abspath in H
      by (apply forallb_plain_snoc || apply snoc_not_nil; assumption).
    destruct (stat (fs w) (rootp ++ [temp_name n EmptyString])) eqn:Hs.
    + destruct (IH Hnames _ _ _ H) as [-> Hr]. split; [reflexivity|].
      destruct r as [a|e]; [|exact I].
      destruct Hr as (n' & Hin & Hr). exists n'. split; [right; exact Hin | exact Hr].
    + inversion H; subst. split; [reflexivity|].
      exists n. split; [left; reflexivity|]. repeat split; assumption.
Qed.

Lemma os_remove_file A w d :
  forallb plain_name A = true -> A <> [] ->
  stat (fs w) A = Some (KFile d) ->
  os_remove (abspath A) w
  = (Ok tt, mkWorld (fs_unlink A (fs w))
                    ((EvUnlink A, fs_unlink A (fs w)) :: history w)).
Proof.
  intros Hp Hne Hs. unfold os_remove, bind, get_fs.
  rewrite resolve_abspath by assumption.
  destruct A as [|c A]; [contradiction|]. rewrite Hs. reflexivity.
Qed.

(** The [finally] clause of [do_request] on a regular file and on nothing. *)
Lemma remove_if_exists_file A w d :
  forallb plain_name A = true -> A <> [] ->
  stat (fs w) A = Some (KFile d) ->
  remove_if_exists (abspath A) w
  = (Ok tt, mkWorld (fs_unlink A (fs w))
                    ((EvUnlink A, fs_unlink A (fs w)) :: history w)).
Proof.
  intros Hp Hne Hs. unfold remove_if_exists, bind, os_path_exists.
  rewrite path_exists_abspath, Hs by assumption.
  eapply os_remove_file; eassumption.
Qed.

Lemma remove_if_exists_absent A w :
  forallb plain_name A = true -> A <> [] ->
  stat (fs w) A = None ->
  remove_if_exists (abspath A) w = (Ok tt, w).
Proof.
  intros Hp Hne Hs. unfold remove_if_exists, bind, os_path_exists.
  rewrite path_exists_abspath, Hs by assumption. reflexivity.
Qed.

Lemma wf_env_spec cfg ext rootp tmpp :
  wf_env cfg ext rootp tmpp = true ->
  file_server_root cfg = abspath rootp
  /\ forallb plain_name rootp = true /\ rootp <> []
  /\ gettempdir ext = abspath tmpp
  /\ forallb plain_name tmpp = true /\ tmpp <> []
  /\ forallb no_slash (mktemp_names ext) = true
  /\ forallb no_slash (mkdtemp_names ext) = true
  /\ no_slash (uuid4 ext) = true
  /\ plain_name (file_server_blueprints_folder cfg) = true
  /\ plain_name (file_server_uploaded_blueprints_folder cfg) = true.
Proof.
  unfold wf_env. rewrite !andb_true_iff, !String.eqb_eq.
  intros [[[[[[[[[[H1 H2] H3] H4] H5] H6] H7] H8] H9] H10] H11].
  repeat split; try assumption.
  - intros ->. discriminate.
  - intros ->. discriminate.
Qed.

Lemma not_below_file m p q d k :
  stat m p = Some (KFile d) -> stat m q = Some k -> is_prefix p q = true -> p = q.
Proof.
  intros Hp Hq Hpq. apply is_prefix_spec in Hpq. destruct Hpq as [r ->].
  destruct r as [|c r]; [symmetry; apply app_nil_r|].
  rewrite (stat_below_file m p (c :: r) d Hp) in Hq; discriminate.
Qed.

Section Pipeline.

Variable cfg : Config.
Variable ext : Externals.
Variable req : Request.
Variables rootp tmpp : Path.
Hypothesis Hwf : wf_env cfg ext rootp tmpp = true.

Let root : string := abspath rootp.

(** Acquisition and extraction, from a store where the archive path [A]
    is free: the archive is a regular file at [A] from acquisition on,
    and all that was touched lies below [A], the temporary directory
    [T] and the staged directory [S], none of which existed before. *)
Lemma prefix_spec n w w1 re w2 :
  In n (mktemp_names ext) ->
  stat (fs w) (rootp ++ [temp_name n EmptyString]) = None ->
  _save_file_locally ext req (abspath (rootp ++ [temp_name n EmptyString])) w
  = (Ok tt, w1) ->
  _extract_file_to_file_server ext root
    (abspath (rootp ++ [temp_name n EmptyString])) w1 = (re, w2) ->
  let A := rootp ++ [temp_name n EmptyString] in
  exists d,
    stat (fs w1) A = Some (KFile d)
    /\ stat (fs w) rootp = Some KDir
    /\ touches_only (under [A]) w w1
    /\ ((exists e, re = Raise e /\ w2 = w1)
        \/ exists n', In n' (mkdtemp_names ext)
             /\ let T := tmpp ++ [temp_name n' "-blueprint-submit"] in
                stat (fs w) T = None
                /\ stat (fs w2) T = None
                /\ stat (fs w2) A = Some (KFile d)
                /\ match re with
                   | Raise _ => touches_only (under [A; T]) w w2
                   | Ok gen =>
                       plain_name gen = true
                       /\ stat (fs w) (rootp ++ [gen]) = None
                       /\ stat (fs w2) (rootp ++ [gen]) = Some KDir
                       /\ touches_only (under [A; T; rootp ++ [gen]]) w w2
                   end).
Proof.
  intros Hin Hfree Hsave Hext. cbv zeta.
  set (A := rootp ++ [temp_name n EmptyString]) in *.
  destruct (wf_env_spec _ _ _ _ Hwf)
    as (Hroot & Hrp & Hrne & Htmp & Htp & Htne & Hmk & Hmkd & Huuid & _ & _).
  assert (Hn : no_slash n = true).
  { rewrite forallb_forall in Hmk. apply Hmk. exact Hin. }
  assert (HA : forallb plain_name A = true).
  { apply forallb_plain_snoc; [exact Hrp|]. apply plain_tmp_name; [exact Hn|reflexivity]. }
  assert (HAne : A <> []) by apply snoc_not_nil.
  apply save_spec in Hsave; [|exact HA|exact HAne].
  destruct Hsave as [(e & He & _) | (_ & Hpar & [d Hd] & T01)]; [discriminate|].
  unfold A in Hpar. rewrite parent_snoc in Hpar.
  exists d. split; [exact Hd|]. split; [exact Hpar|].
  assert (T01' : touches_only (under [A]) w w1).
  { eapply touches_only_under; [left; reflexivity | exact T01]. }
  split; [exact T01'|].
  assert (Hrdir1 : stat (fs w1) rootp = Some KDir).
  { rewrite (touches_only_agree _ _ _ T01 rootp (is_prefix_snoc_self _ _)).
    exact Hpar. }
  unfold root in Hext.
  apply (extract_summary ext rootp tmpp) in Hext; try assumption.
  destruct Hext as [Hext | (n' & Hin' & HT1 & HT2 & Htd & Hre)];
    [left; exact Hext|].
  right. exists n'. split; [exact Hin'|].
  set (T := tmpp ++ [temp_name n' "-blueprint-submit"]) in *.
  assert (HAT : is_prefix A T = false).
  { destruct (is_prefix A T) eqn:E; [|reflexivity]. unfold T in E.
    apply is_prefix_of_snoc in E. destruct E as [E|E].
    - fold T in E. rewrite E, HT1 in Hd. discriminate.
    - pose proof (not_below_file _ _ _ _ _ Hd Htd E) as E'.
      rewrite E', Htd in Hd. discriminate. }
  assert (HTA : is_prefix T A = false)
    by exact (not_below_absent _ _ _ _ HT1 Hd).
  split.
  { rewrite <- (touches_only_agree _ _ _ T01 T HAT). exact HT1. }
  split; [exact HT2|].
  destruct re as [gen|e].
  - destruct Hre as (Hgen & HS1 & HS2 & T12).
    assert (HSA : is_prefix (rootp ++ [gen]) A = false)
      by exact (not_below_absent _ _ _ _ HS1 Hd).
    assert (HAS : is_prefix A (rootp ++ [gen]) = false).
    { destruct (is_prefix A (rootp ++ [gen])) eqn:E; [|reflexivity].
      apply is_prefix_same_length in E;
        [|unfold A; rewrite !length_app; reflexivity].
      rewrite <- E, Hd in HS1. discriminate. }
    split.
    { rewrite (touches_only_agree _ _ _ T12 A); [exact Hd|].
      rewrite HTA, HSA. reflexivity. }
    split; [exact Hgen|]. split.
    { rewrite <- (touches_only_agree _ _ _ T01 _ HAS). exact HS1. }
    split; [exact HS2|].
    eapply touches_only_trans.
    + eapply touches_only_under; [|exact T01]. left. reflexivity.
    + eapply touches_only_under2; [| |exact T12].
      * right. left. reflexivity.
      * right. right. left. reflexivity.
  - split.
    { rewrite (touches_only_agree _ _ _ Hre A HTA). exact Hd. }
    eapply touches_only_trans.
    + eapply touches_only_under; [|exact T01]. left. reflexivity.
    + eapply touches_only_under; [|exact Hre]. right. left. reflexivity.
Qed.

(** The blueprints manager rejects the definition: the staged directory
    is removed and [InvalidBlueprintError] carries the parser's
    message. *)
Lemma prepare_parse_failure gen w2 application_file message blueprint_id :
  plain_name gen = true ->
  stat (fs w2) (rootp ++ [gen]) = Some KDir ->
  _extract_application_file ext req root gen w2 = (Ok application_file, w2) ->
  publish_blueprint ext (file_server_base_uri cfg ++ "/" ++ application_file)
                    (file_server_base_uri cfg ++ "/") blueprint_id
  = Raise (DslParseException message) ->
  _prepare_and_submit_blueprint cfg ext req root gen blueprint_id w2
  = (Raise (InvalidBlueprintError ("Invalid blueprint - " ++ message)),
     mkWorld (fs_rmtree (rootp ++ [gen]) (fs w2))
             ((EvRmtree (rootp ++ [gen]), fs_rmtree (rootp ++ [gen]) (fs w2))
                :: (EvPublish (file_server_base_uri cfg ++ "/" ++ application_file)
                              (file_server_base_uri cfg ++ "/") blueprint_id,
                    fs w2)
                :: history w2)).
Proof.
  intros Hgen HS Hloc Hpub.
  destruct (wf_env_spec _ _ _ _ Hwf) as (_ & Hrp & Hrne & _).
  unfold _prepare_and_submit_blueprint. unfold bind at 1. rewrite Hloc.
  unfold try_except, bind at 1. unfold publish, bind at 1, call_out.
  rewrite Hpub. unfold raise at 1.
  unfold root. rewrite path_join_abspath by assumption.
  unfold bind. rewrite (shutil_rmtree_ok _ _ (rootp ++ [gen]));
    [reflexivity
    | apply resolve_abspath;
      [apply forallb_plain_snoc; assumption | apply snoc_not_nil]
    | exact HS
    | apply snoc_not_nil].
Qed.

Lemma do_request_unfold blueprint_id w a :
  mktemp_from (file_server_root cfg) (mktemp_names ext) w = (Ok a, w) ->
  do_request cfg ext req blueprint_id w
  = try_finally (do_request_body cfg ext req (file_server_root cfg) a blueprint_id)
                (remove_if_exists a) w.
Proof. intros H. unfold do_request, bind. rewrite H. reflexivity. Qed.

(** What [mktemp] hands out. *)
Lemma mktemp_ok w a w0 :
  mktemp_from (file_server_root cfg) (mktemp_names ext) w = (Ok a, w0) ->
  w0 = w
  /\ exists n, In n (mktemp_names ext)
       /\ a = abspath (rootp ++ [temp_name n EmptyString])
       /\ forallb plain_name (rootp ++ [temp_name n EmptyString]) = true
       /\ stat (fs w) (rootp ++ [temp_name n EmptyString]) = None.
Proof.
  intros H.
  destruct (wf_env_spec _ _ _ _ Hwf) as (Hroot & Hrp & Hrne & _ & _ & _ & Hmk & _).
  rewrite Hroot in H. apply mktemp_spec in H; try assumption.
  destruct H as [-> (n & Hin & Hplain & -> & Hs)]. split; [reflexivity|].
  exists n. repeat split; try assumption.
  apply forallb_plain_snoc; assumption.
Qed.

(** A failure of acquisition: nothing was written. *)
Lemma run_acquisition_failure blueprint_id w a e w1 :
  mktemp_from (file_server_root cfg) (mktemp_names ext) w = (Ok a, w) ->
  _save_file_locally ext req a w = (Raise e, w1) ->
  do_request cfg ext req blueprint_id w = (Raise e, w1)
  /\ fs w1 = fs w
  /\ touches_only (fun _ => false) w w1.
Proof.
  intros Hmk Hsave. rewrite (do_request_unfold _ _ _ Hmk).
  destruct (mktemp_ok _ _ _ Hmk) as (_ & n & Hin & -> & HA & Hfree).
  pose proof Hsave as Hsave'.
  apply save_spec in Hsave'; [|exact HA|apply snoc_not_nil].
  destruct Hsave' as [(e' & _ & Hfs & T) | (He & _)]; [|discriminate].
  unfold try_finally, do_request_body. unfold bind at 1. rewrite Hsave.
  rewrite remove_if_exists_absent;
    [| exact HA | apply snoc_not_nil | rewrite Hfs; exact Hfree].
  repeat split; assumption.
Qed.

Lemma touches_only_step R w w1 ev m' :
  touches_only R w w1 -> agree_outside R (fs w1) m' ->
  touches_only R w (mkWorld m' ((ev, m') :: history w1)).
Proof.
  intros T A. eapply touches_only_trans; [exact T|].
  apply touches_only_commit. exact A.
Qed.

Lemma touches_only_push R w m1 h1 ev m' :
  touches_only R w (mkWorld m1 h1) -> agree_outside R m1 m' ->
  touches_only R w (mkWorld m' ((ev, m') :: h1)).
Proof. apply (touches_only_step R w (mkWorld m1 h1)). Qed.

Lemma agree_under_unlink Ps P m :
  In P Ps -> P <> [] -> agree_outside (under Ps) m (fs_unlink P m).
Proof.
  intros Hin Hne. eapply agree_outside_weaken;
    [|apply agree_outside_fs_unlink; exact Hne].
  intros q. apply under_in. exact Hin.
Qed.

Lemma agree_under_rmtree Ps P m :
  In P Ps -> P <> [] -> agree_outside (under Ps) m (fs_rmtree P m).
Proof.
  intros Hin Hne. eapply agree_outside_weaken;
    [|apply agree_outside_fs_rmtree; exact Hne].
  intros q. apply under_in. exact Hin.
Qed.

Lemma stat_unlink_absent P m q :
  P <> [] -> stat m q = None -> stat (fs_unlink P m) q = None.
Proof.
  intros Hne Hq. rewrite stat_fs_unlink by exact Hne.
  destruct (is_prefix P q); [reflexivity | exact Hq].
Qed.

Lemma stat_unlink_self P m : P <> [] -> stat (fs_unlink P m) P = None.
Proof. intros Hne. rewrite stat_fs_unlink, is_prefix_refl by exact Hne. reflexivity. Qed.

(** A failure of extraction: the temporary directory and the archive
    are removed, and the store is as it was before the request. *)
Lemma run_extraction_failure blueprint_id w a w1 e w2 :
  mktemp_from (file_server_root cfg) (mktemp_names ext) w = (Ok a, w) ->
  _save_file_locally ext req a w = (Ok tt, w1) ->
  _extract_file_to_file_server ext (file_server_root cfg) a w1 = (Raise e, w2) ->
  exists w' Ps,
    do_request cfg ext req blueprint_id w = (Raise e, w')
    /\ same_store (fs w) (fs w')
    /\ (forall P, In P Ps -> stat (fs w) P = None /\ stat (fs w') P = None)
    /\ touches_only (under Ps) w w'.
Proof.
  intros Hmk Hsave Hext. rewrite (do_request_unfold _ _ _ Hmk).
  destruct (mktemp_ok _ _ _ Hmk) as (_ & n & Hin & -> & HA & Hfree).
  destruct (wf_env_spec _ _ _ _ Hwf) as (Hroot & _).
  rewrite Hroot in *. fold root in Hext.
  destruct (prefix_spec n w w1 _ w2 Hin Hfree Hsave Hext)
    as (d & Hd & Hrdir & T01 & Hcases).
  set (A := rootp ++ [temp_name n EmptyString]) in *.
  assert (HAne : A <> []) by apply snoc_not_nil.
  unfold try_finally, do_request_body. unfold bind at 1. rewrite Hsave.
  unfold bind at 1. try unfold root in Hext. rewrite Hext.
  destruct Hcases as [(e' & _ & ->) | (n' & Hin' & HT0 & HT2 & HA2 & T02)].
  - rewrite (remove_if_exists_file A w1 d HA HAne Hd).
    eexists. exists [A]. split; [reflexivity|]. cbn [fs].
    assert (Habs : forall P, In P [A] ->
               stat (fs w) P = None /\ stat (fs_unlink A (fs w1)) P = None).
    { intros P [<-|[]]. split; [exact Hfree | apply stat_unlink_self; exact HAne]. }
    assert (T : touches_only (under [A]) w
                  {| fs := fs_unlink A (fs w1);
                     history := (EvUnlink A, fs_unlink A (fs w1)) :: history w1 |}).
    { apply touches_only_step; [exact T01|].
      apply agree_under_unlink; [left; reflexivity | exact HAne]. }
    split; [|split; [exact Habs | exact T]].
    eapply same_store_of_absent_roots; [exact Habs|].
    exact (touches_only_agree _ _ _ T).
  - set (T := tmpp ++ [temp_name n' "-blueprint-submit"]) in *.
    rewrite (remove_if_exists_file A w2 d HA HAne HA2).
    eexists. exists [A; T]. split; [reflexivity|]. cbn [fs].
    assert (Habs : forall P, In P [A; T] ->
               stat (fs w) P = None /\ stat (fs_unlink A (fs w2)) P = None).
    { intros P [<-|[<-|[]]].
      - split; [exact Hfree | apply stat_unlink_self; exact HAne].
      - split; [exact HT0 | apply stat_unlink_absent; assumption]. }
    assert (Tw : touches_only (under [A; T]) w
                   {| fs := fs_unlink A (fs w2);
                      history := (EvUnlink A, fs_unlink A (fs w2)) :: history w2 |}).
    { apply touches_only_step; [exact T02|].
      apply agree_under_unlink; [left; reflexivity | exact HAne]. }
    split; [|split; [exact Habs | exact Tw]].
    eapply same_store_of_absent_roots; [exact Habs|].
    exact (touches_only_agree _ _ _ Tw).
Qed.

(** A rejection by the parser: the staged directory, the temporary
    directory and the archive are removed, and the store is as it was
    before the request. *)
Lemma run_parse_failure blueprint_id w a w1 gen w2 application_file message :
  mktemp_from (file_server_root cfg) (mktemp_names ext) w = (Ok a, w) ->
  _save_file_locally ext req a w = (Ok tt, w1) ->
  _extract_file_to_file_server ext (file_server_root cfg) a w1 = (Ok gen, w2) ->
  _extract_application_file ext req (file_server_root cfg) gen w2
  = (Ok application_file, w2) ->
  publish_blueprint ext (file_server_base_uri cfg ++ "/" ++ application_file)
                    (file_server_base_uri cfg ++ "/") blueprint_id
  = Raise (DslParseException message) ->
  exists w' Ps,
    do_request cfg ext req blueprint_id w
    = (Raise (InvalidBlueprintError ("Invalid blueprint - " ++ message)), w')
    /\ same_store (fs w) (fs w')
    /\ (forall P, In P Ps -> stat (fs w) P = None /\ stat (fs w') P = None)
    /\ touches_only (under Ps) w w'
    /\ In (rootp ++ [gen]) Ps
    /\ In (EvRmtree (rootp ++ [gen])) (map fst (history w')).
Proof.
  intros Hmk Hsave Hext Hloc Hpub. rewrite (do_request_unfold _ _ _ Hmk).
  destruct (mktemp_ok _ _ _ Hmk) as (_ & n & Hin & -> & HA & Hfree).
  destruct (wf_env_spec _ _ _ _ Hwf) as (Hroot & _).
  rewrite Hroot in *. fold root in Hext, Hloc.
  destruct (prefix_spec n w w1 _ w2 Hin Hfree Hsave Hext)
    as (d & Hd & Hrdir & T01 & Hcases).
  set (A := rootp ++ [temp_name n EmptyString]) in *.
  assert (HAne : A <> []) by apply snoc_not_nil.
  destruct Hcases as [(e' & He & _) | (n' & Hin' & HT0 & HT2 & HA2 & Hre)];
    [discriminate|].
  destruct Hre as (Hgen & HS0 & HS2 & T02).
  set (T := tmpp ++ [temp_name n' "-blueprint-submit"]) in *.
  set (S := rootp ++ [gen]) in *.
  assert (HSne : S <> []) by apply snoc_not_nil.
  pose proof (prepare_parse_failure gen w2 application_file message blueprint_id
                Hgen HS2 Hloc Hpub) as Hprep.
  fold S in Hprep.
  unfold try_finally, do_request_body. unfold bind at 1. rewrite Hsave.
  unfold bind at 1. try unfold root in Hext. rewrite Hext.
  unfold bind at 1. try unfold root in Hprep. rewrite Hprep.
  assert (HSA : is_prefix S A = false).
  { destruct (is_prefix S A) eqn:E; [|reflexivity].
    apply is_prefix_same_length in E;
      [|unfold S, A; rewrite !length_app; reflexivity].
    rewrite E, HA2 in HS2. discriminate. }
  rewrite (remove_if_exists_file A _ d HA HAne);
    [| cbn [fs]; rewrite stat_fs_rmtree, HSA by exact HSne; exact HA2].
  eexists. exists [A; T; S]. split; [reflexivity|]. cbn [fs history].
  assert (Habs : forall P, In P [A; T; S] ->
             stat (fs w) P = None
             /\ stat (fs_unlink A (fs_rmtree S (fs w2))) P = None).
  { intros P [<-|[<-|[<-|[]]]].
    - split; [exact Hfree | apply stat_unlink_self; exact HAne].
    - split; [exact HT0|]. apply stat_unlink_absent; [exact HAne|].
      rewrite stat_fs_rmtree by exact HSne.
      destruct (is_prefix S T); [reflexivity | exact HT2].
    - split; [exact HS0|]. apply stat_unlink_absent; [exact HAne|].
      rewrite stat_fs_rmtree, is_prefix_refl by exact HSne. reflexivity. }
  match goal with
  | |- same_store _ _ /\ _ /\ touches_only _ _ ?wf /\ _ /\ _ =>
      assert (Tw : touches_only (under [A; T; S]) w wf)
  end.
  { apply touches_only_push with (m1 := fs_rmtree S (fs w2)).
    - apply touches_only_push with (m1 := fs w2).
      + apply touches_only_step; [exact T02 | apply agree_outside_refl].
      + apply agree_under_rmtree; [right; right; left; reflexivity | exact HSne].
    - apply agree_under_unlink; [left; reflexivity | exact HAne]. }
  split; [|split; [exact Habs | split; [exact Tw|]]].
  - eapply same_store_of_absent_roots; [exact Habs|].
    exact (touches_only_agree _ _ _ Tw).
  - split; [right; right; left; reflexivity|].
    cbn [map fst]. right. left. reflexivity.
Qed.


(** C5. Whenever the blueprints manager rejects the definition with a
    [DslParseException], the request fails with [InvalidBlueprintError]
    whose message wraps the parser's; the staged directory has been
    removed by then ([shutil.rmtree] is in the history and the path is
    gone), and the store ends as it was before the request, so nothing
    was created under [blueprints/<id>]. *)
Theorem C5_parser_rejection_rolls_back
    blueprint_id w a w1 gen w2 application_file message :
  mktemp_from (file_server_root cfg) (mktemp_names ext) w = (Ok a, w) ->
  _save_file_locally ext req a w = (Ok tt, w1) ->
  _extract_file_to_file_server ext (file_server_root cfg) a w1 = (Ok gen, w2) ->
  _extract_application_file ext req (file_server_root cfg) gen w2
  = (Ok application_file, w2) ->
  publish_blueprint ext (file_server_base_uri cfg ++ "/" ++ application_file)
                    (file_server_base_uri cfg ++ "/") blueprint_id
  = Raise (DslParseException message) ->
  exists w',
    do_request cfg ext req blueprint_id w
    = (Raise (InvalidBlueprintError ("Invalid blueprint - " ++ message)), w')
    /\ In (EvRmtree (rootp ++ [gen])) (map fst (history w'))
    /\ stat (fs w') (rootp ++ [gen]) = None
    /\ same_store (fs w) (fs w')
    /\ stat (fs w')
            (rootp ++ [file_server_blueprints_folder cfg; blueprint_id])
       = stat (fs w)
              (rootp ++ [file_server_blueprints_folder cfg; blueprint_id]).
Proof.
  intros Hmk Hsave Hext Hloc Hpub.
  destruct (run_parse_failure blueprint_id w a w1 gen w2 application_file
              message Hmk Hsave Hext Hloc Hpub)
    as (w' & Ps & Hrun & Hsame & Habs & _ & HinS & Hev).
  exists w'. split; [exact Hrun|]. split; [exact Hev|].
  split; [apply (Habs _ HinS)|]. split; [exact Hsame | apply Hsame].
Qed.


(** C6 (as the code has it). When extraction fails, the temporary
    archive is removed by the [finally] clause of [do_request] before
    the error leaves it; when extraction succeeds, the archive is still
    the same regular file at its temporary path — the last step of the
    request moves it to the uploaded-blueprints folder and refuses to
    run without it. *)
Theorem C6_archive_kept_until_relocation blueprint_id w a w1 re w2 :
  mktemp_from (file_server_root cfg) (mktemp_names ext) w = (Ok a, w) ->
  _save_file_locally ext req a w = (Ok tt, w1) ->
  _extract_file_to_file_server ext (file_server_root cfg) a w1 = (re, w2) ->
  match re with
  | Raise e =>
      exists w', do_request cfg ext req blueprint_id w = (Raise e, w')
                 /\ path_exists (fs w') a = false
  | Ok gen =>
      path_isfile (fs w2) a = true /\ lstat (fs w2) a = lstat (fs w1) a
  end
  /\ (forall bid w3, path_exists (fs w3) a = false ->
        exists msg,
          _move_archive_to_uploaded_blueprints_dir cfg ext bid
            (file_server_root cfg) a w3
          = (Raise (RuntimeError msg), w3)).
Proof.
  intros Hmk Hsave Hext. split.
  - destruct re as [gen|e].
    + destruct (mktemp_ok _ _ _ Hmk) as (_ & n & Hin & -> & HA & Hfree).
      destruct (wf_env_spec _ _ _ _ Hwf) as (Hroot & _).
      rewrite Hroot in *.
      destruct (prefix_spec n w w1 _ w2 Hin Hfree Hsave Hext)
        as (d & Hd & _ & _ & Hcases).
      destruct Hcases as [(e' & He & _) | (n' & _ & _ & _ & HA2 & _)];
        [discriminate|].
      unfold path_isfile.
      rewrite !lstat_abspath by (exact HA || apply snoc_not_nil).
      rewrite HA2, Hd. split; reflexivity.
    + destruct (run_extraction_failure blueprint_id w a w1 e w2 Hmk Hsave Hext)
        as (w' & Ps & Hrun & Hsame & _).
      exists w'. split; [exact Hrun|].
      destruct (mktemp_ok _ _ _ Hmk) as (_ & n & Hin & -> & HA & Hfree).
      rewrite path_exists_abspath by (exact HA || apply snoc_not_nil).
      rewrite (Hsame _), Hfree. reflexivity.
  - intros bid w3 Hgone. eexists.
    unfold _move_archive_to_uploaded_blueprints_dir, bind, os_path_exists.
    rewrite Hgone. reflexivity.
Qed.

End Pipeline.

(** *** The properties on the concrete scenarios *)

Lemma C4_witness :
  fst (_extract_file_to_file_server Scenario.ext0 "/srv/files" Scenario.archive0
         (Scenario.w_saved "ZIP:two"))
  = Raise (BadParametersError MSG_ONE_DIR)
  <-> ~ (exists d,
           fs_listdir ["tmp"; "tmpbbbbbb-blueprint-submit"]
                      (fs (Scenario.w_unpacked "ZIP:two")) = [d]
           /\ path_isdir (fs (Scenario.w_unpacked "ZIP:two"))
                         (path_join Scenario.tempdir0 d) = true).
Proof.
  apply (C4_structural_validation Scenario.ext0 "/srv/files" Scenario.archive0
           (Scenario.w_saved "ZIP:two") Scenario.tempdir0
           (Scenario.w_tempdir "ZIP:two") (Scenario.w_unpacked "ZIP:two"));
    vm_compute; reflexivity.
Defined.

Lemma C5_witness :
  exists w',
    do_request Scenario.cfg0 Scenario.ext0 (Scenario.req_body "ZIP:app") "bad"
               Scenario.w0
    = (Raise (InvalidBlueprintError ("Invalid blueprint - " ++ "unknown type")), w')
    /\ In (EvRmtree (Scenario.rootp0 ++ [Scenario.gen0])) (map fst (history w'))
    /\ stat (fs w') (Scenario.rootp0 ++ [Scenario.gen0]) = None
    /\ same_store (fs Scenario.w0) (fs w')
    /\ stat (fs w')
            (Scenario.rootp0
             ++ [file_server_blueprints_folder Scenario.cfg0; "bad"])
       = stat (fs Scenario.w0)
              (Scenario.rootp0
               ++ [file_server_blueprints_folder Scenario.cfg0; "bad"]).
Proof.
  apply (C5_parser_rejection_rolls_back Scenario.cfg0 Scenario.ext0
           (Scenario.req_body "ZIP:app") Scenario.rootp0 Scenario.tmpp0 eq_refl
           "bad" Scenario.w0 Scenario.archive0 (Scenario.w_saved "ZIP:app")
           Scenario.gen0 (Scenario.w_extracted "ZIP:app")
           (Scenario.gen0 ++ "/blueprint.yaml")%string "unknown type");
    vm_compute; reflexivity.
Defined.



(** A request that finds no entry definition has failed, and the staged
    directory is still under the file server root. *)
Lemma location_failure_leaves_staged_directory :
  exists msg w',
    do_request Scenario.cfg0 Scenario.ext0 (Scenario.req_body "ZIP:noyaml") "bp1"
               Scenario.w0 = (Raise (BadParametersError msg), w')
    /\ stat (fs Scenario.w0) ["srv"; "files"; Scenario.gen0] = None
    /\ stat (fs w') ["srv"; "files"; Scenario.gen0] = Some KDir.
Proof.
  eexists. eexists. split; [vm_compute; reflexivity|].
  split; vm_compute; reflexivity.
Qed.

Lemma C6_witness :
  (path_isfile (fs (Scenario.w_extracted "ZIP:app")) Scenario.archive0 = true
   /\ lstat (fs (Scenario.w_extracted "ZIP:app")) Scenario.archive0
      = lstat (fs (Scenario.w_saved "ZIP:app")) Scenario.archive0)
  /\ (forall bid w3, path_exists (fs w3) Scenario.archive0 = false ->
        exists msg,
          _move_archive_to_uploaded_blueprints_dir Scenario.cfg0 Scenario.ext0 bid
            (file_server_root Scenario.cfg0) Scenario.archive0 w3
          = (Raise (RuntimeError msg), w3)).
Proof.
  apply (C6_archive_kept_until_relocation Scenario.cfg0 Scenario.ext0
           (Scenario.req_body "ZIP:app") Scenario.rootp0 Scenario.tmpp0 eq_refl
           "bp1" Scenario.w0 Scenario.archive0 (Scenario.w_saved "ZIP:app")
           (Ok Scenario.gen0) (Scenario.w_extracted "ZIP:app"));
    vm_compute; reflexivity.
Defined.

(** Extraction has succeeded and the temporary archive is still there. *)
Lemma C6_counterexample :
  _extract_file_to_file_server Scenario.ext0 "/srv/files" Scenario.archive0
    (Scenario.w_saved "ZIP:app")
  = (Ok Scenario.gen0, Scenario.w_extracted "ZIP:app")
  /\ path_isfile (fs (Scenario.w_extracted "ZIP:app")) Scenario.archive0 = true.
Proof. split; vm_compute; reflexivity. Qed.

(** *** Plugin packaging *)

Lemma sort_kept_refl m : sort_kept m m.
Proof. intros q k H. exists k. split; [exact H | reflexivity]. Qed.

Lemma sort_kept_trans m1 m2 m3 :
  sort_kept m1 m2 -> sort_kept m2 m3 -> sort_kept m1 m3.
Proof.
  intros H12 H23 q k H. destruct (H12 q k H) as (k2 & H2 & E2).
  destruct (H23 q k2 H2) as (k3 & H3 & E3). exists k3. split; [exact H3|].
  rewrite E2. exact E3.
Qed.

(** Writing a regular file where no directory is keeps every entry and
    its sort. *)
Lemma sort_kept_fs_set_file p d m :
  p <> [] -> stat m (parent p) = Some KDir -> stat m p <> Some KDir ->
  sort_kept m (fs_set p (KFile d) m).
Proof.
  intros Hne Hpar Hnd q k Hq. rewrite stat_fs_set by assumption.
  destruct (is_prefix p q) eqn:Hpq; [|exists k; split; [exact Hq|reflexivity]].
  destruct (path_eq_dec p q) as [<-|Hneq].
  - exists (KFile d). split; [reflexivity|].
    split; [intros ->; contradiction | discriminate].
  - exfalso. apply is_prefix_spec in Hpq. destruct Hpq as [r ->].
    assert (Hr : r <> []) by (intros ->; apply Hneq; symmetry; apply app_nil_r).
    apply Hnd. eapply stat_above; eassumption.
Qed.

Lemma open_w_keeps s w r w' :
  open_w s w = (r, w') ->
  sort_kept (fs w) (fs w')
  /\ (forall p, r = Ok p -> exists d, stat (fs w') p = Some (KFile d)).
Proof.
  intros H. apply open_w_inv in H.
  destruct H as [(e & -> & ->) | (p & -> & _ & Hne & Hpar & Hnd & ->)].
  - split; [apply sort_kept_refl | discriminate].
  - split; [apply sort_kept_fs_set_file; assumption|].
    intros p' Hp. inversion Hp; subst p'. exists EmptyString.
    apply stat_fs_set_same; assumption.
Qed.

Lemma file_write_keeps h d w :
  sort_kept (fs w) (fs (snd (file_write h d w))).
Proof.
  unfold file_write, bind, get_fs.
  destruct (stat (fs w) h) as [[old|]|] eqn:Hs; try apply sort_kept_refl.
  simpl. assert (Hne : h <> []) by (intros ->; discriminate).
  apply sort_kept_fs_set_file; [exact Hne | | rewrite Hs; discriminate].
  eapply stat_parent_dir; eassumption.
Qed.

Ltac raises_syn :=
  lazymatch goal with
  | |- raises_only _ (bind get_fs _) => apply raises_with_fs; intros ?
  | |- raises_only _ (bind _ _) => apply raises_bind; [|intros ?]
  | |- raises_only _ (ret _) => apply raises_ret
  | |- raises_only _ (raise _) => apply raises_raise; exact I
  | |- raises_only _ (commit _ _) => apply raises_commit
  end.

Lemma raises_open_w s : raises_only fs_error (open_w s).
Proof.
  unfold open_w. raises_syn.
  destruct (resolve m s) as [p|]; [|raises_syn].
  destruct p as [|c p]; [raises_syn|].
  destruct (stat m (c :: p)) as [[d|]|];
    destruct (stat m (parent (c :: p))) as [[d'|]|]; repeat raises_syn.
Qed.

Lemma raises_file_write h d : raises_only fs_error (file_write h d).
Proof.
  unfold file_write. raises_syn. destruct (stat m h) as [[old|]|]; raises_syn.
Qed.

Lemma raises_os_listdir s : raises_only fs_error (os_listdir s).
Proof.
  unfold os_listdir. raises_syn.
  destruct (resolve m s) as [p|]; [|raises_syn].
  destruct (stat m p) as [[d|]|]; raises_syn.
Qed.

Lemma raises_zip_dir ext dir_to_zip target :
  raises_only fs_error (_zip_dir ext dir_to_zip target).
Proof.
  unfold _zip_dir. apply raises_bind; [apply raises_open_w|]. intros zipf.
  raises_syn. apply raises_file_write.
Qed.

Lemma raises_process_plugins ext root blueprint_id :
  raises_only fs_error (_process_plugins ext root blueprint_id).
Proof.
  unfold _process_plugins. apply raises_bind.
  { intros w e w' H. discriminate. }
  intros isd. destruct (negb isd); [raises_syn|].
  apply raises_bind; [apply raises_os_listdir|]. intros names.
  raises_syn. apply raises_for_each. intros plugin_dir. apply raises_zip_dir.
Qed.

Lemma zip_dir_keeps ext dir_to_zip target w r w' :
  _zip_dir ext dir_to_zip target w = (r, w') -> sort_kept (fs w) (fs w').
Proof.
  unfold _zip_dir. intros H. apply bind_inv in H.
  destruct H as [(zipf & w1 & Ho & H) | (e & Ho & _)].
  - apply open_w_keeps in Ho. destruct Ho as [K1 _].
    unfold bind at 1, get_fs in H.
    match type of H with
    | file_write ?h ?d ?w0 = _ =>
        pose proof (file_write_keeps h d w0) as K2; rewrite H in K2
    end.
    eapply sort_kept_trans; eassumption.
  - apply open_w_keeps in Ho. tauto.
Qed.

Lemma for_each_keeps {A} (body : A -> M unit) l :
  (forall a w r w', body a w = (r, w') -> sort_kept (fs w) (fs w')) ->
  forall w r w', for_each l body w = (r, w') -> sort_kept (fs w) (fs w').
Proof.
  intros Hb. induction l as [|a l IH]; intros w r w' H; simpl in H.
  - inversion H; subst. apply sort_kept_refl.
  - apply bind_inv in H.
    destruct H as [(u & w1 & H1 & H2) | (e & H1 & _)].
    + eapply sort_kept_trans; [eapply Hb; exact H1 | eapply IH; exact H2].
    + eapply Hb. exact H1.
Qed.

(** Plugin packaging only writes regular files: whatever exists stays, a
    directory as a directory, a file as a file; and what it raises is an
    error of the file system calls. *)
Lemma process_plugins_keeps ext root blueprint_id w r w' :
  _process_plugins ext root blueprint_id w = (r, w') ->
  sort_kept (fs w) (fs w').
Proof.
  unfold _process_plugins. intros H. unfold bind at 1, os_path_isdir in H.
  destruct (negb (path_isdir (fs w) _)).
  - inversion H; subst. apply sort_kept_refl.
  - apply bind_inv in H.
    destruct H as [(names & w1 & Hl & H) | (e & Hl & _)].
    + apply os_listdir_inv in Hl. destruct Hl as [-> _].
      unfold bind at 1, get_fs in H.
      eapply for_each_keeps; [|exact H].
      intros a w0 r0 w0'. apply zip_dir_keeps.
    + apply os_listdir_inv in Hl. destruct Hl as [-> _]. apply sort_kept_refl.
Qed.

(** *** Permanent placement and what follows it *)

Lemma not_prefix_longer p q : length q < length p -> is_prefix p q = false.
Proof.
  intros H. destruct (is_prefix p q) eqn:E; [|reflexivity].
  apply is_prefix_length in E. lia.
Qed.

Section Placement.

Variable cfg : Config.
Variable ext : Externals.
Variable req : Request.
Variables rootp tmpp : Path.
Hypothesis Hwf : wf_env cfg ext rootp tmpp = true.

Let bf : string := file_server_blueprints_folder cfg.

(** Step 5 where the blueprints folder exists and the id is not yet
    placed: the staged directory becomes [blueprints/<id>] by one rename. *)
Lemma placement_rename gen blueprint_id w :
  plain_name gen = true -> plain_name blueprint_id = true ->
  gen <> bf ->
  stat (fs w) (rootp ++ [gen]) = Some KDir ->
  stat (fs w) (rootp ++ [bf]) = Some KDir ->
  stat (fs w) ((rootp ++ [bf]) ++ [blueprint_id]) = None ->
  shutil_move (path_join (file_server_root cfg) gen)
              (path_join3 (file_server_root cfg) bf blueprint_id) w
  = (Ok tt,
     mkWorld (fs_rename (rootp ++ [gen]) ((rootp ++ [bf]) ++ [blueprint_id]) (fs w))
             ((EvRename (rootp ++ [gen]) ((rootp ++ [bf]) ++ [blueprint_id]),
               fs_rename (rootp ++ [gen]) ((rootp ++ [bf]) ++ [blueprint_id]) (fs w))
                :: history w)).
Proof.
  intros Hgen Hid Hneq HS HBF HB.
  destruct (wf_env_spec _ _ _ _ Hwf)
    as (Hroot & Hrp & Hrne & _ & _ & _ & _ & _ & _ & Hbf & _).
  fold bf in Hbf.
  unfold path_join3. rewrite Hroot.
  rewrite !path_join_abspath;
    try assumption; try (apply forallb_plain_snoc; assumption);
    try apply snoc_not_nil.
  apply (shutil_move_fresh _ _ w KDir);
    try (repeat apply forallb_plain_snoc; assumption);
    try apply snoc_not_nil; try assumption.
  - rewrite parent_snoc. exact HBF.
  - destruct (is_prefix (rootp ++ [gen]) ((rootp ++ [bf]) ++ [blueprint_id])) eqn:E;
      [|reflexivity].
    apply is_prefix_of_snoc in E. destruct E as [E|E].
    + apply (f_equal (@length string)) in E. rewrite !length_app in E.
      simpl in E. lia.
    + rewrite is_prefix_snoc_snoc in E. apply String.eqb_eq in E. contradiction.
Qed.

(** C7 (as the code has it). When the blueprint directory has been placed
    under [blueprints/<id>] and plugin packaging then raises, the error
    leaves [_prepare_and_submit_blueprint] and [do_request] as it is: the
    upload fails with it. The placement is not undone — [blueprints/<id>]
    is a directory in the final store — and the temporary archive is
    removed instead of being moved to the uploaded-blueprints folder. *)
Theorem C7_plugin_failure_fails_the_upload
    blueprint_id w a w1 gen w2 application_file bp w3 e w4 :
  mktemp_from (file_server_root cfg) (mktemp_names ext) w = (Ok a, w) ->
  _save_file_locally ext req a w = (Ok tt, w1) ->
  _extract_file_to_file_server ext (file_server_root cfg) a w1 = (Ok gen, w2) ->
  _extract_application_file ext req (file_server_root cfg) gen w2
  = (Ok application_file, w2) ->
  publish_blueprint ext (file_server_base_uri cfg ++ "/" ++ application_file)
                    (file_server_base_uri cfg ++ "/") blueprint_id
  = Ok bp ->
  plain_name (id bp) = true ->
  stat (fs w) (rootp ++ [bf]) = Some KDir ->
  stat (fs w) ((rootp ++ [bf]) ++ [id bp]) = None ->
  shutil_move (path_join (file_server_root cfg) gen)
              (path_join3 (file_server_root cfg) bf (id bp))
              (snd (publish ext (file_server_base_uri cfg ++ "/" ++ application_file)
                            (file_server_base_uri cfg ++ "/") blueprint_id w2))
  = (Ok tt, w3) ->
  _process_plugins ext (file_server_root cfg) (id bp) w3 = (Raise e, w4) ->
  _prepare_and_submit_blueprint cfg ext req (file_server_root cfg) gen
                                blueprint_id w2
  = (Raise e, w4)
  /\ exists w',
       do_request cfg ext req blueprint_id w = (Raise e, w')
       /\ stat (fs w') ((rootp ++ [bf]) ++ [id bp]) = Some KDir
       /\ path_exists (fs w') a = false.
Proof.
  intros Hmk Hsave Hext Hloc Hpub Hid HBF0 HB0 Hmove Hplug.
  destruct (mktemp_ok cfg ext rootp tmpp Hwf _ _ _ Hmk)
    as (_ & n & Hin & Ha & HA & Hfree).
  destruct (wf_env_spec _ _ _ _ Hwf) as (Hroot & Hrp & Hrne & _).
  assert (Hext' := Hext). rewrite Hroot, Ha in Hext'.
  assert (Hsave' := Hsave). rewrite Ha in Hsave'.
  destruct (prefix_spec cfg ext req rootp tmpp Hwf n w w1 _ w2 Hin Hfree Hsave' Hext')
    as (d & Hd & Hrdir & T01 & Hcases).
  set (A := rootp ++ [temp_name n EmptyString]) in *.
  assert (HAne : A <> []) by apply snoc_not_nil.
  destruct Hcases as [(e' & He & _) | (n' & Hin' & HT0 & HT2 & HA2 & Hre)];
    [discriminate|].
  destruct Hre as (Hgen & HS0 & HS2 & T02).
  set (T := tmpp ++ [temp_name n' "-blueprint-submit"]) in *.
  set (S := rootp ++ [gen]) in *.
  set (BF := rootp ++ [bf]) in *.
  set (B := BF ++ [id bp]) in *.
  (* the blueprints folder is as it was, the id is still free *)
  assert (Hout : forall P, In P [A; T; S] -> is_prefix P BF = false).
  { intros P [<-|[<-|[<-|[]]]].
    - exact (not_below_absent _ _ _ _ Hfree HBF0).
    - exact (not_below_absent _ _ _ _ HT0 HBF0).
    - exact (not_below_absent _ _ _ _ HS0 HBF0). }
  assert (HBF2 : stat (fs w2) BF = Some KDir).
  { rewrite (touches_only_agree _ _ _ T02 BF); [exact HBF0|].
    unfold under. cbn [existsb]. rewrite !Hout; try reflexivity.
    - right. right. left. reflexivity.
    - right. left. reflexivity.
    - left. reflexivity. }
  assert (HgenBF : gen <> bf).
  { intros E. unfold S, BF in *. rewrite E, HBF0 in HS0. discriminate. }
  assert (HSB : is_prefix S B = false).
  { destruct (is_prefix S B) eqn:E; [|reflexivity]. unfold B in E.
    apply is_prefix_of_snoc in E. destruct E as [E|E].
    - apply (f_equal (@length string)) in E. unfold S, BF in E.
      rewrite !length_app in E. simpl in E. lia.
    - unfold S, BF in E. rewrite is_prefix_snoc_snoc in E.
      apply String.eqb_eq in E. contradiction. }
  assert (HAB : is_prefix A B = false).
  { destruct (is_prefix A B) eqn:E; [|reflexivity]. unfold B in E.
    apply is_prefix_of_snoc in E. destruct E as [E|E].
    - apply (f_equal (@length string)) in E. unfold A, BF in E.
      rewrite !length_app in E. simpl in E. lia.
    - rewrite (Hout A) in E; [discriminate | left; reflexivity]. }
  assert (HB2 : stat (fs w2) B = None).
  { destruct (under [A; T; S] B) eqn:E.
    - unfold under in E. cbn [existsb] in E. rewrite HAB, HSB in E.
      cbn [orb] in E. rewrite orb_false_r in E.
      eapply stat_prefix_absent; eassumption.
    - rewrite (touches_only_agree _ _ _ T02 B E). exact HB0. }
  (* the move is one rename *)
  set (dsl := (file_server_base_uri cfg ++ "/" ++ application_file)%string) in *.
  set (res := (file_server_base_uri cfg ++ "/")%string) in *.
  unfold publish, bind, call_out in Hmove. rewrite Hpub in Hmove.
  cbn [snd ret] in Hmove.
  rewrite (placement_rename gen (id bp)) in Hmove; try assumption.
  inversion Hmove; subst w3. clear Hmove.
  fold S BF B in Hplug.
  set (m3 := fs_rename S B (fs w2)) in *.
  assert (HSne : S <> []) by apply snoc_not_nil.
  assert (HBne : B <> []) by apply snoc_not_nil.
  assert (HB3 : stat m3 B = Some KDir).
  { unfold m3. rewrite stat_fs_rename_dst; try assumption.
    - rewrite HS2. discriminate.
    - unfold B. rewrite parent_snoc. exact HBF2. }
  assert (HSA : is_prefix S A = false).
  { destruct (is_prefix S A) eqn:E; [|reflexivity].
    apply is_prefix_same_length in E;
      [|unfold S, A; rewrite !length_app; reflexivity].
    rewrite E, HA2 in HS2. discriminate. }
  assert (HBA : is_prefix B A = false).
  { apply not_prefix_longer. unfold A, B, BF. rewrite !length_app. simpl. lia. }
  assert (HA3 : stat m3 A = Some (KFile d)).
  { unfold m3. rewrite stat_fs_rename_outside by assumption. exact HA2. }
  (* packaging keeps what is there, and raises a file system error *)
  pose proof (process_plugins_keeps _ _ _ _ _ _ Hplug) as K34. cbn [fs] in K34.
  pose proof (raises_process_plugins _ _ _ _ _ _ Hplug) as Hfe.
  destruct (K34 _ _ HB3) as (kB & HB4 & EB).
  assert (kB = KDir) by (apply EB; reflexivity). subst kB.
  destruct (K34 _ _ HA3) as (kA & HA4 & EA).
  assert (exists d4, kA = KFile d4) as [d4 ->].
  { destruct kA as [d4|]; [exists d4; reflexivity|].
    assert (KFile d = KDir) by (apply EA; reflexivity). discriminate. }
  assert (Hprep :
            _prepare_and_submit_blueprint cfg ext req (file_server_root cfg) gen
                                          blueprint_id w2 = (Raise e, w4)).
  { unfold _prepare_and_submit_blueprint. unfold bind at 1. rewrite Hloc.
    fold dsl res. unfold try_except. unfold bind at 1.
    unfold publish, bind at 1, call_out. rewrite Hpub. unfold ret at 1.
    unfold bind at 1. fold bf.
    rewrite (placement_rename gen (id bp)); try assumption.
    cbn [fs history]. fold S BF B m3. unfold bind at 1. rewrite Hplug.
    destruct e; try contradiction; reflexivity. }
  split; [exact Hprep|].
  rewrite (do_request_unfold cfg ext req _ _ _ Hmk).
  unfold try_finally, do_request_body. unfold bind at 1. rewrite Hsave.
  unfold bind at 1. rewrite Hext. unfold bind at 1. rewrite Hprep.
  rewrite Ha. rewrite (remove_if_exists_file A w4 d4 HA HAne HA4).
  eexists. split; [reflexivity|]. cbn [fs]. split.
  - rewrite stat_fs_unlink, HAB by exact HAne. exact HB4.
  - rewrite path_exists_abspath by assumption.
    rewrite stat_unlink_self by exact HAne. reflexivity.
Qed.


Let ubf : string := file_server_uploaded_blueprints_folder cfg.

Lemma mkdir_at_fresh p w :
  p <> [] -> stat (fs w) p = None -> stat (fs w) (parent p) = Some KDir ->
  mkdir_at p w
  = (Ok tt, mkWorld (fs_set p KDir (fs w))
                    ((EvMkdir p, fs_set p KDir (fs w)) :: history w)).
Proof.
  intros Hne Hs Hpar. unfold mkdir_at, bind, get_fs.
  destruct p as [|c p]; [contradiction|]. rewrite Hs, Hpar. reflexivity.
Qed.

Lemma makedirs_rev_one p c w :
  stat (fs w) p = Some KDir -> stat (fs w) (p ++ [c]) = None ->
  makedirs_rev (rev (p ++ [c])) w
  = (Ok tt, mkWorld (fs_set (p ++ [c]) KDir (fs w))
                    ((EvMkdir (p ++ [c]), fs_set (p ++ [c]) KDir (fs w))
                       :: history w)).
Proof.
  intros Hp Hpc. rewrite rev_unit. cbn [makedirs_rev].
  unfold bind at 1, get_fs. rewrite rev_involutive, Hp.
  unfold bind at 1, ret at 1.
  change (rev (c :: rev p)) with (rev (rev p) ++ [c]). rewrite rev_involutive.
  apply mkdir_at_fresh; [apply snoc_not_nil | exact Hpc|].
  rewrite parent_snoc. exact Hp.
Qed.

(** [os.makedirs] of the uploaded-blueprints directory of an id: the
    folder above it is made first when it is missing; the directory itself
    is made, empty, by the last [mkdir]. *)
Lemma makedirs_uploaded blueprint_id w :
  plain_name blueprint_id = true ->
  stat (fs w) rootp = Some KDir ->
  stat (fs w) ((rootp ++ [ubf]) ++ [blueprint_id]) = None ->
  stat (fs w) (rootp ++ [ubf]) = Some KDir
  \/ stat (fs w) (rootp ++ [ubf]) = None ->
  exists m0 h0,
    os_makedirs (abspath ((rootp ++ [ubf]) ++ [blueprint_id])) w
    = (Ok tt,
       mkWorld (fs_set ((rootp ++ [ubf]) ++ [blueprint_id]) KDir m0)
               ((EvMkdir ((rootp ++ [ubf]) ++ [blueprint_id]),
                 fs_set ((rootp ++ [ubf]) ++ [blueprint_id]) KDir m0) :: h0))
    /\ stat m0 (rootp ++ [ubf]) = Some KDir
    /\ stat m0 ((rootp ++ [ubf]) ++ [blueprint_id]) = None
    /\ agree_outside (is_prefix (rootp ++ [ubf])) (fs w) m0
    /\ (h0 = history w
        \/ h0 = (EvMkdir (rootp ++ [ubf]), m0) :: history w).
Proof.
  intros Hid Hroot HU HUBF.
  destruct (wf_env_spec _ _ _ _ Hwf)
    as (_ & Hrp & Hrne & _ & _ & _ & _ & _ & _ & _ & Hubf).
  fold ubf in Hubf.
  set (UBF := rootp ++ [ubf]) in *. set (U := UBF ++ [blueprint_id]) in *.
  assert (HUne : U <> []) by apply snoc_not_nil.
  assert (HUBFne : UBF <> []) by apply snoc_not_nil.
  unfold os_makedirs, bind at 1, get_fs.
  rewrite resolve_abspath
    by (repeat apply forallb_plain_snoc; assumption || apply snoc_not_nil).
  unfold U at 1. rewrite rev_unit. cbn [makedirs_rev].
  unfold bind at 1, get_fs. rewrite rev_involutive.
  change (rev (blueprint_id :: rev UBF)) with (rev (rev UBF) ++ [blueprint_id]).
  rewrite rev_involutive. fold U.
  destruct HUBF as [HUBF|HUBF]; rewrite HUBF.
  - (* the folder is there *)
    exists (fs w), (history w).
    unfold bind at 1, ret at 1.
    rewrite mkdir_at_fresh;
      [| exact HUne | exact HU | unfold U; rewrite parent_snoc; exact HUBF].
    split; [reflexivity|]. split; [exact HUBF|]. split; [exact HU|].
    split; [apply agree_outside_refl | left; reflexivity].
  - (* the folder is made first *)
    exists (fs_set UBF KDir (fs w)),
      ((EvMkdir UBF, fs_set UBF KDir (fs w)) :: history w).
    unfold bind at 1, try_except.
    unfold UBF at 1. rewrite (makedirs_rev_one rootp ubf w Hroot HUBF). fold UBF.
    assert (HUBF1 : stat (fs_set UBF KDir (fs w)) UBF = Some KDir).
    { apply stat_fs_set_same; [exact HUBFne|]. unfold UBF.
      rewrite parent_snoc. exact Hroot. }
    assert (HU1 : stat (fs_set UBF KDir (fs w)) U = None).
    { apply stat_below_absent with (r := [blueprint_id]) in HUBF. fold U in HUBF.
      rewrite stat_fs_set;
        [| exact HUBFne | unfold UBF; rewrite parent_snoc; exact Hroot].
      unfold U. rewrite is_prefix_app.
      destruct (path_eq_dec UBF (UBF ++ [blueprint_id])) as [E|_]; [|reflexivity].
      apply (f_equal (@length string)) in E. rewrite length_app in E.
      simpl in E. lia. }
    rewrite mkdir_at_fresh;
      [| exact HUne | exact HU1 | unfold U; rewrite parent_snoc; exact HUBF1].
    cbn [fs history].
    split; [reflexivity|]. split; [exact HUBF1|]. split; [exact HU1|].
    split; [apply agree_outside_fs_set | right; reflexivity].
Qed.


Lemma plain_archive_name blueprint_id t :
  plain_name blueprint_id = true -> no_slash t = true ->
  plain_name (blueprint_id ++ "." ++ t) = true.
Proof.
  intros Hid Ht. pose proof Hid as Hid'. apply plain_name_spec in Hid'.
  destruct Hid' as (Hne & Hcur & _ & Hns).
  unfold plain_name. unfold no_slash in *.
  apply negb_true_iff in Hns, Ht.
  rewrite !has_char_app, Hns, Ht. cbn [has_char orb negb andb].
  replace (Ascii.eqb "." slash) with false by reflexivity.
  cbn [orb negb]. rewrite andb_true_r.
  destruct blueprint_id as [|c rest]; [contradiction|].
  destruct rest as [|c2 rest].
  - (* a one-character id other than the dot *)
    unfold is_cur in Hcur. apply orb_false_iff in Hcur. destruct Hcur as [_ Hdot].
    simpl in Hdot. simpl.
    destruct (Ascii.eqb c "."); [discriminate | reflexivity].
  - simpl. destruct (Ascii.eqb c "."); [|reflexivity].
    destruct (Ascii.eqb c2 "."); [|reflexivity].
    destruct rest; reflexivity.
Qed.

(** Step 7 where the archive is a regular file directly under the root
    and the id has no uploaded-blueprints directory yet: the directory
    is made by [mkdir] and stands empty until the archive is renamed into
    it. *)
Lemma move_archive_spec blueprint_id c w d t :
  plain_name c = true -> plain_name blueprint_id = true -> no_slash t = true ->
  stat (fs w) (rootp ++ [c]) = Some (KFile d) ->
  stat (fs w) ((rootp ++ [ubf]) ++ [blueprint_id]) = None ->
  stat (fs w) (rootp ++ [ubf]) = Some KDir
  \/ stat (fs w) (rootp ++ [ubf]) = None ->
  get_archive_type ext d = Ok t ->
  exists m1 h0,
    _move_archive_to_uploaded_blueprints_dir cfg ext blueprint_id
      (file_server_root cfg) (abspath (rootp ++ [c])) w
    = (Ok tt,
       mkWorld
         (fs_rename (rootp ++ [c])
            (((rootp ++ [ubf]) ++ [blueprint_id])
               ++ [(blueprint_id ++ "." ++ t)%string]) m1)
         ((EvRename (rootp ++ [c])
             (((rootp ++ [ubf]) ++ [blueprint_id])
                ++ [(blueprint_id ++ "." ++ t)%string]),
           fs_rename (rootp ++ [c])
             (((rootp ++ [ubf]) ++ [blueprint_id])
                ++ [(blueprint_id ++ "." ++ t)%string]) m1)
            :: (EvMkdir ((rootp ++ [ubf]) ++ [blueprint_id]), m1) :: h0))
    /\ stat m1 ((rootp ++ [ubf]) ++ [blueprint_id]) = Some KDir
    /\ (forall x, stat m1 (((rootp ++ [ubf]) ++ [blueprint_id]) ++ [x]) = None)
    /\ stat (fs_rename (rootp ++ [c])
               (((rootp ++ [ubf]) ++ [blueprint_id])
                  ++ [(blueprint_id ++ "." ++ t)%string]) m1)
             (((rootp ++ [ubf]) ++ [blueprint_id])
                ++ [(blueprint_id ++ "." ++ t)%string])
        = Some (KFile d)
    /\ (h0 = history w
        \/ exists m0, h0 = (EvMkdir (rootp ++ [ubf]), m0) :: history w).
Proof.
  intros Hc Hid Ht HA HU HUBF Htype.
  destruct (wf_env_spec _ _ _ _ Hwf)
    as (Hroot & Hrp & Hrne & _ & _ & _ & _ & _ & _ & _ & Hubf).
  fold ubf in Hubf.
  set (A := rootp ++ [c]) in *.
  set (UBF := rootp ++ [ubf]) in *. set (U := UBF ++ [blueprint_id]) in *.
  set (name := (blueprint_id ++ "." ++ t)%string).
  set (F := U ++ [name]).
  assert (Hname : plain_name name = true) by (apply plain_archive_name; assumption).
  assert (HAp : forallb plain_name A = true) by (apply forallb_plain_snoc; assumption).
  assert (HUp : forallb plain_name U = true)
    by (repeat apply forallb_plain_snoc; assumption).
  assert (HFp : forallb plain_name F = true) by (apply forallb_plain_snoc; assumption).
  assert (HAne : A <> []) by apply snoc_not_nil.
  assert (HUne : U <> []) by apply snoc_not_nil.
  assert (HFne : F <> []) by apply snoc_not_nil.
  assert (Hrdir : stat (fs w) rootp = Some KDir).
  { eapply stat_above with (r := [c]); [exact HA | discriminate]. }
  assert (HUBFA : is_prefix UBF A = false).
  { destruct (is_prefix UBF A) eqn:E; [|reflexivity].
    apply is_prefix_same_length in E;
      [|unfold UBF, A; rewrite !length_app; reflexivity].
    rewrite E, HA in HUBF. destruct HUBF; discriminate. }
  assert (HUA : is_prefix U A = false).
  { apply not_prefix_longer. unfold U, UBF, A. rewrite !length_app. simpl. lia. }
  destruct (makedirs_uploaded blueprint_id w Hid Hrdir HU HUBF)
    as (m0 & h0 & Hmk & HUBF0 & HU0 & Ag & Hh0).
  fold UBF U in Hmk, HUBF0, HU0, Ag, Hh0.
  set (m1 := fs_set U KDir m0) in *.
  assert (HU1 : stat m1 U = Some KDir).
  { apply stat_fs_set_same; [exact HUne|]. unfold U. rewrite parent_snoc. exact HUBF0. }
  assert (Hempty : forall x, stat m1 (U ++ [x]) = None).
  { intros x. unfold m1. rewrite stat_fs_set, is_prefix_app;
      [| exact HUne | unfold U; rewrite parent_snoc; exact HUBF0].
    destruct (path_eq_dec U (U ++ [x])) as [E|_]; [|reflexivity].
    apply (f_equal (@length string)) in E. rewrite length_app in E. simpl in E. lia. }
  assert (HA1 : stat m1 A = Some (KFile d)).
  { unfold m1. rewrite stat_fs_set_outside by exact HUA.
    rewrite (Ag A HUBFA). exact HA. }
  assert (HAF : is_prefix A F = false).
  { destruct (is_prefix A F) eqn:E; [|reflexivity]. exfalso.
    unfold F in E. apply is_prefix_of_snoc in E. destruct E as [E|E].
    - apply (f_equal (@length string)) in E. unfold A, U, UBF in E.
      rewrite !length_app in E. simpl in E. lia.
    - unfold U in E. apply is_prefix_of_snoc in E. destruct E as [E|E].
      + apply (f_equal (@length string)) in E. unfold A, UBF in E.
        rewrite !length_app in E. simpl in E. lia.
      + apply is_prefix_same_length in E;
          [|unfold UBF, A; rewrite !length_app; reflexivity].
        rewrite <- E, is_prefix_refl in HUBFA. discriminate. }
  exists m1, h0.
  split; [|split; [exact HU1|split; [exact Hempty|split]]].
  - unfold _move_archive_to_uploaded_blueprints_dir.
    unfold bind at 1, os_path_exists.
    rewrite path_exists_abspath, HA by assumption. cbn [negb].
    unfold path_join3. rewrite Hroot. fold ubf.
    rewrite !path_join_abspath;
      try assumption; try (repeat apply forallb_plain_snoc; assumption);
      try apply snoc_not_nil.
    fold UBF U name F.
    unfold bind at 1. fold A. rewrite Hmk.
    unfold bind at 1, archiving_get_archive_type, bind at 1, get_fs.
    cbn [fs]. rewrite lstat_abspath, HA1, Htype by assumption.
    unfold ret at 1.
    fold name. rewrite (path_join_abspath U name HUp HUne Hname). fold F.
    apply (shutil_move_fresh A F (mkWorld m1 ((EvMkdir U, m1) :: h0)) (KFile d));
      cbn [fs]; try assumption.
    + apply Hempty.
    + unfold F. rewrite parent_snoc. exact HU1.
  - rewrite stat_fs_rename_dst; try assumption.
    + rewrite HA1. discriminate.
    + unfold F. rewrite parent_snoc. exact HU1.
  - destruct Hh0 as [->| ->]; [left; reflexivity | right; eexists; reflexivity].
Qed.

End Placement.

(** *** The two permanent locations *)

Section Durable.

Variable cfg : Config.
Variable ext : Externals.
Variable req : Request.
Variables rootp tmpp : Path.
Hypothesis Hwf : wf_env cfg ext rootp tmpp = true.

Let bf := file_server_blueprints_folder cfg.
Let ubf := file_server_uploaded_blueprints_folder cfg.

(** The worlds of a run up to the placement: acquisition and extraction
    touched the archive path, the temporary directory and the staged
    directory, all three new, and the place of the blueprint is as it
    was. *)
Lemma before_placement blueprint_id w a w1 gen w2 :
  mktemp_from (file_server_root cfg) (mktemp_names ext) w = (Ok a, w) ->
  _save_file_locally ext req a w = (Ok tt, w1) ->
  _extract_file_to_file_server ext (file_server_root cfg) a w1 = (Ok gen, w2) ->
  stat (fs w) (rootp ++ [bf]) = Some KDir ->
  stat (fs w) ((rootp ++ [bf]) ++ [blueprint_id]) = None ->
  exists n n' d,
    In n (mktemp_names ext) /\ In n' (mkdtemp_names ext)
    /\ a = abspath (rootp ++ [temp_name n EmptyString])
    /\ plain_name (temp_name n EmptyString) = true
    /\ stat (fs w) (rootp ++ [temp_name n EmptyString]) = None
    /\ stat (fs w) (tmpp ++ [temp_name n' "-blueprint-submit"]) = None
    /\ stat (fs w) (rootp ++ [gen]) = None
    /\ touches_only (under [rootp ++ [temp_name n EmptyString];
                            tmpp ++ [temp_name n' "-blueprint-submit"];
                            rootp ++ [gen]]) w w2
    /\ plain_name gen = true /\ gen <> bf
    /\ stat (fs w2) (rootp ++ [temp_name n EmptyString]) = Some (KFile d)
    /\ stat (fs w2) (rootp ++ [gen]) = Some KDir
    /\ stat (fs w2) (rootp ++ [bf]) = Some KDir
    /\ stat (fs w2) ((rootp ++ [bf]) ++ [blueprint_id]) = None.
Proof.
  intros Hmk Hsave Hext HBF0 HB0.
  destruct (mktemp_ok cfg ext rootp tmpp Hwf _ _ _ Hmk)
    as (_ & n & Hin & Ha & HA & Hfree).
  destruct (wf_env_spec _ _ _ _ Hwf) as (Hroot & Hrp & Hrne & _).
  rewrite Hroot, Ha in Hext. rewrite Ha in Hsave.
  destruct (prefix_spec cfg ext req rootp tmpp Hwf n w w1 _ w2 Hin Hfree Hsave Hext)
    as (d & Hd & Hrdir & T01 & Hcases).
  destruct Hcases as [(e' & He & _) | (n' & Hin' & HT0 & HT2 & HA2 & Hre)];
    [discriminate|].
  destruct Hre as (Hgen & HS0 & HS2 & T02).
  exists n, n', d.
  set (A := rootp ++ [temp_name n EmptyString]) in *.
  set (T := tmpp ++ [temp_name n' "-blueprint-submit"]) in *.
  set (S := rootp ++ [gen]) in *.
  set (BF := rootp ++ [bf]) in *.
  set (B := BF ++ [blueprint_id]) in *.
  assert (Hplain : plain_name (temp_name n EmptyString) = true).
  { unfold A in HA. rewrite forallb_app in HA. apply andb_true_iff in HA.
    destruct HA as [_ HA]. cbn [forallb] in HA. rewrite andb_true_r in HA.
    exact HA. }
  assert (Hout : forall P, In P [A; T; S] -> is_prefix P BF = false).
  { intros P [<-|[<-|[<-|[]]]].
    - exact (not_below_absent _ _ _ _ Hfree HBF0).
    - exact (not_below_absent _ _ _ _ HT0 HBF0).
    - exact (not_below_absent _ _ _ _ HS0 HBF0). }
  assert (HBF2 : stat (fs w2) BF = Some KDir).
  { rewrite (touches_only_agree _ _ _ T02 BF); [exact HBF0|].
    unfold under. cbn [existsb]. rewrite !Hout; try reflexivity.
    - right. right. left. reflexivity.
    - right. left. reflexivity.
    - left. reflexivity. }
  assert (HgenBF : gen <> bf).
  { intros E. unfold S, BF in *. rewrite E, HBF0 in HS0. discriminate. }
  assert (HSB : is_prefix S B = false).
  { destruct (is_prefix S B) eqn:E; [|reflexivity]. unfold B in E.
    apply is_prefix_of_snoc in E. destruct E as [E|E].
    - apply (f_equal (@length string)) in E. unfold S, BF in E.
      rewrite !length_app in E. simpl in E. lia.
    - unfold S, BF in E. rewrite is_prefix_snoc_snoc in E.
      apply String.eqb_eq in E. contradiction. }
  assert (HAB : is_prefix A B = false).
  { destruct (is_prefix A B) eqn:E; [|reflexivity]. unfold B in E.
    apply is_prefix_of_snoc in E. destruct E as [E|E].
    - apply (f_equal (@length string)) in E. unfold A, BF in E.
      rewrite !length_app in E. simpl in E. lia.
    - rewrite (Hout A) in E; [discriminate | left; reflexivity]. }
  assert (HB2 : stat (fs w2) B = None).
  { destruct (under [A; T; S] B) eqn:E.
    - unfold under in E. cbn [existsb] in E. rewrite HAB, HSB in E.
      cbn [orb] in E. rewrite orb_false_r in E.
      eapply stat_prefix_absent; eassumption.
    - rewrite (touches_only_agree _ _ _ T02 B E). exact HB0. }
  repeat (split; [assumption|]). assumption.
Qed.


End Durable.

Lemma C7_witness :
  _prepare_and_submit_blueprint Scenario.cfg0 Scenario.ext0
    (Scenario.req_body "ZIP:clash") (file_server_root Scenario.cfg0)
    Scenario.gen0 "bp1" (Scenario.w_extracted "ZIP:clash")
  = (Raise (IOError "EISDIR"), Scenario.w_packaged "ZIP:clash")
  /\ exists w',
       do_request Scenario.cfg0 Scenario.ext0 (Scenario.req_body "ZIP:clash")
                  "bp1" Scenario.w0
       = (Raise (IOError "EISDIR"), w')
       /\ stat (fs w')
               ((Scenario.rootp0 ++ [file_server_blueprints_folder Scenario.cfg0])
                  ++ [id (mkBlueprint "bp1")])
          = Some KDir
       /\ path_exists (fs w') Scenario.archive0 = false.
Proof.
  apply (C7_plugin_failure_fails_the_upload Scenario.cfg0 Scenario.ext0
           (Scenario.req_body "ZIP:clash") Scenario.rootp0 Scenario.tmpp0 eq_refl
           "bp1" Scenario.w0 Scenario.archive0 (Scenario.w_saved "ZIP:clash")
           Scenario.gen0 (Scenario.w_extracted "ZIP:clash")
           (Scenario.gen0 ++ "/blueprint.yaml")%string (mkBlueprint "bp1")
           (Scenario.w_placed "ZIP:clash") (IOError "EISDIR")
           (Scenario.w_packaged "ZIP:clash"));
    vm_compute; reflexivity.
Defined.

(** The blueprint is parsed and placed, plugin packaging raises, and the
    upload ends with that error instead of a result. *)
Lemma C7_counterexample :
  publish Scenario.ext0
    ("http://localhost:53229/" ++ Scenario.gen0 ++ "/blueprint.yaml")
    "http://localhost:53229/" "bp1" (Scenario.w_extracted "ZIP:clash")
  = (Ok (mkBlueprint "bp1"), Scenario.w_published "ZIP:clash")
  /\ stat (fs (Scenario.w_placed "ZIP:clash")) Scenario.placed0 = Some KDir
  /\ _process_plugins Scenario.ext0 "/srv/files" "bp1"
       (Scenario.w_placed "ZIP:clash")
     = (Raise (IOError "EISDIR"), Scenario.w_packaged "ZIP:clash")
  /\ exists w',
       do_request Scenario.cfg0 Scenario.ext0 (Scenario.req_body "ZIP:clash")
                  "bp1" Scenario.w0
       = (Raise (IOError "EISDIR"), w')
       /\ stat (fs w') Scenario.placed0 = Some KDir.
Proof.
  split; [vm_compute; reflexivity|].
  split; [vm_compute; reflexivity|].
  split; [vm_compute; reflexivity|].
  eexists. split; vm_compute; reflexivity.
Qed.



(** *** What plugin packaging writes *)

Lemma split_slash_elems s : Forall (fun c => no_slash c = true) (split_slash s).
Proof.
  induction s as [|c s IH]; simpl.
  - constructor; [reflexivity | constructor].
  - destruct (Ascii.eqb c slash) eqn:E.
    + constructor; [reflexivity | exact IH].
    + destruct (split_slash s) as [|h t]; [constructor; [|constructor]|].
      * unfold no_slash. simpl. rewrite E. reflexivity.
      * inversion IH; subst. constructor; [|assumption].
        unfold no_slash in *. simpl. rewrite E. assumption.
Qed.

Lemma basename_no_slash s : no_slash (basename s) = true.
Proof.
  unfold basename. pose proof (split_slash_elems s) as H.
  pose proof (split_slash_not_nil s) as Hne.
  induction H as [|c l Hc Hl IH]; [contradiction|].
  destruct l as [|c' l]; [exact Hc|].
  change (last (c :: c' :: l) EmptyString) with (last (c' :: l) EmptyString).
  apply IH. discriminate.
Qed.

Lemma plain_zip_name b : no_slash b = true -> plain_name (b ++ ".zip") = true.
Proof.
  intros Hb. unfold plain_name. unfold no_slash in Hb.
  apply negb_true_iff in Hb. rewrite has_char_app, Hb.
  replace (has_char slash ".zip") with false by reflexivity.
  cbn [orb negb]. rewrite andb_true_r.
  destruct b as [|c [|c2 [|c3 b]]]; simpl;
    repeat match goal with
           | |- context [Ascii.eqb ?x ?y] => destruct (Ascii.eqb x y)
           end; reflexivity.
Qed.

Lemma zip_dir_touches ext dir_to_zip P w r w' :
  forallb plain_name P = true -> P <> [] ->
  _zip_dir ext dir_to_zip (abspath P) w = (r, w') ->
  touches_only (is_prefix P) w w'.
Proof.
  intros HP Hne H. unfold _zip_dir in H. apply bind_inv in H.
  destruct H as [(zipf & w1 & Ho & H) | (e & Ho & _)].
  - apply open_w_inv in Ho.
    destruct Ho as [(e & Hr & _) | (p & Hr & Hres & _ & _ & _ & ->)];
      [discriminate|].
    inversion Hr; subst zipf. rewrite resolve_abspath in Hres by assumption.
    inversion Hres; subst p.
    unfold bind at 1, get_fs in H.
    match type of H with
    | file_write ?h ?d ?w0 = _ =>
        destruct (file_write_spec h d w0) as (w2 & Hw & T & _)
    end.
    rewrite Hw in H. inversion H; subst.
    eapply touches_only_trans; [|exact T].
    apply touches_only_commit, agree_outside_fs_set.
  - apply open_w_inv in Ho.
    destruct Ho as [(e' & _ & ->) | (p & Hr & _)]; [|discriminate].
    apply touches_only_refl.
Qed.

Lemma for_each_touches {A} R (body : A -> M unit) l :
  (forall a, In a l -> forall w r w', body a w = (r, w') -> touches_only R w w') ->
  forall w r w', for_each l body w = (r, w') -> touches_only R w w'.
Proof.
  induction l as [|a l IH]; intros Hb w r w' H; simpl in H.
  - inversion H; subst. apply touches_only_refl.
  - apply bind_inv in H.
    destruct H as [(u & w1 & H1 & H2) | (e & H1 & _)].
    + eapply touches_only_trans.
      * eapply Hb; [left; reflexivity | exact H1].
      * eapply IH; [|exact H2]. intros a' Ha'. apply Hb. right. exact Ha'.
    + eapply Hb; [left; reflexivity | exact H1].
Qed.

Lemma plugins_directory_abspath rootp blueprint_id :
  forallb plain_name rootp = true -> rootp <> [] ->
  plain_name blueprint_id = true ->
  path_join4 (abspath rootp) "blueprints" blueprint_id "plugins"
  = abspath (rootp ++ ["blueprints"; blueprint_id; "plugins"]).
Proof.
  intros Hrp Hrne Hid. unfold path_join4.
  rewrite path_join_abspath by (assumption || reflexivity).
  rewrite path_join_abspath;
    [| apply forallb_plain_snoc; [assumption | reflexivity]
     | apply snoc_not_nil | assumption].
  rewrite path_join_abspath;
    [| repeat apply forallb_plain_snoc; (assumption || reflexivity)
     | apply snoc_not_nil | reflexivity].
  rewrite <- !app_assoc. reflexivity.
Qed.

Lemma process_plugins_touches ext rootp blueprint_id w r w' :
  forallb plain_name rootp = true -> rootp <> [] ->
  plain_name blueprint_id = true ->
  _process_plugins ext (abspath rootp) blueprint_id w = (r, w') ->
  touches_only (is_prefix (rootp ++ ["blueprints"; blueprint_id; "plugins"])) w w'.
Proof.
  intros Hrp Hrne Hid H. unfold _process_plugins in H.
  rewrite plugins_directory_abspath in H by assumption.
  set (PL := rootp ++ ["blueprints"; blueprint_id; "plugins"]) in *.
  assert (HPL : forallb plain_name PL = true).
  { unfold PL. rewrite forallb_app, Hrp. cbn [forallb]. rewrite Hid. reflexivity. }
  assert (HPLne : PL <> []).
  { unfold PL. intros E. apply app_eq_nil in E. destruct E; discriminate. }
  unfold bind at 1, os_path_isdir in H.
  destruct (negb (path_isdir (fs w) (abspath PL))).
  - inversion H; subst. apply touches_only_refl.
  - apply bind_inv in H.
    destruct H as [(names & w1 & Hl & H) | (e & Hl & _)].
    + apply os_listdir_inv in Hl. destruct Hl as [-> _].
      unfold bind at 1, get_fs in H.
      eapply for_each_touches; [|exact H].
      intros plugin_dir _ w0 r0 w0' Hz. cbv beta zeta in Hz.
      rewrite path_join_abspath in Hz;
        [| exact HPL | exact HPLne | apply plain_zip_name, basename_no_slash].
      eapply touches_only_weaken;
        [| eapply zip_dir_touches;
           [| apply snoc_not_nil | exact Hz];
           apply forallb_plain_snoc;
           [exact HPL | apply plain_zip_name, basename_no_slash]].
      intros q Hq. eapply is_prefix_trans; [apply is_prefix_app | exact Hq].
    + apply os_listdir_inv in Hl. destruct Hl as [-> _]. apply touches_only_refl.
Qed.

Lemma not_prefix_snoc_snoc (p : Path) c c' d :
  c <> c' -> is_prefix (p ++ [c]) ((p ++ [c']) ++ [d]) = false.
Proof.
  intros Hne. destruct (is_prefix (p ++ [c]) ((p ++ [c']) ++ [d])) eqn:E;
    [|reflexivity].
  exfalso. apply is_prefix_of_snoc in E. destruct E as [E|E].
  - apply (f_equal (@length string)) in E. rewrite !length_app in E.
    simpl in E. lia.
  - rewrite is_prefix_snoc_snoc in E. apply String.eqb_eq in E. contradiction.
Qed.

(** *** A whole upload *)

Section WholeUpload.

Variable cfg : Config.
Variable ext : Externals.
Variable req : Request.
Variables rootp tmpp : Path.
Hypothesis Hwf : wf_env cfg ext rootp tmpp = true.

Let bf := file_server_blueprints_folder cfg.
Let ubf := file_server_uploaded_blueprints_folder cfg.

(** Relocation where the folder of uploaded blueprints exists and the id
    has no directory in it: one [mkdir], one rename. *)
Lemma move_archive_existing_folder blueprint_id c w d t :
  plain_name c = true -> plain_name blueprint_id = true -> no_slash t = true ->
  stat (fs w) (rootp ++ [c]) = Some (KFile d) ->
  stat (fs w) (rootp ++ [ubf]) = Some KDir ->
  stat (fs w) ((rootp ++ [ubf]) ++ [blueprint_id]) = None ->
  get_archive_type ext d = Ok t ->
  _move_archive_to_uploaded_blueprints_dir cfg ext blueprint_id
    (file_server_root cfg) (abspath (rootp ++ [c])) w
  = (Ok tt,
     mkWorld
       (fs_rename (rootp ++ [c])
          (((rootp ++ [ubf]) ++ [blueprint_id])
             ++ [(blueprint_id ++ "." ++ t)%string])
          (fs_set ((rootp ++ [ubf]) ++ [blueprint_id]) KDir (fs w)))
       ((EvRename (rootp ++ [c])
           (((rootp ++ [ubf]) ++ [blueprint_id])
              ++ [(blueprint_id ++ "." ++ t)%string]),
         fs_rename (rootp ++ [c])
           (((rootp ++ [ubf]) ++ [blueprint_id])
              ++ [(blueprint_id ++ "." ++ t)%string])
           (fs_set ((rootp ++ [ubf]) ++ [blueprint_id]) KDir (fs w)))
          :: (EvMkdir ((rootp ++ [ubf]) ++ [blueprint_id]),
              fs_set ((rootp ++ [ubf]) ++ [blueprint_id]) KDir (fs w))
          :: history w)).
Proof.
  intros Hc Hid Ht HA HUBF HU Htype.
  destruct (wf_env_spec _ _ _ _ Hwf)
    as (Hroot & Hrp & Hrne & _ & _ & _ & _ & _ & _ & _ & Hubf).
  fold ubf in Hubf.
  set (A := rootp ++ [c]) in *.
  set (UBF := rootp ++ [ubf]) in *. set (U := UBF ++ [blueprint_id]) in *.
  set (name := (blueprint_id ++ "." ++ t)%string).
  set (F := U ++ [name]).
  assert (Hname : plain_name name = true) by (apply plain_archive_name; assumption).
  assert (HAp : forallb plain_name A = true) by (apply forallb_plain_snoc; assumption).
  assert (HUp : forallb plain_name U = true)
    by (repeat apply forallb_plain_snoc; assumption).
  assert (HFp : forallb plain_name F = true) by (apply forallb_plain_snoc; assumption).
  assert (HAne : A <> []) by apply snoc_not_nil.
  assert (HUne : U <> []) by apply snoc_not_nil.
  assert (HFne : F <> []) by apply snoc_not_nil.
  assert (HUA : is_prefix U A = false).
  { apply not_prefix_longer. unfold U, UBF, A. rewrite !length_app. simpl. lia. }
  set (m1 := fs_set U KDir (fs w)).
  assert (HparU : stat (fs w) (parent U) = Some KDir).
  { unfold U. rewrite parent_snoc. exact HUBF. }
  assert (HU1 : stat m1 U = Some KDir) by (apply stat_fs_set_same; assumption).
  assert (HF1 : stat m1 F = None).
  { unfold m1. rewrite stat_fs_set by assumption. unfold F.
    rewrite is_prefix_app.
    destruct (path_eq_dec U (U ++ [name])) as [E|_]; [|reflexivity].
    apply (f_equal (@length string)) in E. rewrite length_app in E. simpl in E. lia. }
  assert (HA1 : stat m1 A = Some (KFile d)).
  { unfold m1. rewrite stat_fs_set_outside by exact HUA. exact HA. }
  assert (HAF : is_prefix A F = false).
  { destruct (is_prefix A F) eqn:E; [|reflexivity]. exfalso.
    unfold F in E. apply is_prefix_of_snoc in E. destruct E as [E|E].
    - apply (f_equal (@length string)) in E. unfold A, U, UBF in E.
      rewrite !length_app in E. simpl in E. lia.
    - unfold U in E. apply is_prefix_of_snoc in E. destruct E as [E|E].
      + apply (f_equal (@length string)) in E. unfold A, UBF in E.
        rewrite !length_app in E. simpl in E. lia.
      + apply is_prefix_same_length in E;
          [|unfold UBF, A; rewrite !length_app; reflexivity].
        rewrite E, HUBF in HA. discriminate. }
  unfold _move_archive_to_uploaded_blueprints_dir.
  unfold bind at 1, os_path_exists.
  rewrite path_exists_abspath, HA by assumption. cbn [negb].
  unfold path_join3. rewrite Hroot. fold ubf.
  rewrite !path_join_abspath;
    try assumption; try (repeat apply forallb_plain_snoc; assumption);
    try apply snoc_not_nil.
  fold UBF U.
  unfold bind at 1, os_makedirs, bind at 1, get_fs.
  rewrite resolve_abspath by assumption.
  unfold U at 1, UBF at 1.
  rewrite (makedirs_rev_one (rootp ++ [ubf]) blueprint_id w HUBF HU).
  fold UBF U m1.
  unfold bind at 1, archiving_get_archive_type, bind at 1, get_fs.
  cbn [fs]. rewrite lstat_abspath, HA1, Htype by assumption.
  unfold ret at 1. fold name.
  rewrite (path_join_abspath U name HUp HUne Hname). fold F.
  apply (shutil_move_fresh A F (mkWorld m1 ((EvMkdir U, m1) :: history w)) (KFile d));
    cbn [fs]; try assumption.
  unfold F. rewrite parent_snoc. exact HU1.
Qed.

(** Extraction leaves the archive as acquisition wrote it. *)
Lemma archive_kept_by_extraction w a w1 gen w2 :
  mktemp_from (file_server_root cfg) (mktemp_names ext) w = (Ok a, w) ->
  _save_file_locally ext req a w = (Ok tt, w1) ->
  _extract_file_to_file_server ext (file_server_root cfg) a w1 = (Ok gen, w2) ->
  lstat (fs w2) a = lstat (fs w1) a.
Proof.
  intros Hmk Hsave Hext.
  destruct (mktemp_ok cfg ext rootp tmpp Hwf _ _ _ Hmk)
    as (_ & n & Hin & Ha & HA & Hfree).
  destruct (wf_env_spec _ _ _ _ Hwf) as (Hroot & _).
  rewrite Hroot, Ha in Hext. rewrite Ha in Hsave.
  destruct (prefix_spec cfg ext req rootp tmpp Hwf n w w1 _ w2 Hin Hfree Hsave Hext)
    as (d & Hd & _ & _ & Hcases).
  destruct Hcases as [(e' & He & _) | (n' & _ & _ & _ & HA2 & _)];
    [discriminate|].
  subst a. rewrite !lstat_abspath by (assumption || apply snoc_not_nil).
  rewrite Hd, HA2. reflexivity.
Qed.

(** Relocation refuses an id that already has a directory among the
    uploaded blueprints: [os.makedirs] raises EEXIST, and the store, the
    archive at its temporary path included, is as it was. *)
Theorem relocation_refuses_existing_directory blueprint_id a w k :
  plain_name blueprint_id = true ->
  path_exists (fs w) a = true ->
  stat (fs w) ((rootp ++ [ubf]) ++ [blueprint_id]) = Some k ->
  _move_archive_to_uploaded_blueprints_dir cfg ext blueprint_id
    (file_server_root cfg) a w
  = (Raise (OSError "EEXIST"), w).
Proof.
  intros Hid Ha HU.
  destruct (wf_env_spec _ _ _ _ Hwf)
    as (Hroot & Hrp & Hrne & _ & _ & _ & _ & _ & _ & _ & Hubf).
  fold ubf in Hubf.
  assert (HUBF : stat (fs w) (rootp ++ [ubf]) = Some KDir).
  { eapply stat_above; [exact HU | discriminate]. }
  unfold _move_archive_to_uploaded_blueprints_dir.
  unfold bind at 1, os_path_exists. rewrite Ha. cbn [negb].
  unfold path_join3. rewrite Hroot. fold ubf.
  rewrite !path_join_abspath;
    try assumption; try (repeat apply forallb_plain_snoc; assumption);
    try apply snoc_not_nil.
  unfold bind at 1, os_makedirs, bind at 1, get_fs.
  rewrite resolve_abspath
    by (repeat apply forallb_plain_snoc; assumption || apply snoc_not_nil).
  rewrite rev_unit. cbn [makedirs_rev].
  unfold bind at 1, get_fs. rewrite rev_involutive, HUBF.
  unfold bind at 1, ret at 1.
  change (rev (blueprint_id :: rev (rootp ++ [ubf])))
    with (rev (rev (rootp ++ [ubf])) ++ [blueprint_id]).
  rewrite rev_involutive.
  unfold mkdir_at, bind, get_fs. rewrite HU.
  destruct ((rootp ++ [ubf]) ++ [blueprint_id]) eqn:E; [|reflexivity].
  apply app_eq_nil in E. destruct E; discriminate.
Qed.

(** An error of the blueprints manager that is not a
    [DslParseException] (a conflict of ids, say) leaves [do_request] as it
    is, and only the [finally] clause runs: the temporary archive is
    removed, but the staged directory, new with this request, stays under
    the file server root. *)
Theorem manager_error_leaves_staged_directory
    blueprint_id w a w1 gen w2 application_file e :
  mktemp_from (file_server_root cfg) (mktemp_names ext) w = (Ok a, w) ->
  _save_file_locally ext req a w = (Ok tt, w1) ->
  _extract_file_to_file_server ext (file_server_root cfg) a w1 = (Ok gen, w2) ->
  _extract_application_file ext req (file_server_root cfg) gen w2
  = (Ok application_file, w2) ->
  publish_blueprint ext (file_server_base_uri cfg ++ "/" ++ application_file)
                    (file_server_base_uri cfg ++ "/") blueprint_id
  = Raise e ->
  (forall message, e <> DslParseException message) ->
  exists w',
    do_request cfg ext req blueprint_id w = (Raise e, w')
    /\ stat (fs w) (rootp ++ [gen]) = None
    /\ stat (fs w') (rootp ++ [gen]) = Some KDir
    /\ path_exists (fs w') a = false.
Proof.
  intros Hmk Hsave Hext Hloc Hpub Hnot.
  destruct (mktemp_ok cfg ext rootp tmpp Hwf _ _ _ Hmk)
    as (_ & n & Hin & Ha & HA & Hfree).
  destruct (wf_env_spec _ _ _ _ Hwf) as (Hroot & Hrp & Hrne & _).
  assert (Hext' := Hext). rewrite Hroot, Ha in Hext'.
  assert (Hsave' := Hsave). rewrite Ha in Hsave'.
  destruct (prefix_spec cfg ext req rootp tmpp Hwf n w w1 _ w2 Hin Hfree Hsave' Hext')
    as (d & Hd & Hrdir & T01 & Hcases).
  set (A := rootp ++ [temp_name n EmptyString]) in *.
  assert (HAne : A <> []) by apply snoc_not_nil.
  destruct Hcases as [(e' & He & _) | (n' & Hin' & HT0 & HT2 & HA2 & Hre)];
    [discriminate|].
  destruct Hre as (Hgen & HS0 & HS2 & T02).
  set (S := rootp ++ [gen]) in *.
  assert (HAS : is_prefix A S = false).
  { destruct (is_prefix A S) eqn:E; [|reflexivity].
    apply is_prefix_same_length in E;
      [|unfold S, A; rewrite !length_app; reflexivity].
    rewrite E, HS2 in HA2. discriminate. }
  set (dsl := (file_server_base_uri cfg ++ "/" ++ application_file)%string) in *.
  set (res := (file_server_base_uri cfg ++ "/")%string) in *.
  assert (Hprep :
            _prepare_and_submit_blueprint cfg ext req (file_server_root cfg) gen
                                          blueprint_id w2
            = (Raise e, mkWorld (fs w2)
                                ((EvPublish dsl res blueprint_id, fs w2)
                                   :: history w2))).
  { unfold _prepare_and_submit_blueprint. unfold bind at 1. rewrite Hloc.
    fold dsl res. unfold try_except. unfold bind at 1.
    unfold publish, bind at 1, call_out. rewrite Hpub. unfold raise at 1.
    destruct e; try reflexivity. exfalso. eapply Hnot. reflexivity. }
  rewrite (do_request_unfold cfg ext req _ _ _ Hmk).
  unfold try_finally, do_request_body. unfold bind at 1. rewrite Hsave.
  unfold bind at 1. rewrite Hext. unfold bind at 1. rewrite Hprep.
  rewrite Ha. fold A.
  rewrite (remove_if_exists_file A _ d HA HAne) by exact HA2.
  eexists. split; [reflexivity|]. cbn [fs].
  split; [exact HS0|]. split.
  - rewrite stat_fs_unlink, HAS by exact HAne. exact HS2.
  - rewrite path_exists_abspath by assumption.
    rewrite stat_unlink_self by exact HAne. reflexivity.
Qed.

(** A directory already at [blueprints/<id>] is not replaced by the
    placement: [shutil.move] puts the staged directory inside it, under
    its generated name, or refuses when that name is taken there. *)
Theorem placement_nests_in_existing_directory gen blueprint_id w :
  plain_name gen = true -> plain_name blueprint_id = true -> gen <> bf ->
  stat (fs w) (rootp ++ [gen]) = Some KDir ->
  stat (fs w) ((rootp ++ [bf]) ++ [blueprint_id]) = Some KDir ->
  shutil_move (path_join (file_server_root cfg) gen)
              (path_join3 (file_server_root cfg) bf blueprint_id) w
  = match stat (fs w) (((rootp ++ [bf]) ++ [blueprint_id]) ++ [gen]) with
    | Some _ => (Raise (ShutilError "Destination path already exists"), w)
    | None =>
        (Ok tt,
         mkWorld (fs_rename (rootp ++ [gen])
                            (((rootp ++ [bf]) ++ [blueprint_id]) ++ [gen]) (fs w))
                 ((EvRename (rootp ++ [gen])
                            (((rootp ++ [bf]) ++ [blueprint_id]) ++ [gen]),
                   fs_rename (rootp ++ [gen])
                             (((rootp ++ [bf]) ++ [blueprint_id]) ++ [gen]) (fs w))
                    :: history w))
    end.
Proof.
  intros Hgen Hid Hneq HS HB.
  destruct (wf_env_spec _ _ _ _ Hwf)
    as (Hroot & Hrp & Hrne & _ & _ & _ & _ & _ & _ & Hbf & _).
  fold bf in Hbf.
  unfold path_join3. rewrite Hroot.
  rewrite !path_join_abspath;
    try assumption; try (repeat apply forallb_plain_snoc; assumption);
    try apply snoc_not_nil.
  apply (shutil_move_into rootp gen ((rootp ++ [bf]) ++ [blueprint_id]) w KDir).
  - apply forallb_plain_snoc; assumption.
  - repeat apply forallb_plain_snoc; assumption.
  - apply snoc_not_nil.
  - exact HS.
  - exact HB.
  - intros E. apply (f_equal (@length string)) in E.
    rewrite !length_app in E. simpl in E. lia.
  - destruct (is_prefix (rootp ++ [gen])
                (((rootp ++ [bf]) ++ [blueprint_id]) ++ [gen])) eqn:E;
      [|reflexivity].
    exfalso. apply is_prefix_of_snoc in E. destruct E as [E|E].
    + apply (f_equal (@length string)) in E. rewrite !length_app in E.
      simpl in E. lia.
    + apply is_prefix_of_snoc in E. destruct E as [E|E].
      * apply (f_equal (@length string)) in E. rewrite !length_app in E.
        simpl in E. lia.
      * rewrite is_prefix_snoc_snoc in E. apply String.eqb_eq in E.
        contradiction.
Qed.


(** Extraction never leaves its temporary directory behind: the
    directory [mkdtemp] makes exists while the archive is unpacked and
    checked, and is gone when [_extract_file_to_file_server] is left,
    with a result or with an error. *)
Theorem extraction_removes_its_temporary_directory archive w tempdir w1 r w' :
  stat (fs w) rootp = Some KDir ->
  mkdtemp_from (gettempdir ext) "-blueprint-submit" (mkdtemp_names ext) w
  = (Ok tempdir, w1) ->
  _extract_file_to_file_server ext (file_server_root cfg) archive w = (r, w') ->
  path_exists (fs w) tempdir = false
  /\ path_isdir (fs w1) tempdir = true
  /\ path_exists (fs w') tempdir = false
  /\ exists T, resolve (fs w1) tempdir = Some T
               /\ In (EvRmtree T) (map fst (history w')).
Proof.
  intros Hrdir Hmk H.
  destruct (wf_env_spec _ _ _ _ Hwf)
    as (Hroot & Hrp & Hrne & Htmp & Htmpp & Htne & _ & Hnames & Huuid & _).
  unfold _extract_file_to_file_server in H. unfold bind at 1 in H.
  rewrite Hmk in H. rewrite Htmp in Hmk.
  apply mkdtemp_spec in Hmk; try assumption; [|reflexivity].
  destruct Hmk as [(e & He & _) | (n & Hin & Hplain & Ht & Habs & Htd & ->)];
    [discriminate|].
  inversion Ht; subst tempdir. clear Ht.
  set (T := tmpp ++ [(temp_name n "-blueprint-submit")]) in *.
  assert (HT : forallb plain_name T = true)
    by (apply forallb_plain_snoc; assumption).
  assert (HTne : T <> []) by apply snoc_not_nil.
  assert (HTr : is_prefix T rootp = false)
    by (eapply not_below_absent; eassumption).
  set (m1 := fs_set T KDir (fs w)) in *.
  set (w1 := {| fs := m1; history := _ |}) in *.
  assert (HT1 : stat m1 T = Some KDir).
  { apply stat_fs_set_same; [exact HTne|]. unfold T. rewrite parent_snoc.
    exact Htd. }
  assert (T01 : touches_only (is_prefix T) w w1)
    by (apply touches_only_commit, agree_outside_fs_set).
  assert (Hnames1 : names_plain (fs w1) T).
  { intros c Hc. exfalso. apply Hc. simpl. unfold m1.
    rewrite stat_fs_set, is_prefix_app;
      [| exact HTne | unfold T; rewrite parent_snoc; exact Htd].
    destruct (path_eq_dec T (T ++ [c])) as [E|_]; [|reflexivity].
    apply (f_equal (@length string)) in E. rewrite length_app in E.
    simpl in E. lia. }
  assert (Hrdir1 : stat (fs w1) rootp = Some KDir).
  { rewrite (touches_only_agree _ _ _ T01 rootp HTr). exact Hrdir. }
  apply try_finally_inv in H.
  destruct H as (rb & w3 & Hbody & Hfin).
  rewrite Hroot in Hbody.
  destruct (extract_body_spec ext rootp T archive w1 rb w3
              Hrp Hrne HT HTne Huuid HT1 Hnames1 Hrdir1 HTr Hbody)
    as [HT3 Hrb].
  rewrite (shutil_rmtree_ok (abspath T) w3 T) in Hfin;
    [| apply resolve_abspath; assumption | exact HT3 | exact HTne].
  destruct Hfin as [[Hfin _] | (e & Hfin & _)]; [|discriminate].
  inversion Hfin; subst w'. clear Hfin. cbn [fs history].
  rewrite !path_exists_abspath, path_isdir_abspath by assumption.
  rewrite Habs. cbn [fs w1]. rewrite HT1.
  rewrite stat_fs_rmtree, is_prefix_refl by exact HTne.
  repeat split; try reflexivity.
  exists T. split; [apply resolve_abspath; assumption|].
  cbn [map fst]. left. reflexivity.
Qed.

End WholeUpload.

(** *** What acquisition stores *)

Lemma write_chunks_content h chunks : forall w d0,
  stat (fs w) h = Some (KFile d0) ->
  exists w', for_each chunks (file_write h) w = (Ok tt, w')
    /\ stat (fs w') h
       = Some (KFile (d0 ++ fold_right String.append EmptyString chunks)).
Proof.
  induction chunks as [|c chunks IH]; intros w d0 Hs; simpl.
  - exists w. split; [reflexivity|]. rewrite string_app_nil_r. exact Hs.
  - destruct (file_write_spec h c w) as (w1 & Hw & _ & Hf & _).
    destruct (IH w1 _ (Hf d0 Hs)) as (w' & Hrest & Hs').
    exists w'. unfold bind. rewrite Hw. split; [exact Hrest|].
    rewrite Hs', string_app_assoc. reflexivity.
Qed.

(** When acquisition succeeds, the file at the target holds exactly the
    payload of the request, whatever was at that path before: the bytes
    read from the URL, the decoded chunks one after the other, or the
    request body. *)
Theorem acquisition_stores_the_payload ext req A w w' :
  forallb plain_name A = true -> A <> [] ->
  _save_file_locally ext req (abspath A) w = (Ok tt, w') ->
  exists payload,
    stat (fs w') A = Some (KFile payload)
    /\ (has_key "blueprint_archive_url" (args req) = true ->
        urlopen ext (get_key "blueprint_archive_url" (args req))
        = UrlBody payload)
    /\ (has_key "blueprint_archive_url" (args req) = false ->
        has_header "Transfer-Encoding" (headers req) = true ->
        payload = fold_right String.append EmptyString
                             (chunked_decode ext (input_stream req)))
    /\ (has_key "blueprint_archive_url" (args req) = false ->
        has_header "Transfer-Encoding" (headers req) = false ->
        payload = data req /\ payload <> EmptyString).
Proof.
  intros HA HAne H.
  assert (Hopen : forall w0 (k : Path -> M unit) w0',
             (f <- open_w (abspath A) ;; k f) w0 = (Ok tt, w0') ->
             exists w1, stat (fs w1) A = Some (KFile EmptyString)
                        /\ k A w1 = (Ok tt, w0')).
  { intros w0 k w0' Hk. apply bind_inv in Hk.
    destruct Hk as [(f & w1 & Ho & Hk) | (e & _ & He)]; [|discriminate].
    apply open_w_inv in Ho.
    destruct Ho as [(e & Hr & _) | (p & Hr & Hres & Hne & Hpar & _ & ->)];
      [discriminate|].
    inversion Hr; subst f. rewrite resolve_abspath in Hres by assumption.
    inversion Hres; subst p. eexists. split; [|exact Hk].
    cbn [fs]. apply stat_fs_set_same; assumption. }
  assert (Hwrite : forall w1 bytes w0',
             stat (fs w1) A = Some (KFile EmptyString) ->
             file_write A bytes w1 = (Ok tt, w0') ->
             stat (fs w0') A = Some (KFile bytes)).
  { intros w1 bytes w0' Hs Hw.
    destruct (file_write_spec A bytes w1) as (w2 & Hw2 & _ & Hf & _).
    rewrite Hw2 in Hw. inversion Hw; subst w0'. exact (Hf _ Hs). }
  unfold _save_file_locally in H.
  destruct (has_key "blueprint_archive_url" (args req)) eqn:Hurl.
  - destruct (truthy (data req) || has_header "Transfer-Encoding" (headers req));
      [discriminate|].
    apply bind_inv in H.
    destruct H as [(u & w1 & Hc & H) | (e & _ & He)]; [|discriminate].
    destruct (urlopen ext (get_key "blueprint_archive_url" (args req)))
      as [bytes| |] eqn:Hopenurl; try discriminate.
    apply Hopen in H. destruct H as (w2 & Hs & Hw).
    exists bytes. split; [eapply Hwrite; eassumption|].
    split; [reflexivity|]. split; discriminate.
  - destruct (has_header "Transfer-Encoding" (headers req)) eqn:Hte.
    + apply Hopen in H. destruct H as (w2 & Hs & Hw).
      destruct (write_chunks_content A (chunked_decode ext (input_stream req))
                  w2 _ Hs) as (w3 & Hw3 & Hs3).
      rewrite Hw3 in Hw. inversion Hw; subst w3.
      eexists. split; [exact Hs3|].
      split; [discriminate|]. split; [reflexivity | discriminate].
    + destruct (truthy (data req)) eqn:Hd; [|discriminate]. cbn [negb] in H.
      apply Hopen in H. destruct H as (w2 & Hs & Hw).
      exists (data req). split; [eapply Hwrite; eassumption|].
      split; [discriminate|]. split; [discriminate|].
      intros _ _. split; [reflexivity|].
      intros E. rewrite E in Hd. discriminate.
Qed.


(** *** Download *)

Lemma same_header_refl a : Serving.same_header a a = true.
Proof. unfold Serving.same_header. apply String.eqb_refl. Qed.

Lemma same_header_trans_neg k n n' :
  Serving.same_header k n' = true -> Serving.same_header n' n = false ->
  Serving.same_header k n = false.
Proof.
  unfold Serving.same_header. rewrite String.eqb_eq, !String.eqb_neq.
  intros -> H. exact H.
Qed.

Lemma get_header_filter_other n n' hs :
  Serving.same_header n' n = false ->
  Serving.get_header n
    (filter (fun kv => negb (Serving.same_header (fst kv) n')) hs)
  = Serving.get_header n hs.
Proof.
  intros Hn. induction hs as [|[k v] hs IH]; [reflexivity|].
  cbn [filter fst Serving.get_header].
  destruct (Serving.same_header k n') eqn:Hk; cbn [negb].
  - rewrite (same_header_trans_neg k n n' Hk Hn). exact IH.
  - cbn [Serving.get_header]. rewrite IH. reflexivity.
Qed.

(** A header read back after it was set, and after another was set. *)
Lemma get_set_header_same n v hs :
  Serving.get_header n (Serving.set_header n v hs) = Some v.
Proof.
  induction hs as [|[k v0] hs IH]; cbn [Serving.set_header Serving.get_header].
  - rewrite same_header_refl. reflexivity.
  - destruct (Serving.same_header k n) eqn:Hk; cbn [Serving.get_header].
    + rewrite same_header_refl. reflexivity.
    + rewrite Hk. exact IH.
Qed.

Lemma get_set_header_other n n' v hs :
  Serving.same_header n' n = false ->
  Serving.get_header n (Serving.set_header n' v hs) = Serving.get_header n hs.
Proof.
  intros Hn. induction hs as [|[k v0] hs IH];
    cbn [Serving.set_header Serving.get_header].
  - rewrite Hn. reflexivity.
  - destruct (Serving.same_header k n') eqn:Hk; cbn [Serving.get_header].
    + rewrite Hn, (same_header_trans_neg k n n' Hk Hn).
      apply get_header_filter_other. exact Hn.
    + destruct (Serving.same_header k n); [reflexivity | exact IH].
Qed.

Lemma path_isfile_abspath m cs :
  forallb plain_name cs = true -> cs <> [] ->
  path_isfile m (abspath cs)
  = match stat m cs with Some (KFile _) => true | _ => false end.
Proof.
  intros Hp Hne. unfold path_isfile. rewrite lstat_abspath by assumption.
  reflexivity.
Qed.

(** The search for the archive reads the store and leaves it: it ends at
    the first type of the list whose file exists, or raises when there is
    none. *)
Lemma find_archive_inv cfg blueprint_id types : forall w r w',
  Serving.find_archive cfg blueprint_id types w = (r, w') ->
  w' = w
  /\ match r with
     | Ok found =>
         exists l1 l2,
           types = l1 ++ snd found :: l2
           /\ fst found
              = path_join4 (file_server_root cfg)
                           (file_server_uploaded_blueprints_folder cfg)
                           blueprint_id
                           (blueprint_id ++ "." ++ snd found)
           /\ path_isfile (fs w) (fst found) = true
           /\ forall t', In t' l1 ->
                path_isfile (fs w)
                  (path_join4 (file_server_root cfg)
                              (file_server_uploaded_blueprints_folder cfg)
                              blueprint_id (blueprint_id ++ "." ++ t'))
                = false
     | Raise e =>
         e = RuntimeError
               ("Could not find blueprint's archive; Blueprint ID: "
                ++ blueprint_id)
         /\ forall t', In t' types ->
              path_isfile (fs w)
                (path_join4 (file_server_root cfg)
                            (file_server_uploaded_blueprints_folder cfg)
                            blueprint_id (blueprint_id ++ "." ++ t'))
              = false
     end.
Proof.
  induction types as [|t types IH]; intros w r w' H;
    cbn [Serving.find_archive] in H.
  - inversion H; subst. split; [reflexivity|]. split; [reflexivity|].
    intros t' [].
  - cbv zeta in H. unfold bind at 1, os_path_isfile in H.
    match type of H with
    | context [path_isfile (fs w) ?lp] =>
        destruct (path_isfile (fs w) lp) eqn:Hf
    end.
    + inversion H; subst. split; [reflexivity|].
      exists [], types. cbn [fst snd]. repeat split; try assumption.
      intros t' [].
    + apply IH in H. destruct H as [-> H]. split; [reflexivity|].
      destruct r as [found|e].
      * destruct H as (l1 & l2 & Hl & Hp & Hfile & Hbefore).
        exists (t :: l1), l2. rewrite Hl. repeat split; try assumption.
        intros t' [<-|Hin]; [exact Hf | apply Hbefore; exact Hin].
      * destruct H as [He Hall]. split; [exact He|].
        intros t' [<-|Hin]; [exact Hf | apply Hall; exact Hin].
Qed.

(** A download that returns serves the first of the supported archive
    types whose file [uploaded-blueprints/<id>/<id>.<type>] exists: the
    store is not changed, [X-Accel-Redirect] names that file below the
    resources URI, [Content-Length] is the length of its bytes, and the
    file name of [Content-Disposition] is [<id>.<type>]. *)
Theorem download_serves_first_supported_archive
    cfg uri col blueprint_id w resp w' :
  Serving.BlueprintsIdArchive_get cfg uri col blueprint_id w = (Ok resp, w') ->
  w' = w
  /\ exists b, Serving.get_blueprint col blueprint_id = Ok b
  /\ exists t l1 l2 bytes,
       SUPPORTED_ARCHIVE_TYPES = l1 ++ t :: l2
       /\ (forall t', In t' l1 ->
             path_isfile (fs w)
               (path_join4 (file_server_root cfg)
                           (file_server_uploaded_blueprints_folder cfg)
                           blueprint_id (blueprint_id ++ "." ++ t'))
             = false)
       /\ lstat (fs w)
            (path_join4 (file_server_root cfg)
                        (file_server_uploaded_blueprints_folder cfg)
                        blueprint_id (blueprint_id ++ "." ++ t))
          = Some (KFile bytes)
       /\ Serving.get_header "X-Accel-Redirect" (Serving.response_headers resp)
          = Some (Serving.HStr
                    (uri ++ "/" ++ file_server_uploaded_blueprints_folder cfg
                     ++ "/" ++ blueprint_id ++ "/" ++ blueprint_id ++ "." ++ t))
       /\ Serving.get_header "Content-Length" (Serving.response_headers resp)
          = Some (Serving.HInt (String.length bytes))
       /\ Serving.get_header "Content-Disposition" (Serving.response_headers resp)
          = Some (Serving.HStr
                    ("attachment; filename=" ++ blueprint_id ++ "." ++ t))
       /\ Serving.get_header "Content-Type" (Serving.response_headers resp)
          = Some (Serving.HStr "application/octet-stream").
Proof.
  unfold Serving.BlueprintsIdArchive_get. intros H.
  apply bind_inv in H.
  destruct H as [(u & w1 & Hm & H) | (e & _ & He)]; [|discriminate].
  unfold Serving.manager_call in Hm.
  destruct (Serving.get_blueprint col blueprint_id) as [b|e] eqn:Hb;
    [|discriminate].
  inversion Hm; subst w1. clear Hm.
  apply bind_inv in H.
  destruct H as [(found & w1 & Hfind & H) | (e & _ & He)]; [|discriminate].
  apply find_archive_inv in Hfind. destruct Hfind as [-> Hfound].
  destruct Hfound as (l1 & l2 & Hl & Hp & Hfile & Hbefore).
  destruct found as [local_path t]. cbn [fst snd] in *.
  unfold path_isfile in Hfile.
  destruct (lstat (fs w) local_path) as [[bytes|]|] eqn:Hls; try discriminate.
  unfold bind at 1, Serving.os_path_getsize, bind at 1, get_fs in H.
  rewrite Hls in H. unfold ret in H. inversion H; subst. clear H.
  split; [reflexivity|]. eexists. split; [reflexivity|].
  exists t, l1, l2, bytes. cbn [Serving.response_headers].
  split; [exact Hl|]. split; [exact Hbefore|]. split; [exact Hls|].
  repeat split.
  - rewrite get_set_header_other by reflexivity.
    apply get_set_header_same.
  - rewrite !get_set_header_other by reflexivity.
    apply get_set_header_same.
  - rewrite !get_set_header_other by reflexivity.
    apply get_set_header_same.
  - rewrite !get_set_header_other by reflexivity.
    apply get_set_header_same.
Qed.


(** *** Deletion *)

Section Deletion.

Variable cfg : Config.
Variable ext : Externals.
Variables rootp tmpp : Path.
Hypothesis Hwf : wf_env cfg ext rootp tmpp = true.
Variable col : Serving.Collaborators.

Let bf := file_server_blueprints_folder cfg.
Let ubf := file_server_uploaded_blueprints_folder cfg.

Lemma permanent_paths blueprint_id :
  plain_name blueprint_id = true ->
  path_join3 (file_server_root cfg) bf blueprint_id
  = abspath ((rootp ++ [bf]) ++ [blueprint_id])
  /\ path_join3 (file_server_root cfg) ubf blueprint_id
     = abspath ((rootp ++ [ubf]) ++ [blueprint_id])
  /\ forallb plain_name ((rootp ++ [bf]) ++ [blueprint_id]) = true
  /\ forallb plain_name ((rootp ++ [ubf]) ++ [blueprint_id]) = true.
Proof.
  intros Hid.
  destruct (wf_env_spec _ _ _ _ Hwf)
    as (Hroot & Hrp & Hrne & _ & _ & _ & _ & _ & _ & Hbf & Hubf).
  fold bf in Hbf. fold ubf in Hubf.
  unfold path_join3. rewrite Hroot.
  rewrite !path_join_abspath;
    try assumption; try (repeat apply forallb_plain_snoc; assumption);
    try apply snoc_not_nil.
  repeat split; repeat apply forallb_plain_snoc; assumption.
Qed.

Lemma delete_run blueprint_id bp w :
  Serving.delete_blueprint col blueprint_id = Ok bp ->
  plain_name (id bp) = true ->
  bf <> ubf ->
  stat (fs w) ((rootp ++ [bf]) ++ [id bp]) = Some KDir ->
  stat (fs w) ((rootp ++ [ubf]) ++ [id bp]) = Some KDir ->
  Serving.BlueprintsId_delete cfg col blueprint_id w
  = (Ok (bp, 200),
     mkWorld
       (fs_rmtree ((rootp ++ [ubf]) ++ [id bp])
                  (fs_rmtree ((rootp ++ [bf]) ++ [id bp]) (fs w)))
       ((EvRmtree ((rootp ++ [ubf]) ++ [id bp]),
         fs_rmtree ((rootp ++ [ubf]) ++ [id bp])
                   (fs_rmtree ((rootp ++ [bf]) ++ [id bp]) (fs w)))
          :: (EvRmtree ((rootp ++ [bf]) ++ [id bp]),
              fs_rmtree ((rootp ++ [bf]) ++ [id bp]) (fs w))
          :: history w)).
Proof.
  intros Hdel Hid Hneq HB HU.
  destruct (permanent_paths (id bp) Hid) as (EB & EU & HBp & HUp).
  set (B := (rootp ++ [bf]) ++ [id bp]) in *.
  set (U := (rootp ++ [ubf]) ++ [id bp]) in *.
  assert (HBne : B <> []) by apply snoc_not_nil.
  assert (HUne : U <> []) by apply snoc_not_nil.
  assert (HBU : is_prefix B U = false).
  { destruct (is_prefix B U) eqn:E; [|reflexivity]. exfalso.
    apply is_prefix_same_length in E;
      [|unfold B, U; rewrite !length_app; reflexivity].
    unfold B, U in E. apply app_inj_tail in E. destruct E as [E _].
    apply app_inj_tail in E. destruct E as [_ E]. contradiction. }
  unfold Serving.BlueprintsId_delete. unfold bind at 1, Serving.manager_call.
  rewrite Hdel. unfold ret at 1. fold bf ubf. rewrite EB, EU.
  unfold bind at 1.
  rewrite (shutil_rmtree_ok (abspath B) w B);
    [| apply resolve_abspath; assumption | exact HB | exact HBne].
  unfold bind at 1.
  rewrite (shutil_rmtree_ok (abspath U) _ U);
    [reflexivity | apply resolve_abspath; assumption | | exact HUne].
  cbn [fs]. rewrite stat_fs_rmtree, HBU by exact HBne. exact HU.
Qed.

(** A deletion the blueprints manager accepts removes the two
    directories of the blueprint, [blueprints/<id>] first, and returns
    the deleted record with status 200: both paths are gone, nothing
    outside them has changed, and the two [rmtree] calls are all that
    happened. *)
Theorem deletion_removes_both_directories blueprint_id bp w :
  Serving.delete_blueprint col blueprint_id = Ok bp ->
  plain_name (id bp) = true ->
  bf <> ubf ->
  stat (fs w) ((rootp ++ [bf]) ++ [id bp]) = Some KDir ->
  stat (fs w) ((rootp ++ [ubf]) ++ [id bp]) = Some KDir ->
  exists w',
    Serving.BlueprintsId_delete cfg col blueprint_id w = (Ok (bp, 200), w')
    /\ stat (fs w') ((rootp ++ [bf]) ++ [id bp]) = None
    /\ stat (fs w') ((rootp ++ [ubf]) ++ [id bp]) = None
    /\ agree_outside
         (under [(rootp ++ [bf]) ++ [id bp]; (rootp ++ [ubf]) ++ [id bp]])
         (fs w) (fs w')
    /\ map fst (history w')
       = EvRmtree ((rootp ++ [ubf]) ++ [id bp])
           :: EvRmtree ((rootp ++ [bf]) ++ [id bp]) :: map fst (history w).
Proof.
  intros Hdel Hid Hneq HB HU.
  rewrite (delete_run blueprint_id bp w Hdel Hid Hneq HB HU).
  set (B := (rootp ++ [bf]) ++ [id bp]) in *.
  set (U := (rootp ++ [ubf]) ++ [id bp]) in *.
  assert (HBne : B <> []) by apply snoc_not_nil.
  assert (HUne : U <> []) by apply snoc_not_nil.
  eexists. split; [reflexivity|]. cbn [fs history map fst].
  split; [|split; [|split; [|reflexivity]]].
  - rewrite !stat_fs_rmtree, is_prefix_refl by assumption.
    destruct (is_prefix U B); reflexivity.
  - rewrite stat_fs_rmtree, is_prefix_refl by assumption. reflexivity.
  - intros q Hq. unfold under in Hq. cbn [existsb] in Hq.
    apply orb_false_iff in Hq. destruct Hq as [HBq Hq].
    rewrite orb_false_r in Hq.
    rewrite !stat_fs_rmtree, Hq, HBq by assumption. reflexivity.
Qed.

(** When the blueprints manager has deleted the record but
    [blueprints/<id>] is not a directory, the first [rmtree] raises
    [OSError] and the request fails there: the store is as it was, the
    directory of the uploaded archive included. *)
Theorem deletion_stops_at_missing_blueprint_directory blueprint_id bp w :
  Serving.delete_blueprint col blueprint_id = Ok bp ->
  plain_name (id bp) = true ->
  stat (fs w) ((rootp ++ [bf]) ++ [id bp]) <> Some KDir ->
  exists errno,
    Serving.BlueprintsId_delete cfg col blueprint_id w
    = (Raise (OSError errno), w).
Proof.
  intros Hdel Hid HB.
  destruct (permanent_paths (id bp) Hid) as (EB & EU & HBp & HUp).
  set (B := (rootp ++ [bf]) ++ [id bp]) in *.
  assert (HBne : B <> []) by apply snoc_not_nil.
  unfold Serving.BlueprintsId_delete. unfold bind at 1, Serving.manager_call.
  rewrite Hdel. unfold ret at 1. fold bf ubf. rewrite EB.
  unfold bind at 1, shutil_rmtree, bind at 1, get_fs.
  rewrite resolve_abspath by assumption.
  destruct (stat (fs w) B) as [[bytes|]|] eqn:Hs.
  - exists "ENOTDIR"%string. reflexivity.
  - contradiction.
  - exists "ENOENT"%string. reflexivity.
Qed.

End Deletion.

(** *** Upload, then download or delete *)

Lemma string_app_inv_head (a b c : string) :
  (a ++ b)%string = (a ++ c)%string -> b = c.
Proof.
  induction a as [|x a IH]; simpl; intros H; [exact H|].
  inversion H. apply IH. assumption.
Qed.

Lemma find_archive_single cfg ext rootp tmpp blueprint_id w t d :
  wf_env cfg ext rootp tmpp = true ->
  plain_name blueprint_id = true ->
  stat (fs w) (((rootp ++ [file_server_uploaded_blueprints_folder cfg])
                  ++ [blueprint_id]) ++ [(blueprint_id ++ "." ++ t)%string])
  = Some (KFile d) ->
  (forall x, x <> (blueprint_id ++ "." ++ t)%string ->
     stat (fs w) (((rootp ++ [file_server_uploaded_blueprints_folder cfg])
                     ++ [blueprint_id]) ++ [x]) = None) ->
  forall types,
  forallb no_slash types = true -> In t types ->
  Serving.find_archive cfg blueprint_id types w
  = (Ok (abspath (((rootp ++ [file_server_uploaded_blueprints_folder cfg])
                     ++ [blueprint_id]) ++ [(blueprint_id ++ "." ++ t)%string]),
         t), w).
Proof.
  intros Hwf Hid HF Honly.
  destruct (wf_env_spec _ _ _ _ Hwf)
    as (Hroot & Hrp & Hrne & _ & _ & _ & _ & _ & _ & _ & Hubf).
  set (ubf := file_server_uploaded_blueprints_folder cfg) in *.
  set (U := (rootp ++ [ubf]) ++ [blueprint_id]) in *.
  assert (HUp : forallb plain_name U = true)
    by (repeat apply forallb_plain_snoc; assumption).
  assert (Hpath : forall t0, no_slash t0 = true ->
            path_join4 (file_server_root cfg) ubf blueprint_id
                       (blueprint_id ++ "." ++ t0)
            = abspath (U ++ [(blueprint_id ++ "." ++ t0)%string])).
  { intros t0 Ht0. unfold path_join4. rewrite Hroot.
    rewrite !path_join_abspath;
      try assumption; try (repeat apply forallb_plain_snoc; assumption);
      try apply snoc_not_nil; try (apply plain_archive_name; assumption).
    reflexivity. }
  induction types as [|t0 types IH]; intros Hns Hin; [destruct Hin|].
  cbn [forallb] in Hns. apply andb_true_iff in Hns. destruct Hns as [Ht0 Hns].
  cbn [Serving.find_archive]. cbv zeta. fold ubf.
  rewrite (Hpath t0 Ht0). unfold bind at 1, os_path_isfile.
  rewrite path_isfile_abspath;
    [| apply forallb_plain_snoc; [exact HUp | apply plain_archive_name; assumption]
     | apply snoc_not_nil].
  destruct (string_dec t0 t) as [->|Hne].
  - rewrite HF. reflexivity.
  - rewrite Honly.
    + apply IH; [exact Hns|]. destruct Hin as [E|Hin]; [contradiction | exact Hin].
    + intros E. apply string_app_inv_head in E.
      apply (string_app_inv_head ".") in E. contradiction.
Qed.

(** *** A whole upload that goes well *)

Section GoodRun.

Variable cfg : Config.
Variable ext : Externals.
Variable req : Request.
Variables rootp tmpp : Path.
Hypothesis Hwf : wf_env cfg ext rootp tmpp = true.

Variable col : Serving.Collaborators.
(** [config.instance().file_server_resources_uri] *)
Variable uri : string.

Let bf := file_server_blueprints_folder cfg.
Let ubf := file_server_uploaded_blueprints_folder cfg.

Variables (blueprint_id : string) (w : World) (a : string) (w1 : World)
          (gen : string) (w2 : World) (application_file : string)
          (bp : Blueprint) (w3 w4 : World) (d t : string).

Hypothesis Hmk :
  mktemp_from (file_server_root cfg) (mktemp_names ext) w = (Ok a, w).
Hypothesis Hsave : _save_file_locally ext req a w = (Ok tt, w1).
Hypothesis Hd1 : lstat (fs w1) a = Some (KFile d).
Hypothesis Hext :
  _extract_file_to_file_server ext (file_server_root cfg) a w1 = (Ok gen, w2).
Hypothesis Hloc :
  _extract_application_file ext req (file_server_root cfg) gen w2
  = (Ok application_file, w2).
Hypothesis Hpub :
  publish_blueprint ext (file_server_base_uri cfg ++ "/" ++ application_file)
                    (file_server_base_uri cfg ++ "/") blueprint_id
  = Ok bp.
Hypothesis Hid : plain_name (id bp) = true.
Hypothesis Hneq : bf <> ubf.
Hypothesis HBF0 : stat (fs w) (rootp ++ [bf]) = Some KDir.
Hypothesis HB0 : stat (fs w) ((rootp ++ [bf]) ++ [id bp]) = None.
Hypothesis HUBF0 : stat (fs w) (rootp ++ [ubf]) = Some KDir.
Hypothesis HU0 : stat (fs w) ((rootp ++ [ubf]) ++ [id bp]) = None.
Hypothesis Hmove0 :
  shutil_move (path_join (file_server_root cfg) gen)
              (path_join3 (file_server_root cfg) bf (id bp))
              (snd (publish ext (file_server_base_uri cfg ++ "/" ++ application_file)
                            (file_server_base_uri cfg ++ "/") blueprint_id w2))
  = (Ok tt, w3).
Hypothesis Hplug0 :
  _process_plugins ext (file_server_root cfg) (id bp) w3 = (Ok tt, w4).
Hypothesis Htype : get_archive_type ext d = Ok t.
Hypothesis Ht : no_slash t = true.

Lemma whole_upload :
  exists w',
    do_request cfg ext req blueprint_id w = (Ok (bp, 201), w')
    /\ stat (fs w') ((rootp ++ [bf]) ++ [id bp]) = Some KDir
    /\ stat (fs w') (((rootp ++ [ubf]) ++ [id bp])
                       ++ [(id bp ++ "." ++ t)%string])
       = Some (KFile d)
    /\ (forall x, x <> (id bp ++ "." ++ t)%string ->
                  stat (fs w') (((rootp ++ [ubf]) ++ [id bp]) ++ [x]) = None)
    /\ path_exists (fs w') a = false
    /\ stat (fs w') (rootp ++ [gen]) = None
    /\ agree_outside
         (under [(rootp ++ [bf]) ++ [id bp]; (rootp ++ [ubf]) ++ [id bp];
                 rootp ++ ["blueprints"; id bp; "plugins"]])
         (fs w) (fs w').
Proof.
  pose proof Hmove0 as Hmove. pose proof Hplug0 as Hplug.
  pose proof (archive_kept_by_extraction cfg ext req rootp tmpp Hwf w a w1 gen w2 Hmk Hsave Hext) as Hkept.
  destruct (mktemp_ok cfg ext rootp tmpp Hwf _ _ _ Hmk)
    as (_ & n & Hin & Ha & HA & Hfree).
  destruct (wf_env_spec _ _ _ _ Hwf)
    as (Hroot & Hrp & Hrne & _ & _ & _ & _ & _ & _ & Hbf & Hubf).
  fold bf in Hbf. fold ubf in Hubf.
  assert (Hext' := Hext). rewrite Hroot, Ha in Hext'.
  assert (Hsave' := Hsave). rewrite Ha in Hsave'.
  destruct (prefix_spec cfg ext req rootp tmpp Hwf n w w1 _ w2 Hin Hfree Hsave' Hext')
    as (d' & Hd & Hrdir & T01 & Hcases).
  set (A := rootp ++ [temp_name n EmptyString]) in *.
  assert (HAne : A <> []) by apply snoc_not_nil.
  assert (Hplainc : plain_name (temp_name n EmptyString) = true).
  { unfold A in HA. rewrite forallb_app in HA. apply andb_true_iff in HA.
    destruct HA as [_ HA]. cbn [forallb] in HA. rewrite andb_true_r in HA.
    exact HA. }
  destruct Hcases as [(e' & He & _) | (n' & Hin' & HT0 & HT2 & HA2 & Hre)];
    [discriminate|].
  destruct Hre as (Hgen & HS0 & HS2 & T02).
  assert (d' = d).
  { rewrite Ha, lstat_abspath, Hd in Hd1 by assumption. congruence. }
  subst d'.
  set (T := tmpp ++ [temp_name n' "-blueprint-submit"]) in *.
  set (S := rootp ++ [gen]) in *.
  set (BF := rootp ++ [bf]) in *.
  set (B := BF ++ [id bp]) in *.
  set (UBF := rootp ++ [ubf]) in *.
  set (U := UBF ++ [id bp]) in *.
  set (PL := rootp ++ ["blueprints"; id bp; "plugins"]) in *.
  set (name := (id bp ++ "." ++ t)%string) in *.
  set (F := U ++ [name]) in *.
  assert (HSne : S <> []) by apply snoc_not_nil.
  assert (HBne : B <> []) by apply snoc_not_nil.
  assert (HUne : U <> []) by apply snoc_not_nil.
  assert (HFne : F <> []) by apply snoc_not_nil.
  (* how the paths lie *)
  assert (HgenBF : gen <> bf).
  { intros E. unfold S, BF in *. rewrite E, HBF0 in HS0. discriminate. }
  assert (HSB : is_prefix S B = false).
  { apply not_prefix_snoc_snoc. exact HgenBF. }
  assert (HAB : is_prefix A B = false).
  { apply not_prefix_snoc_snoc. intros E. unfold A, BF in *.
    rewrite E, HBF0 in Hfree. discriminate. }
  assert (HSU : is_prefix S U = false).
  { apply not_prefix_snoc_snoc. intros E. unfold S, UBF in *.
    rewrite E, HUBF0 in HS0. discriminate. }
  assert (HAU : is_prefix A U = false).
  { apply not_prefix_snoc_snoc. intros E. unfold A, UBF in *.
    rewrite E, HUBF0 in Hfree. discriminate. }
  assert (HBU : is_prefix B U = false).
  { destruct (is_prefix B U) eqn:E; [|reflexivity]. exfalso.
    apply is_prefix_same_length in E;
      [|unfold B, U, BF, UBF; rewrite !length_app; reflexivity].
    unfold B, U in E. apply app_inj_tail in E. destruct E as [E _].
    unfold BF, UBF in E. apply app_inj_tail in E. destruct E as [_ E].
    contradiction. }
  assert (HUB : is_prefix U B = false).
  { destruct (is_prefix U B) eqn:E; [|reflexivity]. exfalso.
    apply is_prefix_same_length in E;
      [|unfold B, U, BF, UBF; rewrite !length_app; reflexivity].
    rewrite E, is_prefix_refl in HBU. discriminate. }
  assert (HSA : is_prefix S A = false).
  { destruct (is_prefix S A) eqn:E; [|reflexivity].
    apply is_prefix_same_length in E;
      [|unfold S, A; rewrite !length_app; reflexivity].
    rewrite E, HA2 in HS2. discriminate. }
  assert (HAS : is_prefix A S = false).
  { destruct (is_prefix A S) eqn:E; [|reflexivity].
    apply is_prefix_same_length in E;
      [|unfold S, A; rewrite !length_app; reflexivity].
    rewrite E, HS2 in HA2. discriminate. }
  assert (HBA : is_prefix B A = false).
  { apply not_prefix_longer. unfold A, B, BF. rewrite !length_app. simpl. lia. }
  assert (HUA : is_prefix U A = false).
  { apply not_prefix_longer. unfold A, U, UBF. rewrite !length_app. simpl. lia. }
  assert (HPLlen : length PL = length rootp + 3).
  { unfold PL. rewrite length_app. reflexivity. }
  assert (HPLA : is_prefix PL A = false).
  { apply not_prefix_longer. rewrite HPLlen. unfold A. rewrite length_app. simpl. lia. }
  assert (HPLS : is_prefix PL S = false).
  { apply not_prefix_longer. rewrite HPLlen. unfold S. rewrite length_app. simpl. lia. }
  assert (HPLB : is_prefix PL B = false).
  { apply not_prefix_longer. rewrite HPLlen. unfold B, BF.
    rewrite !length_app. simpl. lia. }
  assert (HPLU : is_prefix PL U = false).
  { apply not_prefix_longer. rewrite HPLlen. unfold U, UBF.
    rewrite !length_app. simpl. lia. }
  assert (HPLUBF : is_prefix PL UBF = false).
  { apply not_prefix_longer. rewrite HPLlen. unfold UBF.
    rewrite !length_app. simpl. lia. }
  (* the store after extraction *)
  assert (Hout : forall P Q k, In P [A; T; S] -> stat (fs w) Q = Some k ->
                               under [A; T; S] Q = false).
  { intros P Q k _ HQ. unfold under. cbn [existsb].
    rewrite (not_below_absent _ _ _ _ Hfree HQ),
            (not_below_absent _ _ _ _ HT0 HQ),
            (not_below_absent _ _ _ _ HS0 HQ). reflexivity. }
  assert (HBF2 : stat (fs w2) BF = Some KDir).
  { rewrite (touches_only_agree _ _ _ T02 BF); [exact HBF0|].
    eapply (Hout A); [left; reflexivity | exact HBF0]. }
  assert (HUBF2 : stat (fs w2) UBF = Some KDir).
  { rewrite (touches_only_agree _ _ _ T02 UBF); [exact HUBF0|].
    eapply (Hout A); [left; reflexivity | exact HUBF0]. }
  assert (Hfree2 : forall Q, stat (fs w) Q = None ->
                     is_prefix A Q = false -> is_prefix S Q = false ->
                     stat (fs w2) Q = None).
  { intros Q HQ HAQ HSQ. destruct (under [A; T; S] Q) eqn:E.
    - unfold under in E. cbn [existsb] in E. rewrite HAQ, HSQ in E.
      cbn [orb] in E. rewrite orb_false_r in E.
      eapply stat_prefix_absent; eassumption.
    - rewrite (touches_only_agree _ _ _ T02 Q E). exact HQ. }
  assert (HB2 : stat (fs w2) B = None) by (apply Hfree2; assumption).
  assert (HU2 : stat (fs w2) U = None) by (apply Hfree2; assumption).
  (* the placement *)
  set (dsl := (file_server_base_uri cfg ++ "/" ++ application_file)%string) in *.
  set (res := (file_server_base_uri cfg ++ "/")%string) in *.
  unfold publish, bind, call_out in Hmove. rewrite Hpub in Hmove.
  cbn [snd ret] in Hmove.
  rewrite (placement_rename cfg ext rootp tmpp Hwf gen (id bp)) in Hmove;
    try assumption.
  inversion Hmove; subst w3. clear Hmove.
  fold S BF B in Hplug.
  set (m3 := fs_rename S B (fs w2)) in *.
  assert (HparB : stat (fs w2) (parent B) = Some KDir).
  { unfold B. rewrite parent_snoc. exact HBF2. }
  assert (HS2' : stat (fs w2) S <> None) by (rewrite HS2; discriminate).
  assert (Hm3 : forall Q, is_prefix B Q = false -> is_prefix S Q = false ->
                          stat m3 Q = stat (fs w2) Q).
  { intros Q HBQ HSQ. unfold m3. apply stat_fs_rename_outside; assumption. }
  assert (HB3 : stat m3 B = Some KDir).
  { unfold m3. rewrite stat_fs_rename_dst by assumption. exact HS2. }
  assert (HBS : is_prefix B S = false).
  { apply not_prefix_longer. unfold S, B, BF. rewrite !length_app. simpl. lia. }
  assert (HS3 : stat m3 S = None).
  { unfold m3. rewrite stat_fs_rename, HBS, is_prefix_refl by assumption.
    reflexivity. }
  (* plugin packaging *)
  rewrite Hroot in Hplug.
  pose proof (process_plugins_touches _ _ _ _ _ _ Hrp Hrne Hid Hplug) as T34.
  fold PL in T34.
  assert (A34 : agree_outside (is_prefix PL) m3 (fs w4))
    by exact (touches_only_agree _ _ _ T34).
  assert (HA4 : stat (fs w4) A = Some (KFile d)).
  { rewrite (A34 A HPLA), Hm3 by assumption. exact HA2. }
  assert (HB4 : stat (fs w4) B = Some KDir).
  { rewrite (A34 B HPLB). exact HB3. }
  assert (HS4 : stat (fs w4) S = None).
  { rewrite (A34 S HPLS). exact HS3. }
  assert (HUBF4 : stat (fs w4) UBF = Some KDir).
  { rewrite (A34 UBF HPLUBF), Hm3; [exact HUBF2 | |].
    - apply not_prefix_longer. unfold B, BF, UBF. rewrite !length_app. simpl. lia.
    - eapply not_below_absent; [exact HS0 | exact HUBF0]. }
  assert (HU4 : stat (fs w4) U = None).
  { rewrite (A34 U HPLU), Hm3 by assumption. exact HU2. }
  (* the steps of the request *)
  assert (Hprep :
            _prepare_and_submit_blueprint cfg ext req (file_server_root cfg) gen
                                          blueprint_id w2 = (Ok bp, w4)).
  { unfold _prepare_and_submit_blueprint. unfold bind at 1. rewrite Hloc.
    fold dsl res. unfold try_except. unfold bind at 1.
    unfold publish, bind at 1, call_out. rewrite Hpub. unfold ret at 1.
    unfold bind at 1. fold bf.
    rewrite (placement_rename cfg ext rootp tmpp Hwf gen (id bp)); try assumption.
    cbn [fs history]. fold S BF B m3. unfold bind at 1.
    rewrite Hroot, Hplug. reflexivity. }
  pose proof (move_archive_existing_folder cfg ext rootp tmpp Hwf (id bp) (temp_name n EmptyString) w4 d t
                Hplainc Hid Ht HA4 HUBF4 HU4 Htype) as Hreloc.
  set (m5 := fs_set U KDir (fs w4)) in *.
  set (m6 := fs_rename A F m5) in *.
  assert (Hreloc' :
            _move_archive_to_uploaded_blueprints_dir cfg ext (id bp)
              (file_server_root cfg) (abspath A) w4
            = (Ok tt, mkWorld m6 ((EvRename A F, m6) :: (EvMkdir U, m5)
                                    :: history w4)))
    by exact Hreloc.
  clear Hreloc.
  assert (HparU : stat (fs w4) (parent U) = Some KDir).
  { unfold U. rewrite parent_snoc. exact HUBF4. }
  assert (HU5 : stat m5 U = Some KDir) by (apply stat_fs_set_same; assumption).
  assert (HA5 : stat m5 A = Some (KFile d)).
  { unfold m5. rewrite stat_fs_set_outside by exact HUA. exact HA4. }
  assert (HparF : stat m5 (parent F) = Some KDir).
  { unfold F. rewrite parent_snoc. exact HU5. }
  assert (HA5' : stat m5 A <> None) by (rewrite HA5; discriminate).
  assert (HAF : is_prefix A F = false).
  { destruct (is_prefix A F) eqn:E; [|reflexivity]. exfalso.
    unfold F in E. apply is_prefix_of_snoc in E. destruct E as [E|E].
    - apply (f_equal (@length string)) in E. unfold A, U, UBF in E.
      rewrite !length_app in E. simpl in E. lia.
    - rewrite HAU in E. discriminate. }
  assert (Hm6 : forall Q, is_prefix U Q = false -> is_prefix A Q = false ->
                          stat m6 Q = stat (fs w4) Q).
  { intros Q HUQ HAQ. unfold m6.
    rewrite stat_fs_rename_outside; try assumption.
    - unfold m5. apply stat_fs_set_outside. exact HUQ.
    - destruct (is_prefix F Q) eqn:E; [|reflexivity].
      rewrite (is_prefix_trans U F Q) in HUQ;
        [discriminate | apply is_prefix_app | exact E]. }
  assert (HA6 : stat m6 A = None).
  { unfold m6. rewrite stat_fs_rename by assumption.
    rewrite (not_prefix_longer F A), is_prefix_refl; [reflexivity|].
    unfold F, U, UBF, A. rewrite !length_app. simpl. lia. }
  rewrite (do_request_unfold cfg ext req _ _ _ Hmk).
  unfold try_finally, do_request_body. unfold bind at 1. rewrite Hsave.
  unfold bind at 1. rewrite Hext. unfold bind at 1. rewrite Hprep.
  unfold bind at 1. rewrite Ha. fold A. rewrite Hreloc'. unfold ret at 1.
  rewrite (remove_if_exists_absent A _ HA HAne) by exact HA6.
  eexists. split; [reflexivity|]. cbn [fs].
  split; [rewrite Hm6 by assumption; exact HB4|].
  split.
  { unfold m6. rewrite stat_fs_rename_dst by assumption. exact HA5. }
  split.
  { intros x Hx.
    assert (HFx : is_prefix F (U ++ [x]) = false).
    { unfold F. rewrite is_prefix_snoc_snoc. apply String.eqb_neq.
      intros E. symmetry in E. contradiction. }
    assert (HAx : is_prefix A (U ++ [x]) = false).
    { destruct (is_prefix A (U ++ [x])) eqn:E; [|reflexivity].
      apply is_prefix_of_snoc in E. destruct E as [E|E].
      - apply (f_equal (@length string)) in E. unfold A, U, UBF in E.
        rewrite !length_app in E. simpl in E. lia.
      - rewrite HAU in E. discriminate. }
    unfold m6. rewrite stat_fs_rename, HFx, HAx by assumption.
    unfold m5. rewrite stat_fs_set, is_prefix_app by assumption.
    destruct (path_eq_dec U (U ++ [x])) as [E'|_]; [|reflexivity].
    apply (f_equal (@length string)) in E'. rewrite length_app in E'.
    simpl in E'. lia. }
  split.
  { rewrite path_exists_abspath, HA6 by assumption. reflexivity. }
  split.
  { rewrite Hm6; [exact HS4 | | exact HAS].
    apply not_prefix_longer. unfold S, U, UBF. rewrite !length_app. simpl. lia. }
  intros Q HQ. unfold under in HQ. cbn [existsb] in HQ.
  apply orb_false_iff in HQ. destruct HQ as [HBQ HQ].
  apply orb_false_iff in HQ. destruct HQ as [HUQ HQ].
  rewrite orb_false_r in HQ.
  destruct (is_prefix A Q) eqn:HAQ.
  { rewrite (stat_prefix_absent _ _ _ HA6 HAQ).
    symmetry. exact (stat_prefix_absent _ _ _ Hfree HAQ). }
  rewrite Hm6, (A34 Q HQ) by assumption.
  destruct (is_prefix S Q) eqn:HSQ.
  { rewrite (stat_prefix_absent _ _ _ HS3 HSQ).
    symmetry. exact (stat_prefix_absent _ _ _ HS0 HSQ). }
  rewrite Hm3 by assumption.
  destruct (is_prefix T Q) eqn:HTQ.
  { rewrite (stat_prefix_absent _ _ _ HT2 HTQ).
    symmetry. exact (stat_prefix_absent _ _ _ HT0 HTQ). }
  apply (touches_only_agree _ _ _ T02).
  unfold under. cbn [existsb]. rewrite HAQ, HTQ, HSQ. reflexivity.
Qed.

(** Where the two folders of the permanent namespace exist and differ,
    the id is free in both, the blueprints manager accepts the blueprint,
    and plugin packaging and the archive type detection succeed,
    [do_request] returns the blueprint with status 201. Afterwards
    [blueprints/<id>] is a directory, the archive is the regular file
    [uploaded-blueprints/<id>/<id>.<type>] with the bytes acquisition
    wrote, the temporary archive and the staged directory are gone, and
    outside the two permanent directories and the plugins directory every
    path holds what it held before the request. *)
Theorem upload_places_blueprint_and_archive :
  exists w',
    do_request cfg ext req blueprint_id w = (Ok (bp, 201), w')
    /\ stat (fs w') ((rootp ++ [bf]) ++ [id bp]) = Some KDir
    /\ stat (fs w') (((rootp ++ [ubf]) ++ [id bp])
                       ++ [(id bp ++ "." ++ t)%string])
       = Some (KFile d)
    /\ path_exists (fs w') a = false
    /\ stat (fs w') (rootp ++ [gen]) = None
    /\ agree_outside
         (under [(rootp ++ [bf]) ++ [id bp]; (rootp ++ [ubf]) ++ [id bp];
                 rootp ++ ["blueprints"; id bp; "plugins"]])
         (fs w) (fs w').
Proof.
  destruct whole_upload as (w' & H1 & H2 & H3 & _ & H4 & H5 & H6).
  exists w'. repeat split; assumption.
Qed.


(** What was uploaded can be downloaded: after a whole upload whose
    archive type is one of the supported ones, the download of the id
    succeeds without changing the store, points [X-Accel-Redirect] at
    [<uri>/<uploaded folder>/<id>/<id>.<type>] and gives the length of the
    uploaded bytes as [Content-Length]. *)
Theorem upload_then_download b :
  In t SUPPORTED_ARCHIVE_TYPES ->
  Serving.get_blueprint col (id bp) = Ok b ->
  exists w' resp,
    do_request cfg ext req blueprint_id w = (Ok (bp, 201), w')
    /\ Serving.BlueprintsIdArchive_get cfg uri col (id bp) w' = (Ok resp, w')
    /\ Serving.get_header "X-Accel-Redirect" (Serving.response_headers resp)
       = Some (Serving.HStr
                 (uri ++ "/" ++ ubf ++ "/" ++ id bp ++ "/" ++ id bp ++ "." ++ t))
    /\ Serving.get_header "Content-Length" (Serving.response_headers resp)
       = Some (Serving.HInt (String.length d)).
Proof.
  intros Hin Hb.
  destruct whole_upload as (w' & Hrun & _ & HF & Honly & _).
  destruct (wf_env_spec _ _ _ _ Hwf)
    as (Hroot & Hrp & Hrne & _ & _ & _ & _ & _ & _ & _ & Hubf).
  fold ubf in Hubf.
  pose proof (find_archive_single cfg ext rootp tmpp (id bp) w' t d
                Hwf Hid HF Honly SUPPORTED_ARCHIVE_TYPES eq_refl Hin) as Hfind.
  set (F := ((rootp ++ [ubf]) ++ [id bp]) ++ [(id bp ++ "." ++ t)%string]) in *.
  assert (HFp : forallb plain_name F = true).
  { unfold F. repeat apply forallb_plain_snoc; try assumption.
    apply plain_archive_name; assumption. }
  assert (Hfind' :
            Serving.find_archive cfg (id bp) SUPPORTED_ARCHIVE_TYPES w'
            = (Ok (abspath F, t), w')) by exact Hfind.
  assert (Hsize : Serving.os_path_getsize col (abspath F) w'
                  = (Ok (String.length d), w')).
  { unfold Serving.os_path_getsize, bind, get_fs.
    rewrite lstat_abspath by (exact HFp || apply snoc_not_nil).
    rewrite HF. reflexivity. }
  exists w'. eexists. split; [exact Hrun|].
  unfold Serving.BlueprintsIdArchive_get.
  unfold bind at 1, Serving.manager_call. rewrite Hb. unfold ret at 1.
  unfold bind at 1. rewrite Hfind'. cbn [fst snd].
  unfold bind at 1. rewrite Hsize. unfold ret at 1.
  split; [reflexivity|]. cbn [Serving.response_headers]. split.
  - rewrite get_set_header_other by reflexivity.
    apply get_set_header_same.
  - rewrite !get_set_header_other by reflexivity.
    apply get_set_header_same.
Qed.


End GoodRun.

(** *** The properties above on the scenarios *)

Lemma relocation_refuses_existing_directory_witness :
  _move_archive_to_uploaded_blueprints_dir Scenario.cfg0 Scenario.ext0 "bp1"
    (file_server_root Scenario.cfg0) "/srv/files/secret.yaml"
    (Scenario.run_uploaded Scenario.w_ready "ZIP:app")
  = (Raise (OSError "EEXIST"), Scenario.run_uploaded Scenario.w_ready "ZIP:app").
Proof.
  apply (relocation_refuses_existing_directory Scenario.cfg0 Scenario.ext0
           Scenario.rootp0 Scenario.tmpp0 eq_refl "bp1" "/srv/files/secret.yaml"
           (Scenario.run_uploaded Scenario.w_ready "ZIP:app") KDir);
    vm_compute; reflexivity.
Defined.

Lemma manager_error_leaves_staged_directory_witness :
  exists w',
    do_request Scenario.cfg0 Scenario.ext_conflict (Scenario.req_body "ZIP:app")
               "dup" Scenario.w0
    = (Raise (OtherError "ConflictError"), w')
    /\ stat (fs Scenario.w0) (Scenario.rootp0 ++ [Scenario.gen0]) = None
    /\ stat (fs w') (Scenario.rootp0 ++ [Scenario.gen0]) = Some KDir
    /\ path_exists (fs w') Scenario.archive0 = false.
Proof.
  apply (manager_error_leaves_staged_directory Scenario.cfg0
           Scenario.ext_conflict (Scenario.req_body "ZIP:app")
           Scenario.rootp0 Scenario.tmpp0 eq_refl "dup" Scenario.w0
           Scenario.archive0 (Scenario.w_saved "ZIP:app") Scenario.gen0
           (Scenario.w_extracted "ZIP:app")
           (Scenario.gen0 ++ "/blueprint.yaml")%string
           (OtherError "ConflictError"));
    try (vm_compute; reflexivity).
  intros message. discriminate.
Defined.

Lemma placement_nests_in_existing_directory_witness :
  shutil_move (path_join (file_server_root Scenario.cfg0) Scenario.staged0)
              (path_join3 (file_server_root Scenario.cfg0)
                          (file_server_blueprints_folder Scenario.cfg0) "bp1")
              Scenario.w_stale
  = match stat (fs Scenario.w_stale)
               (((Scenario.rootp0
                    ++ [file_server_blueprints_folder Scenario.cfg0])
                   ++ ["bp1"]) ++ [Scenario.staged0]) with
    | Some _ =>
        (Raise (ShutilError "Destination path already exists"), Scenario.w_stale)
    | None =>
        (Ok tt,
         mkWorld (fs_rename (Scenario.rootp0 ++ [Scenario.staged0])
                    (((Scenario.rootp0
                         ++ [file_server_blueprints_folder Scenario.cfg0])
                        ++ ["bp1"]) ++ [Scenario.staged0])
                    (fs Scenario.w_stale))
                 ((EvRename (Scenario.rootp0 ++ [Scenario.staged0])
                     (((Scenario.rootp0
                          ++ [file_server_blueprints_folder Scenario.cfg0])
                         ++ ["bp1"]) ++ [Scenario.staged0]),
                   fs_rename (Scenario.rootp0 ++ [Scenario.staged0])
                     (((Scenario.rootp0
                          ++ [file_server_blueprints_folder Scenario.cfg0])
                         ++ ["bp1"]) ++ [Scenario.staged0])
                     (fs Scenario.w_stale))
                    :: history Scenario.w_stale))
    end.
Proof.
  apply (placement_nests_in_existing_directory Scenario.cfg0 Scenario.ext0
           Scenario.rootp0 Scenario.tmpp0 eq_refl Scenario.staged0 "bp1"
           Scenario.w_stale);
    try (vm_compute; reflexivity).
  intros E. discriminate E.
Defined.

Lemma extraction_removes_its_temporary_directory_witness :
  path_exists (fs (Scenario.w_saved "ZIP:app")) Scenario.tempdir0 = false
  /\ path_isdir (fs (Scenario.w_tempdir "ZIP:app")) Scenario.tempdir0 = true
  /\ path_exists (fs (Scenario.w_extracted "ZIP:app")) Scenario.tempdir0 = false
  /\ exists T, resolve (fs (Scenario.w_tempdir "ZIP:app")) Scenario.tempdir0
               = Some T
               /\ In (EvRmtree T)
                     (map fst (history (Scenario.w_extracted "ZIP:app"))).
Proof.
  apply (extraction_removes_its_temporary_directory Scenario.cfg0 Scenario.ext0
           Scenario.rootp0 Scenario.tmpp0 eq_refl Scenario.archive0
           (Scenario.w_saved "ZIP:app") Scenario.tempdir0
           (Scenario.w_tempdir "ZIP:app") (Ok Scenario.gen0)
           (Scenario.w_extracted "ZIP:app"));
    vm_compute; reflexivity.
Defined.

Lemma acquisition_stores_the_payload_witness :
  exists payload,
    stat (fs (Scenario.w_saved "ZIP:app")) ["srv"; "files"; "tmpaaaaaa"]
    = Some (KFile payload)
    /\ (has_key "blueprint_archive_url" (args (Scenario.req_body "ZIP:app")) = true ->
        urlopen Scenario.ext0
          (get_key "blueprint_archive_url" (args (Scenario.req_body "ZIP:app")))
        = UrlBody payload)
    /\ (has_key "blueprint_archive_url" (args (Scenario.req_body "ZIP:app")) = false ->
        has_header "Transfer-Encoding" (headers (Scenario.req_body "ZIP:app")) = true ->
        payload = fold_right String.append EmptyString
                    (chunked_decode Scenario.ext0
                       (input_stream (Scenario.req_body "ZIP:app"))))
    /\ (has_key "blueprint_archive_url" (args (Scenario.req_body "ZIP:app")) = false ->
        has_header "Transfer-Encoding" (headers (Scenario.req_body "ZIP:app")) = false ->
        payload = data (Scenario.req_body "ZIP:app") /\ payload <> EmptyString).
Proof.
  apply (acquisition_stores_the_payload Scenario.ext0 (Scenario.req_body "ZIP:app")
           ["srv"; "files"; "tmpaaaaaa"] Scenario.w0 (Scenario.w_saved "ZIP:app")).
  - reflexivity.
  - discriminate.
  - vm_compute. reflexivity.
Defined.


Lemma download_serves_first_supported_archive_witness :
  Scenario.run_uploaded Scenario.w_ready "ZIP:app"
  = Scenario.run_uploaded Scenario.w_ready "ZIP:app"
  /\ exists b, Serving.get_blueprint Scenario.col0 "bp1" = Ok b
  /\ exists t l1 l2 bytes,
       SUPPORTED_ARCHIVE_TYPES = l1 ++ t :: l2
       /\ (forall t', In t' l1 ->
             path_isfile (fs (Scenario.run_uploaded Scenario.w_ready "ZIP:app"))
               (path_join4 (file_server_root Scenario.cfg0)
                           (file_server_uploaded_blueprints_folder Scenario.cfg0)
                           "bp1" ("bp1" ++ "." ++ t'))
             = false)
       /\ lstat (fs (Scenario.run_uploaded Scenario.w_ready "ZIP:app"))
            (path_join4 (file_server_root Scenario.cfg0)
                        (file_server_uploaded_blueprints_folder Scenario.cfg0)
                        "bp1" ("bp1" ++ "." ++ t))
          = Some (KFile bytes)
       /\ Serving.get_header "X-Accel-Redirect"
            (Serving.response_headers Scenario.response0)
          = Some (Serving.HStr
                    (Scenario.resources_uri0 ++ "/"
                     ++ file_server_uploaded_blueprints_folder Scenario.cfg0
                     ++ "/" ++ "bp1" ++ "/" ++ "bp1" ++ "." ++ t))
       /\ Serving.get_header "Content-Length"
            (Serving.response_headers Scenario.response0)
          = Some (Serving.HInt (String.length bytes))
       /\ Serving.get_header "Content-Disposition"
            (Serving.response_headers Scenario.response0)
          = Some (Serving.HStr ("attachment; filename=" ++ "bp1" ++ "." ++ t))
       /\ Serving.get_header "Content-Type"
            (Serving.response_headers Scenario.response0)
          = Some (Serving.HStr "application/octet-stream").
Proof.
  apply (download_serves_first_supported_archive Scenario.cfg0
           Scenario.resources_uri0 Scenario.col0 "bp1"
           (Scenario.run_uploaded Scenario.w_ready "ZIP:app")
           Scenario.response0
           (Scenario.run_uploaded Scenario.w_ready "ZIP:app")).
  vm_compute. reflexivity.
Defined.


Lemma deletion_removes_both_directories_witness :
  exists w',
    Serving.BlueprintsId_delete Scenario.cfg0 Scenario.col0 "bp1"
      (Scenario.run_uploaded Scenario.w_ready "ZIP:app")
    = (Ok (mkBlueprint "bp1", 200), w')
    /\ stat (fs w')
            ((Scenario.rootp0 ++ [file_server_blueprints_folder Scenario.cfg0])
               ++ [id (mkBlueprint "bp1")]) = None
    /\ stat (fs w')
            ((Scenario.rootp0
                ++ [file_server_uploaded_blueprints_folder Scenario.cfg0])
               ++ [id (mkBlueprint "bp1")]) = None
    /\ agree_outside
         (under [(Scenario.rootp0
                    ++ [file_server_blueprints_folder Scenario.cfg0])
                   ++ [id (mkBlueprint "bp1")];
                 (Scenario.rootp0
                    ++ [file_server_uploaded_blueprints_folder Scenario.cfg0])
                   ++ [id (mkBlueprint "bp1")]])
         (fs (Scenario.run_uploaded Scenario.w_ready "ZIP:app")) (fs w')
    /\ map fst (history w')
       = EvRmtree ((Scenario.rootp0
                      ++ [file_server_uploaded_blueprints_folder Scenario.cfg0])
                     ++ [id (mkBlueprint "bp1")])
           :: EvRmtree ((Scenario.rootp0
                           ++ [file_server_blueprints_folder Scenario.cfg0])
                          ++ [id (mkBlueprint "bp1")])
           :: map fst (history (Scenario.run_uploaded Scenario.w_ready "ZIP:app")).
Proof.
  apply (deletion_removes_both_directories Scenario.cfg0 Scenario.ext0
           Scenario.rootp0 Scenario.tmpp0 eq_refl Scenario.col0 "bp1"
           (mkBlueprint "bp1")
           (Scenario.run_uploaded Scenario.w_ready "ZIP:app"));
    try (vm_compute; reflexivity).
  intros E. discriminate E.
Defined.

Lemma deletion_stops_at_missing_blueprint_directory_witness :
  exists errno,
    Serving.BlueprintsId_delete Scenario.cfg0 Scenario.col0 "bp1" Scenario.w_ready
    = (Raise (OSError errno), Scenario.w_ready).
Proof.
  apply (deletion_stops_at_missing_blueprint_directory Scenario.cfg0
           Scenario.ext0 Scenario.rootp0 Scenario.tmpp0 eq_refl Scenario.col0
           "bp1" (mkBlueprint "bp1") Scenario.w_ready);
    try (vm_compute; reflexivity).
  vm_compute. discriminate.
Defined.

Lemma upload_places_blueprint_and_archive_witness :
  exists w',
    do_request Scenario.cfg0 Scenario.ext0 (Scenario.req_body "ZIP:app") "bp1"
               Scenario.w_ready
    = (Ok (mkBlueprint "bp1", 201), w')
    /\ stat (fs w')
            ((Scenario.rootp0 ++ [file_server_blueprints_folder Scenario.cfg0])
               ++ [id (mkBlueprint "bp1")]) = Some KDir
    /\ stat (fs w')
            (((Scenario.rootp0
                 ++ [file_server_uploaded_blueprints_folder Scenario.cfg0])
                ++ [id (mkBlueprint "bp1")])
               ++ [(id (mkBlueprint "bp1") ++ "." ++ "zip")%string])
       = Some (KFile "ZIP:app")
    /\ path_exists (fs w') Scenario.archive0 = false
    /\ stat (fs w') (Scenario.rootp0 ++ [Scenario.gen0]) = None
    /\ agree_outside
         (under [(Scenario.rootp0
                    ++ [file_server_blueprints_folder Scenario.cfg0])
                   ++ [id (mkBlueprint "bp1")];
                 (Scenario.rootp0
                    ++ [file_server_uploaded_blueprints_folder Scenario.cfg0])
                   ++ [id (mkBlueprint "bp1")];
                 Scenario.rootp0
                   ++ ["blueprints"; id (mkBlueprint "bp1"); "plugins"]])
         (fs Scenario.w_ready) (fs w').
Proof.
  apply (upload_places_blueprint_and_archive Scenario.cfg0 Scenario.ext0
           (Scenario.req_body "ZIP:app") Scenario.rootp0 Scenario.tmpp0 eq_refl
           "bp1" Scenario.w_ready Scenario.archive0
           (Scenario.run_saved Scenario.w_ready "ZIP:app") Scenario.gen0
           (Scenario.run_extracted Scenario.w_ready "ZIP:app")
           (Scenario.gen0 ++ "/blueprint.yaml")%string (mkBlueprint "bp1")
           (Scenario.run_placed Scenario.w_ready "ZIP:app")
           (Scenario.run_packaged Scenario.w_ready "ZIP:app")
           "ZIP:app" "zip");
    try (vm_compute; reflexivity).
  intros E. discriminate E.
Defined.

Lemma upload_then_download_witness :
  exists w' resp,
    do_request Scenario.cfg0 Scenario.ext0 (Scenario.req_body "ZIP:app") "bp1"
               Scenario.w_ready
    = (Ok (mkBlueprint "bp1", 201), w')
    /\ Serving.BlueprintsIdArchive_get Scenario.cfg0 Scenario.resources_uri0
         Scenario.col0 (id (mkBlueprint "bp1")) w'
       = (Ok resp, w')
    /\ Serving.get_header "X-Accel-Redirect" (Serving.response_headers resp)
       = Some (Serving.HStr
                 (Scenario.resources_uri0 ++ "/"
                  ++ file_server_uploaded_blueprints_folder Scenario.cfg0
                  ++ "/" ++ id (mkBlueprint "bp1") ++ "/"
                  ++ id (mkBlueprint "bp1") ++ "." ++ "zip"))
    /\ Serving.get_header "Content-Length" (Serving.response_headers resp)
       = Some (Serving.HInt (String.length "ZIP:app")).
Proof.
  apply (upload_then_download Scenario.cfg0 Scenario.ext0
           (Scenario.req_body "ZIP:app") Scenario.rootp0 Scenario.tmpp0 eq_refl
           Scenario.col0 Scenario.resources_uri0
           "bp1" Scenario.w_ready Scenario.archive0
           (Scenario.run_saved Scenario.w_ready "ZIP:app") Scenario.gen0
           (Scenario.run_extracted Scenario.w_ready "ZIP:app")
           (Scenario.gen0 ++ "/blueprint.yaml")%string (mkBlueprint "bp1")
           (Scenario.run_placed Scenario.w_ready "ZIP:app")
           (Scenario.run_packaged Scenario.w_ready "ZIP:app")
           "ZIP:app" "zip")
    with (b := mkBlueprint "bp1");
    try (vm_compute; reflexivity).
  - intros E. discriminate E.
  - left. reflexivity.
Defined.


(** *** Validation of JSON requests *)

Section JsonRequests.

Import Rest.
Local Open Scope rest_scope.

Variable req : Rest.Request.
Variable Storage : Type.
Variable mgr : Managers Storage.

Lemma bind_return {A B} (m : Result A) (k : A -> Result B) b :
  Rest.bind m k = Return b -> exists a, m = Return a /\ k a = Return b.
Proof.
  destruct m as [a|e]; simpl; [|discriminate]. intros H. exists a. auto.
Qed.

Lemma content_type_checked u :
  verify_json_content_type req = Return u ->
  content_type req = Some "application/json"%string.
Proof.
  unfold verify_json_content_type.
  destruct (content_type req) as [ct|]; [|discriminate].
  destruct (String.eqb ct "application/json") eqn:E; [|discriminate].
  apply String.eqb_eq in E. subst ct. reflexivity.
Qed.

(** A parameter checked for presence in a body that supports [get] is a
    key of that dict. *)
Lemma required_parameter_present param d u :
  verify_parameter_in_request_body param (VDict d) None false = Return u ->
  exists v, lookup param d = Some v.
Proof.
  unfold verify_parameter_in_request_body, contains. cbn [Rest.bind].
  destruct (lookup param d) as [v|]; [eauto | discriminate].
Qed.

(** Only a dict passes [get]. *)
Lemma get_default_return c key default v :
  get_default c key default = Return v ->
  exists d, c = VDict d
            /\ v = match lookup key d with Some x => x | None => default end.
Proof.
  destruct c; try discriminate. simpl.
  destruct (lookup key d) as [x|] eqn:E; intros H; inversion H; subst;
    eexists; (split; [reflexivity|]); rewrite E; reflexivity.
Qed.

(** A workflow is executed only on a request that passed every check: the
    content type is [application/json], the body is a dict that has
    [deployment_id] and [workflow_id], the two flags are booleans or
    spellings of true and false (false when absent), and [parameters] is
    absent, null or a dict. The blueprints manager is called with exactly
    these values, and its execution is returned with status 201. *)
Theorem workflow_executed_only_for_valid_request execution code :
  Executions_post req mgr = Return (execution, code) ->
  code = 201
  /\ content_type req = Some "application/json"%string
  /\ exists d deployment_id workflow_id allow_custom_parameters force,
       json req = VDict d
       /\ lookup "deployment_id" d = Some deployment_id
       /\ lookup "workflow_id" d = Some workflow_id
       /\ verify_and_convert_bool "allow_custom_parameters"
            (match lookup "allow_custom_parameters" d with
             | Some v => v
             | None => VStr "false"
             end) = Return allow_custom_parameters
       /\ verify_and_convert_bool "force"
            (match lookup "force" d with
             | Some v => v
             | None => VStr "false"
             end) = Return force
       /\ (lookup "parameters" d = None
           \/ lookup "parameters" d = Some VNone
           \/ exists p, lookup "parameters" d = Some (VDict p))
       /\ execute_workflow mgr deployment_id workflow_id
            (match lookup "parameters" d with
             | Some v => v
             | None => VNone
             end) allow_custom_parameters force
          = Return execution.
Proof.
  unfold Executions_post. intros H.
  apply bind_return in H. destruct H as (u & Hct & H).
  apply content_type_checked in Hct.
  apply bind_return in H. destruct H as (u1 & Hdep & H).
  apply bind_return in H. destruct H as (u2 & Hwf & H).
  apply bind_return in H. destruct H as (given1 & Hg1 & H).
  apply get_default_return in Hg1. destruct Hg1 as (d & Hd & ->).
  rewrite Hd in *.
  apply required_parameter_present in Hdep. destruct Hdep as [dep Hdep].
  apply required_parameter_present in Hwf. destruct Hwf as [wf Hwf].
  apply bind_return in H. destruct H as (a & Ha & H).
  apply bind_return in H. destruct H as (given2 & Hg2 & H).
  apply get_default_return in Hg2. destruct Hg2 as (d' & Hd' & ->).
  inversion Hd'; subst d'. clear Hd'.
  apply bind_return in H. destruct H as (f & Hf & H).
  apply bind_return in H. destruct H as (dep' & Hdep' & H).
  apply bind_return in H. destruct H as (wf' & Hwf' & H).
  apply bind_return in H. destruct H as (p & Hp & H).
  cbn [getitem] in Hdep', Hwf'. rewrite Hdep in Hdep'. rewrite Hwf in Hwf'.
  inversion Hdep'; subst dep'. inversion Hwf'; subst wf'.
  cbn [get_default] in Hp.
  assert (Hpv : p = match lookup "parameters" d with
                    | Some v => v
                    | None => VNone
                    end).
  { destruct (lookup "parameters" d); inversion Hp; reflexivity. }
  assert (Hrun : execute_workflow mgr dep wf p a f = Return execution
                 /\ code = 201 /\ (p = VNone \/ exists pd, p = VDict pd)).
  { destruct p; try discriminate.
    - apply bind_return in H. destruct H as (e & He & H).
      inversion H; subst. repeat split; [exact He | left; reflexivity].
    - apply bind_return in H. destruct H as (e & He & H).
      inversion H; subst. repeat split; [exact He | right; eauto]. }
  destruct Hrun as (Hrun & -> & Hshape).
  split; [reflexivity|]. split; [exact Hct|].
  exists d, dep, wf, a, f. rewrite <- Hpv.
  repeat split; try assumption.
  destruct (lookup "parameters" d) as [v|]; [|left; reflexivity].
  subst v. destruct Hshape as [->|[pd ->]]; [right; left | right; right; eauto];
    reflexivity.
Qed.



(** An execution is cancelled only for the actions [cancel] and
    [force-cancel] of a JSON body, and forcibly exactly for
    [force-cancel]: whatever [ExecutionsId.post] returns is what the
    blueprints manager returned for that call. *)
Theorem execution_cancelled_only_for_valid_action execution_id r :
  ExecutionsId_post req mgr execution_id = Return r ->
  content_type req = Some "application/json"%string
  /\ exists d action,
       json req = VDict d
       /\ lookup "action" d = Some action
       /\ ((equals_str action "cancel" = true
            /\ cancel_execution mgr execution_id false = Return r)
           \/ (equals_str action "force-cancel" = true
               /\ cancel_execution mgr execution_id true = Return r)).
Proof.
  unfold ExecutionsId_post. intros H.
  apply bind_return in H. destruct H as (u & Hct & H).
  apply content_type_checked in Hct.
  apply bind_return in H. destruct H as (u1 & Hact & H).
  apply bind_return in H. destruct H as (action & Hget & H).
  destruct (json req) as [| | | | | | | |d] eqn:Hd; try discriminate.
  cbn [getitem] in Hget.
  destruct (lookup "action" d) as [a|] eqn:Ha; [|discriminate].
  inversion Hget; subst a. clear Hget.
  split; [exact Hct|]. exists d, action. split; [reflexivity|].
  split; [exact Ha|].
  destruct (equals_str action "cancel") eqn:Ec.
  - cbn [orb negb] in H. left. split; [reflexivity|].
    assert (Efc : equals_str action "force-cancel" = false).
    { destruct action; try discriminate; simpl in *;
        apply String.eqb_eq in Ec; subst s; reflexivity. }
    rewrite Efc in H. exact H.
  - destruct (equals_str action "force-cancel") eqn:Efc.
    + cbn [orb negb] in H. right. split; [reflexivity | exact H].
    + cbn [orb negb] in H. apply bind_return in H.
      destruct H as (shown & _ & H). discriminate.
Qed.


(** When [NodeInstancesId.patch] returns, the storage manager was given
    a node that carries the id of the URL, the [version] of the body (an
    [int]) and its [runtime_properties] and [state] ([None] when absent),
    and [None] for every other field; the instance returned is the one
    read back after the update. *)
Theorem patch_updates_only_state_and_runtime_properties
    node_instance_id s r s' :
  NodeInstancesId_patch req mgr node_instance_id s = (Return r, s') ->
  exists d n s1,
    json req = VDict d
    /\ lookup "version" d = Some (VInt n)
    /\ update_node_instance mgr
         [("id", VUnicode node_instance_id);
          ("node_id", VNone);
          ("relationships", VNone);
          ("host_id", VNone);
          ("deployment_id", VNone);
          ("runtime_properties",
           match lookup "runtime_properties" d with
           | Some x => x
           | None => VNone
           end);
          ("state",
           match lookup "state" d with
           | Some x => x
           | None => VNone
           end);
          ("version", VInt n)] s = (Return tt, s1)
    /\ get_node_instance mgr node_instance_id s1 = (Return r, s').
Proof.
  unfold NodeInstancesId_patch. intros H.
  destruct (verify_json_content_type req); [|discriminate].
  destruct (json req) as [| | | | | | | |d]; try discriminate.
  destruct (lookup "version" d) as [v|] eqn:Hv; [|discriminate].
  destruct v; try discriminate.
  match type of H with
  | context [update_node_instance mgr ?node s] =>
      destruct (update_node_instance mgr node s) as [[[]|e] s1] eqn:Hup
  end; [|discriminate].
  exists d, n, s1. repeat split; assumption.
Qed.

(** The status code of [ProviderContext.post] tells which call was made:
    200 when the [update] query parameter spells true and the context was
    updated, 201 when it is absent or spells false and the context was
    put; either way the body is the status [ok]. *)
Theorem provider_context_status_code s status code s' :
  ProviderContext_post req mgr s = (Return (status, code), s') ->
  status = "ok"%string
  /\ exists d name context,
       json req = VDict d
       /\ lookup "name" d = Some name
       /\ lookup "context" d = Some context
       /\ ((code = 200
            /\ has_key "update" (args req) = true
            /\ lower_string (get_key "update" (args req)) = "true"%string
            /\ update_provider_context mgr
                 [("name", name); ("context", context)] s = (Return tt, s'))
           \/ (code = 201
               /\ (has_key "update" (args req) = false
                   \/ lower_string (get_key "update" (args req))
                      = "false"%string)
               /\ put_provider_context mgr
                    [("name", name); ("context", context)] s
                  = (Return tt, s'))).
Proof.
  unfold ProviderContext_post. intros H.
  match type of H with
  | match ?m with _ => _ end = _ => destruct m as [[ctx update]|e] eqn:Hm
  end; [|discriminate].
  apply bind_return in Hm. destruct Hm as (u & Hct & Hm).
  apply bind_return in Hm. destruct Hm as (u1 & Hc & Hm).
  apply bind_return in Hm. destruct Hm as (u2 & Hn & Hm).
  apply bind_return in Hm. destruct Hm as (name & Hname & Hm).
  apply bind_return in Hm. destruct Hm as (context & Hcontext & Hm).
  apply bind_return in Hm. destruct Hm as (upd & Hupd & Hm).
  inversion Hm; subst ctx update. clear Hm.
  destruct (json req) as [| | | | | | | |d] eqn:Hd; try discriminate.
  cbn [getitem] in Hname, Hcontext.
  destruct (lookup "name" d) as [nv|] eqn:En; [|discriminate].
  destruct (lookup "context" d) as [cv|] eqn:Ec; [|discriminate].
  inversion Hname; subst nv. inversion Hcontext; subst cv.
  assert (Hflag : (upd = true
                   /\ has_key "update" (args req) = true
                   /\ lower_string (get_key "update" (args req)) = "true"%string)
                  \/ (upd = false
                      /\ (has_key "update" (args req) = false
                          \/ lower_string (get_key "update" (args req))
                             = "false"%string))).
  { unfold args_get in Hupd.
    destruct (has_key "update" (args req)) eqn:Hk.
    - cbn [verify_and_convert_bool] in Hupd.
      destruct (String.eqb (lower_string (get_key "update" (args req))) "true")
        eqn:Et.
      + inversion Hupd; subst. left. apply String.eqb_eq in Et. auto.
      + destruct (String.eqb (lower_string (get_key "update" (args req)))
                             "false") eqn:Ef.
        * inversion Hupd; subst. right. apply String.eqb_eq in Ef. auto.
        * apply bind_return in Hupd. destruct Hupd as (x & _ & Hupd).
          discriminate.
    - cbn in Hupd. inversion Hupd; subst. right. auto. }
  destruct Hflag as [(-> & Hk & Hl) | (-> & Hl)].
  - destruct (update_provider_context mgr [("name", name); ("context", context)] s)
      as [[[]|e] s1] eqn:Hcall; [|discriminate].
    inversion H; subst. split; [reflexivity|].
    exists d, name, context.
    split; [reflexivity|]. split; [exact En|]. split; [exact Ec|].
    left. repeat split; try assumption; reflexivity.
  - destruct (put_provider_context mgr [("name", name); ("context", context)] s)
      as [[[]|e] s1] eqn:Hcall; [|discriminate].
    inversion H; subst. split; [reflexivity|].
    exists d, name, context.
    split; [reflexivity|]. split; [exact En|]. split; [exact Ec|].
    right. repeat split; try assumption; reflexivity.
Qed.

(** With a deployment id and a node id, [Nodes.get] asks for that one
    node and never fails with [NotFoundError]: a node that is not found
    gives the empty list, so the list has at most one element; the
    [_include] argument plays no part. *)
Theorem single_node_query_never_not_found deployment_id node_id _include r :
  deployment_id <> EmptyString -> node_id <> EmptyString ->
  Nodes_get mgr (Some deployment_id) (Some node_id) _include = r ->
  r = Nodes_get mgr (Some deployment_id) (Some node_id) None
  /\ (forall msg, r <> Throw (NotFoundError msg))
  /\ (forall nodes, r = Return nodes -> length nodes <= 1)
  /\ (forall msg, get_node mgr deployment_id node_id = Throw (NotFoundError msg) ->
                  r = Return []).
Proof.
  intros Hd Hn <-. unfold Nodes_get.
  destruct deployment_id as [|c1 s1]; [contradiction|].
  destruct node_id as [|c2 s2]; [contradiction|].
  cbn [truthy andb].
  destruct (get_node mgr (String c1 s1) (String c2 s2)) as [node|e].
  - repeat split; try discriminate.
    intros nodes H. inversion H; subst. simpl. lia.
  - destruct e; repeat split; try discriminate;
      try (intros msg' H; inversion H; fail);
      try (intros nodes H; inversion H; subst; simpl; lia).
Qed.

End JsonRequests.

(** *** The [_include] filter *)

Section IncludeFilter.

Import Rest.
Local Open Scope rest_scope.

Variable req : Rest.Request.
Variable set_iteration : list string -> list string.
(** A set is iterated over its elements. *)
Hypothesis set_iteration_elements :
  forall l x, In x (set_iteration l) <-> In x l.

Variable F : Type.
Variable model_fields : list (string * F).

Lemma lookup_app {A} key (a b : list (string * A)) :
  lookup key (a ++ b)
  = match lookup key a with Some x => Some x | None => lookup key b end.
Proof.
  induction a as [|[k v] a IH]; [reflexivity|]. simpl.
  destruct (String.eqb k key); [reflexivity | exact IH].
Qed.

(** The loop over the requested fields. *)
Lemma include_loop l : forall acc,
  let looped := fold_left (include_step model_fields) l acc in
  snd looped
  = (snd acc
       ++ filter (fun f => match lookup f model_fields with
                           | None => true
                           | Some _ => false
                           end) l)%list
  /\ forall f,
       lookup f (fst looped)
       = match lookup f (fst acc) with
         | Some x => Some x
         | None => if existsb (String.eqb f) l then lookup f model_fields
                   else None
         end.
Proof.
  induction l as [|g l IH]; intros acc; cbn [fold_left filter existsb].
  - split; [symmetry; apply app_nil_r|]. intros f.
    destruct (lookup f (fst acc)); reflexivity.
  - destruct (IH (include_step model_fields acc g)) as [Hs Hf].
    cbv zeta in Hs, Hf. cbv zeta. rewrite Hs. split.
    + unfold include_step.
      destruct (lookup g model_fields) as [x|]; cbn [fst snd].
      * reflexivity.
      * rewrite <- app_assoc. reflexivity.
    + intros f. rewrite Hf. unfold include_step.
      destruct (lookup g model_fields) as [x|] eqn:Hg; cbn [fst snd].
      * rewrite lookup_app. destruct (lookup f (fst acc)); [reflexivity|].
        cbn [lookup]. rewrite String.eqb_sym.
        destruct (String.eqb f g) eqn:E; cbn [orb]; [|reflexivity].
        apply String.eqb_eq in E. subst g. symmetry. exact Hg.
      * destruct (lookup f (fst acc)); [reflexivity|].
        destruct (String.eqb f g) eqn:E; cbn [orb]; [|reflexivity].
        apply String.eqb_eq in E. subst g. rewrite Hg.
        destruct (existsb (String.eqb f) l); reflexivity.
Qed.

Lemma filter_none {A} (p : A -> bool) l :
  (forall x, In x l -> p x = false) -> filter p l = [].
Proof.
  induction l as [|a l IH]; intros H; [reflexivity|]. simpl.
  rewrite (H a) by (left; reflexivity). apply IH.
  intros x Hx. apply H. right. exact Hx.
Qed.

Lemma existsb_eqb_in f l : existsb (String.eqb f) l = true <-> In f l.
Proof.
  rewrite existsb_exists. split.
  - intros (x & Hin & E). apply String.eqb_eq in E. subst x. exact Hin.
  - intros Hin. exists f. split; [exact Hin | apply String.eqb_refl].
Qed.

(** When every field named by a non-empty [_include] is a field of the
    model, the result holds exactly the named fields, each with the
    value the model has for it. *)
Theorem include_selects_the_requested_fields :
  has_key "_include" (args req) = true ->
  get_key "_include" (args req) <> EmptyString ->
  (forall f, In f (split_comma (get_key "_include" (args req))) ->
             lookup f model_fields <> None) ->
  exists include_fields,
    _get_fields_to_include req set_iteration model_fields
    = Return include_fields
    /\ forall f,
         lookup f include_fields
         = if existsb (String.eqb f)
                      (split_comma (get_key "_include" (args req)))
           then lookup f model_fields
           else None.
Proof.
  intros Hk Hne Hlegal. unfold _get_fields_to_include. rewrite Hk.
  destruct (get_key "_include" (args req)) as [|c s] eqn:Hs; [contradiction|].
  cbn [truthy andb]. cbv zeta.
  destruct (include_loop (set_iteration (split_comma (String c s))) ([], []))
    as [Hill Hinc].
  cbv zeta in Hill, Hinc. cbn [fst snd app] in Hill, Hinc.
  rewrite Hill.
  assert (Hnone : filter (fun f => match lookup f model_fields with
                                   | None => true
                                   | Some _ => false
                                   end)
                         (set_iteration (split_comma (String c s))) = []).
  { apply filter_none. intros f Hin.
    apply (proj1 (set_iteration_elements _ _)) in Hin.
    specialize (Hlegal f Hin).
    destruct (lookup f model_fields); [reflexivity | contradiction]. }
  rewrite Hnone. eexists. split; [reflexivity|].
  intros f. rewrite Hinc. cbn [lookup].
  destruct (existsb (String.eqb f) (set_iteration (split_comma (String c s))))
    eqn:E1;
    destruct (existsb (String.eqb f) (split_comma (String c s))) eqn:E2;
    try reflexivity; exfalso.
  - apply existsb_eqb_in in E1.
    apply (proj1 (set_iteration_elements _ _)) in E1.
    apply existsb_eqb_in in E1. congruence.
  - apply existsb_eqb_in in E2.
    apply (proj2 (set_iteration_elements _ _)) in E2.
    apply existsb_eqb_in in E2. congruence.
Qed.


Lemma include_rejects_unknown_fields_aux f :
  has_key "_include" (args req) = true ->
  get_key "_include" (args req) <> EmptyString ->
  In f (split_comma (get_key "_include" (args req))) ->
  lookup f model_fields = None ->
  exists e,
    (e = UnicodeEncodeError \/ exists msg, e = NoSuchIncludeFieldError msg)
    /\ _get_fields_to_include req set_iteration model_fields = Throw e.
Proof.
  intros Hk Hne Hin Hf. unfold _get_fields_to_include. rewrite Hk.
  destruct (get_key "_include" (args req)) as [|c s] eqn:Hs; [contradiction|].
  cbn [truthy andb]. cbv zeta.
  destruct (include_loop (set_iteration (split_comma (String c s))) ([], []))
    as [Hill _].
  cbv zeta in Hill. cbn [fst snd app] in Hill. rewrite Hill.
  set (illegal := filter _ _).
  assert (Hmem : In f illegal).
  { unfold illegal. rewrite filter_In, set_iteration_elements, Hf.
    split; [exact Hin | reflexivity]. }
  destruct illegal as [|i illegal'] eqn:Eill; [destruct Hmem|].
  unfold format_text. cbn [andb].
  destruct (is_ascii (join ", " (i :: illegal'))); cbn [negb Rest.bind];
    eexists; (split; [|reflexivity]); [right; eauto | left; reflexivity].
Qed.

(** When a non-empty [_include] names a field the model does not have,
    [_get_fields_to_include] raises: [NoSuchIncludeFieldError] with a
    message that lists the unknown fields, each named field that the
    model lacks and no other, beside the fields of the model; or
    [UnicodeEncodeError] when an unknown field is not ASCII. *)
Theorem include_rejects_unknown_fields f :
  has_key "_include" (args req) = true ->
  get_key "_include" (args req) <> EmptyString ->
  In f (split_comma (get_key "_include" (args req))) ->
  lookup f model_fields = None ->
  exists illegal,
    (forall x, In x illegal
               <-> In x (split_comma (get_key "_include" (args req)))
                   /\ lookup x model_fields = None)
    /\ _get_fields_to_include req set_iteration model_fields
       = if is_ascii (join ", " illegal)
         then Throw (NoSuchIncludeFieldError
                       ("Illegal include fields: [" ++ join ", " illegal
                        ++ "] - available fields: ["
                        ++ join ", " (map fst model_fields) ++ "]"))
         else Throw UnicodeEncodeError.
Proof.
  intros Hk Hne Hin Hf. unfold _get_fields_to_include. rewrite Hk.
  destruct (get_key "_include" (args req)) as [|c s] eqn:Hs; [contradiction|].
  cbn [truthy andb]. cbv zeta.
  destruct (include_loop (set_iteration (split_comma (String c s))) ([], []))
    as [Hill _].
  cbv zeta in Hill. cbn [fst snd app] in Hill. rewrite Hill.
  set (illegal := filter _ _).
  assert (Hmem : forall x, In x illegal
                           <-> In x (split_comma (String c s))
                               /\ lookup x model_fields = None).
  { intros x. unfold illegal. rewrite filter_In, set_iteration_elements.
    destruct (lookup x model_fields); split; intros [H1 H2];
      (split; [exact H1|]); try reflexivity; discriminate. }
  exists illegal. split; [exact Hmem|].
  destruct illegal as [|i illegal'] eqn:Eill.
  - exfalso. apply (proj2 (Hmem f)). split; assumption.
  - unfold format_text. cbn [andb].
    destruct (is_ascii (join ", " (i :: illegal'))); reflexivity.
Qed.

(** The wrapper of [marshal_with] looks at [_include] before it calls the
    handler: when a field is named that the model does not have, the
    error is raised with the state as it was, for every handler, which
    therefore has not run. *)
Theorem marshal_with_rejects_before_the_handler_runs
    {S D Out : Type} (marshal : D -> list (string * F) -> Out) f :
  has_key "_include" (args req) = true ->
  get_key "_include" (args req) <> EmptyString ->
  In f (split_comma (get_key "_include" (args req))) ->
  lookup f model_fields = None ->
  exists e,
    (e = UnicodeEncodeError \/ exists msg, e = NoSuchIncludeFieldError msg)
    /\ forall (handler : S -> Result (Returned D) * S) (s : S),
         marshal_with req set_iteration marshal model_fields handler s
         = (Throw e, s).
Proof.
  intros Hk Hne Hin Hf.
  destruct (include_rejects_unknown_fields_aux f Hk Hne Hin Hf) as (e & He & Hr).
  exists e. split; [exact He|]. intros handler s.
  unfold marshal_with. rewrite Hr. reflexivity.
Qed.

End IncludeFilter.

(** *** The properties of the JSON handlers on the scenarios *)

Lemma workflow_executed_only_for_valid_request_witness :
  201 = 201
  /\ Rest.content_type Scenario.json_execute = Some "application/json"%string
  /\ exists d deployment_id workflow_id allow_custom_parameters force,
       Rest.json Scenario.json_execute = Rest.VDict d
       /\ Rest.lookup "deployment_id" d = Some deployment_id
       /\ Rest.lookup "workflow_id" d = Some workflow_id
       /\ Rest.verify_and_convert_bool "allow_custom_parameters"
            (match Rest.lookup "allow_custom_parameters" d with
             | Some v => v
             | None => Rest.VStr "false"
             end) = Rest.Return allow_custom_parameters
       /\ Rest.verify_and_convert_bool "force"
            (match Rest.lookup "force" d with
             | Some v => v
             | None => Rest.VStr "false"
             end) = Rest.Return force
       /\ (Rest.lookup "parameters" d = None
           \/ Rest.lookup "parameters" d = Some Rest.VNone
           \/ exists p, Rest.lookup "parameters" d = Some (Rest.VDict p))
       /\ Rest.execute_workflow Scenario.mgr0 deployment_id workflow_id
            (match Rest.lookup "parameters" d with
             | Some v => v
             | None => Rest.VNone
             end) allow_custom_parameters force
          = Rest.Return
              (Rest.VDict [("deployment_id", Rest.VUnicode "dep1");
                           ("workflow_id", Rest.VUnicode "install");
                           ("parameters", Rest.VNone);
                           ("force", Rest.VBool true)]).
Proof.
  apply (workflow_executed_only_for_valid_request Scenario.json_execute _
           Scenario.mgr0
           (Rest.VDict [("deployment_id", Rest.VUnicode "dep1");
                        ("workflow_id", Rest.VUnicode "install");
                        ("parameters", Rest.VNone);
                        ("force", Rest.VBool true)]) 201).
  vm_compute. reflexivity.
Defined.


Lemma execution_cancelled_only_for_valid_action_witness :
  Rest.content_type Scenario.json_cancel = Some "application/json"%string
  /\ exists d action,
       Rest.json Scenario.json_cancel = Rest.VDict d
       /\ Rest.lookup "action" d = Some action
       /\ ((Rest.equals_str action "cancel" = true
            /\ Rest.cancel_execution Scenario.mgr0 "e1" false
               = Rest.Return
                   (Rest.VDict [("id", Rest.VUnicode "e1");
                                ("status", Rest.VStr "force_cancelling")]))
           \/ (Rest.equals_str action "force-cancel" = true
               /\ Rest.cancel_execution Scenario.mgr0 "e1" true
                  = Rest.Return
                      (Rest.VDict [("id", Rest.VUnicode "e1");
                                   ("status", Rest.VStr "force_cancelling")]))).
Proof.
  apply (execution_cancelled_only_for_valid_action Scenario.json_cancel _
           Scenario.mgr0 "e1"
           (Rest.VDict [("id", Rest.VUnicode "e1");
                        ("status", Rest.VStr "force_cancelling")])).
  vm_compute. reflexivity.
Defined.


Lemma patch_updates_only_state_and_runtime_properties_witness :
  exists d n s1,
    Rest.json Scenario.json_patch = Rest.VDict d
    /\ Rest.lookup "version" d = Some (Rest.VInt n)
    /\ Rest.update_node_instance Scenario.mgr0
         [("id", Rest.VUnicode "vm_1");
          ("node_id", Rest.VNone);
          ("relationships", Rest.VNone);
          ("host_id", Rest.VNone);
          ("deployment_id", Rest.VNone);
          ("runtime_properties",
           match Rest.lookup "runtime_properties" d with
           | Some x => x
           | None => Rest.VNone
           end);
          ("state",
           match Rest.lookup "state" d with
           | Some x => x
           | None => Rest.VNone
           end);
          ("version", Rest.VInt n)] [] = (Rest.Return tt, s1)
    /\ Rest.get_node_instance Scenario.mgr0 "vm_1" s1
       = (Rest.Return
            (Rest.VDict
               [("id", Rest.VUnicode "vm_1"); ("node_id", Rest.VNone);
                ("relationships", Rest.VNone); ("host_id", Rest.VNone);
                ("deployment_id", Rest.VNone);
                ("runtime_properties", Rest.VNone);
                ("state", Rest.VUnicode "started");
                ("version", Rest.VInt 3%Z)]),
          [[("id", Rest.VUnicode "vm_1"); ("node_id", Rest.VNone);
            ("relationships", Rest.VNone); ("host_id", Rest.VNone);
            ("deployment_id", Rest.VNone);
            ("runtime_properties", Rest.VNone);
            ("state", Rest.VUnicode "started");
            ("version", Rest.VInt 3%Z)]]).
Proof.
  apply (patch_updates_only_state_and_runtime_properties Scenario.json_patch _
           Scenario.mgr0 "vm_1" []).
  vm_compute. reflexivity.
Defined.

Lemma provider_context_status_code_witness :
  "ok"%string = "ok"%string
  /\ exists d name context,
       Rest.json Scenario.json_context = Rest.VDict d
       /\ Rest.lookup "name" d = Some name
       /\ Rest.lookup "context" d = Some context
       /\ ((200 = 200
            /\ Upload.has_key "update" (Rest.args Scenario.json_context) = true
            /\ Upload.lower_string
                 (Upload.get_key "update" (Rest.args Scenario.json_context))
               = "true"%string
            /\ Rest.update_provider_context Scenario.mgr0
                 [("name", name); ("context", context)] []
               = (Rest.Return tt,
                  [[("name", Rest.VUnicode "openstack");
                    ("context", Rest.VDict [])]]))
           \/ (200 = 201
               /\ (Upload.has_key "update" (Rest.args Scenario.json_context)
                   = false
                   \/ Upload.lower_string
                        (Upload.get_key "update" (Rest.args Scenario.json_context))
                      = "false"%string)
               /\ Rest.put_provider_context Scenario.mgr0
                    [("name", name); ("context", context)] []
                  = (Rest.Return tt,
                     [[("name", Rest.VUnicode "openstack");
                       ("context", Rest.VDict [])]]))).
Proof.
  apply (provider_context_status_code Scenario.json_context _ Scenario.mgr0 []
           "ok" 200
           [[("name", Rest.VUnicode "openstack"); ("context", Rest.VDict [])]]).
  vm_compute. reflexivity.
Defined.

Lemma single_node_query_never_not_found_witness :
  Rest.Nodes_get Scenario.mgr0 (Some "dep1"%string) (Some "db"%string)
                 (Some ["id"%string])
  = Rest.Nodes_get Scenario.mgr0 (Some "dep1"%string) (Some "db"%string) None
  /\ (forall msg,
        Rest.Nodes_get Scenario.mgr0 (Some "dep1"%string) (Some "db"%string)
                       (Some ["id"%string])
        <> Rest.Throw (Rest.NotFoundError msg))
  /\ (forall nodes,
        Rest.Nodes_get Scenario.mgr0 (Some "dep1"%string) (Some "db"%string)
                       (Some ["id"%string]) = Rest.Return nodes ->
        length nodes <= 1)
  /\ (forall msg,
        Rest.get_node Scenario.mgr0 "dep1" "db"
        = Rest.Throw (Rest.NotFoundError msg) ->
        Rest.Nodes_get Scenario.mgr0 (Some "dep1"%string) (Some "db"%string)
                       (Some ["id"%string]) = Rest.Return []).
Proof.
  apply (single_node_query_never_not_found _ Scenario.mgr0 "dep1" "db"
           (Some ["id"%string])).
  - discriminate.
  - discriminate.
  - reflexivity.
Defined.

Lemma set_iteration0_elements l x :
  In x (Scenario.set_iteration0 l) <-> In x l.
Proof. unfold Scenario.set_iteration0. apply nodup_In. Qed.

Lemma include_selects_the_requested_fields_witness :
  exists include_fields,
    Rest._get_fields_to_include (Scenario.req_include "id,plan,id")
      Scenario.set_iteration0 Scenario.fields0
    = Rest.Return include_fields
    /\ forall f,
         Rest.lookup f include_fields
         = if existsb (String.eqb f)
                (Rest.split_comma
                   (Upload.get_key "_include"
                      (Rest.args (Scenario.req_include "id,plan,id"))))
           then Rest.lookup f Scenario.fields0
           else None.
Proof.
  apply (include_selects_the_requested_fields (Scenario.req_include "id,plan,id")
           Scenario.set_iteration0 set_iteration0_elements _ Scenario.fields0).
  - reflexivity.
  - discriminate.
  - intros f Hin. vm_compute in Hin.
    destruct Hin as [<-|[<-|[<-|[]]]]; discriminate.
Defined.

Lemma include_rejects_unknown_fields_witness :
  exists illegal,
    (forall x, In x illegal
               <-> In x (Rest.split_comma
                           (Upload.get_key "_include"
                              (Rest.args (Scenario.req_include "id,bogus,,id"))))
                   /\ Rest.lookup x Scenario.fields0 = None)
    /\ Rest._get_fields_to_include (Scenario.req_include "id,bogus,,id")
         Scenario.set_iteration0 Scenario.fields0
       = if Rest.is_ascii (Rest.join ", " illegal)
         then Rest.Throw
                (Rest.NoSuchIncludeFieldError
                   ("Illegal include fields: [" ++ Rest.join ", " illegal
                    ++ "] - available fields: ["
                    ++ Rest.join ", " (map fst Scenario.fields0) ++ "]"))
         else Rest.Throw Rest.UnicodeEncodeError.
Proof.
  apply (include_rejects_unknown_fields (Scenario.req_include "id,bogus,,id")
           Scenario.set_iteration0 set_iteration0_elements _ Scenario.fields0
           "bogus").
  - reflexivity.
  - discriminate.
  - vm_compute. right. left. reflexivity.
  - reflexivity.
Defined.

Lemma marshal_with_rejects_before_the_handler_runs_witness :
  exists e,
    (e = Rest.UnicodeEncodeError
     \/ exists msg, e = Rest.NoSuchIncludeFieldError msg)
    /\ forall (handler : World -> Rest.Result (Rest.Returned Blueprint) * World)
              (s : World),
         Rest.marshal_with (Scenario.req_include "id,bogus,,id")
           Scenario.set_iteration0
           (fun (data : Blueprint) (include : list (string * string)) =>
              map (fun field => (fst field, id data)) include)
           Scenario.fields0 handler s
         = (Rest.Throw e, s).
Proof.
  apply (marshal_with_rejects_before_the_handler_runs
           (Scenario.req_include "id,bogus,,id")
           Scenario.set_iteration0 set_iteration0_elements _ Scenario.fields0
           (fun (data : Blueprint) (include : list (string * string)) =>
              map (fun field => (fst field, id data)) include)
           "bogus").
  - reflexivity.
  - discriminate.
  - vm_compute. right. left. reflexivity.
  - reflexivity.
Defined.

(** *** Requests with typed parameters *)

Section TypedRequests.

Import Rest.
Local Open Scope rest_scope.

Variable req : Rest.Request.
Variable Storage : Type.
Variable mgr : Managers Storage.

(** Only a dict that has the key passes an indexing by it. *)
Lemma getitem_return c key v :
  getitem c key = Return v ->
  exists d, c = VDict d /\ lookup key d = Some v.
Proof.
  destruct c; try discriminate. simpl.
  destruct (lookup key d) as [x|] eqn:E; [|discriminate].
  intros H. inversion H; subst. eauto.
Qed.

(** A parameter of a dict body that is checked for its type: when it is
    there it has the type, and it is there unless it is optional. *)
Lemma typed_parameter_checked param d t optional :
  verify_parameter_in_request_body param (VDict d) (Some t) optional
  = Return tt
  <-> match lookup param d with
      | Some v => isinstance v t = true
      | None => optional = true
      end.
Proof.
  unfold verify_parameter_in_request_body, contains, getitem.
  cbn [Rest.bind].
  destruct (lookup param d) as [v|]; cbn [negb Rest.bind].
  - destruct (isinstance v t); cbn [negb]; split; intros H;
      try reflexivity; discriminate.
  - destruct optional; split; intros H; try reflexivity; discriminate.
Qed.

Lemma untyped_parameter_checked param d :
  verify_parameter_in_request_body param (VDict d) None false = Return tt
  <-> exists v, lookup param d = Some v.
Proof.
  unfold verify_parameter_in_request_body, contains. cbn [Rest.bind].
  destruct (lookup param d) as [v|]; cbn [negb]; split.
  - eauto.
  - reflexivity.
  - discriminate.
  - intros [v H]. discriminate.
Qed.

Lemma content_type_passes :
  verify_json_content_type req = Return tt
  <-> content_type req = Some "application/json"%string.
Proof.
  split; [apply content_type_checked|].
  unfold verify_json_content_type. intros ->. reflexivity.
Qed.

Lemma isinstance_dict v :
  isinstance v TDict = true <-> exists d, v = VDict d.
Proof.
  destruct v; simpl; split; try discriminate; eauto;
    intros [d' H]; discriminate.
Qed.

(** An optional parameter that has to be a dict is absent or a dict. *)
Lemma optional_dict_checked param d :
  verify_parameter_in_request_body param (VDict d) (Some TDict) true
  = Return tt
  <-> (lookup param d = None \/ exists x, lookup param d = Some (VDict x)).
Proof.
  rewrite typed_parameter_checked.
  destruct (lookup param d) as [v|].
  - rewrite isinstance_dict. split.
    + intros [x ->]. right. eauto.
    + intros [H|[x H]]; [discriminate|]. inversion H. eauto.
  - split; [left|]; reflexivity.
Qed.

Lemma lookup_fields {A B} (f : A -> B) key (d : list (string * A)) :
  lookup key (map (fun item => (fst item, f (snd item))) d)
  = option_map f (lookup key d).
Proof.
  induction d as [|[k x] d IH]; [reflexivity|]. simpl.
  destruct (String.eqb k key); [reflexivity | exact IH].
Qed.

Lemma lookup_setitem_same {A} key (v : A) d :
  lookup key (setitem key v d) = Some v.
Proof.
  induction d as [|[k x] d IH]; simpl.
  - rewrite String.eqb_refl. reflexivity.
  - destruct (String.eqb k key) eqn:E; simpl.
    + rewrite String.eqb_refl. reflexivity.
    + rewrite E. exact IH.
Qed.

Lemma lookup_setitem_other {A} key key' (v : A) d :
  key' <> key -> lookup key' (setitem key v d) = lookup key' d.
Proof.
  intros Hne.
  assert (Hk : String.eqb key key' = false).
  { apply String.eqb_neq. congruence. }
  induction d as [|[k x] d IH]; simpl.
  - rewrite Hk. reflexivity.
  - destruct (String.eqb k key) eqn:E; simpl.
    + apply String.eqb_eq in E. subst k. rewrite Hk. reflexivity.
    + destruct (String.eqb k key'); [reflexivity | exact IH].
Qed.

Lemma keys_setitem {A} key (v : A) d :
  lookup key d <> None -> map fst (setitem key v d) = map fst d.
Proof.
  induction d as [|[k x] d IH]; simpl; [congruence|].
  destruct (String.eqb k key) eqn:E; simpl.
  - apply String.eqb_eq in E. subst k. reflexivity.
  - intros H. rewrite (IH H). reflexivity.
Qed.

Lemma keys_fields {A B} (f : A -> B) (d : list (string * A)) :
  map fst (map (fun item => (fst item, f (snd item))) d) = map fst d.
Proof. rewrite map_map. reflexivity. Qed.

(** The workflows made from the items of a dict. *)
Lemma workflows_of_return items : forall workflows,
  workflows_of items = Return workflows ->
  Forall2 (fun w item =>
             name w = fst item
             /\ created_at w = VNone
             /\ exists wf,
                  snd item = VDict wf
                  /\ parameters w = match lookup "parameters" wf with
                                    | Some p => p
                                    | None => VDict []
                                    end)
          workflows items.
Proof.
  induction items as [|[wf_name wf] items IH]; intros workflows H.
  - inversion H. constructor.
  - cbn [workflows_of] in H.
    apply bind_return in H. destruct H as (p & Hp & H).
    apply bind_return in H. destruct H as (ws & Hws & H).
    inversion H; subst workflows. clear H.
    apply get_default_return in Hp. destruct Hp as (d & -> & ->).
    constructor; [|exact (IH _ Hws)].
    cbn. repeat split. exists d. split; reflexivity.
Qed.

(** [_replace_workflows_field_for_deployment_response] changes the
    [workflows] field only: the response has the fields of the
    deployment, in their order, each other field with the value the
    deployment has for it. A [workflows] that is [None] stays [None]; a
    dict of workflows becomes the list of its workflows, one for each
    item and in their order, with the name of the item, no creation time
    and the [parameters] of the item (the empty dict when it has none). *)
Theorem workflows_replacement_keeps_other_fields deployment_dict response :
  _replace_workflows_field_for_deployment_response deployment_dict
  = Return response ->
  map fst response = map fst deployment_dict
  /\ (forall key, key <> "workflows"%string ->
                  lookup key response
                  = option_map FValue (lookup key deployment_dict))
  /\ ((lookup "workflows" deployment_dict = Some VNone
       /\ lookup "workflows" response = Some (FValue VNone))
      \/ exists items workflows,
           lookup "workflows" deployment_dict = Some (VDict items)
           /\ lookup "workflows" response = Some (FWorkflows workflows)
           /\ Forall2 (fun w item =>
                         name w = fst item
                         /\ created_at w = VNone
                         /\ exists wf,
                              snd item = VDict wf
                              /\ parameters w
                                 = match lookup "parameters" wf with
                                   | Some p => p
                                   | None => VDict []
                                   end)
                      workflows items).
Proof.
  unfold _replace_workflows_field_for_deployment_response. intros H.
  apply bind_return in H. destruct H as (w & Hw & H).
  apply getitem_return in Hw. destruct Hw as (d & Hd & Hw).
  inversion Hd; subst d. clear Hd.
  destruct w; try discriminate.
  - inversion H; subst response. clear H.
    split; [apply keys_fields|]. split.
    + intros key _. apply lookup_fields.
    + left. split; [exact Hw|]. rewrite lookup_fields, Hw. reflexivity.
  - apply bind_return in H. destruct H as (ws & Hws & H).
    inversion H; subst response. clear H.
    split.
    { rewrite keys_setitem; [apply keys_fields|].
      rewrite lookup_fields, Hw. discriminate. }
    split.
    + intros key Hne. rewrite lookup_setitem_other by exact Hne.
      apply lookup_fields.
    + right. exists d, ws. split; [exact Hw|].
      split; [apply lookup_setitem_same|].
      apply workflows_of_return. exact Hws.
Qed.

(** The replacement fails in three ways only: with [KeyError] when the
    deployment has no [workflows] field, and with [AttributeError] when
    [workflows] is neither [None] nor a dict or when one of its
    workflows is not a dict. *)
Theorem workflows_replacement_fails_on_malformed_workflows
    deployment_dict e :
  _replace_workflows_field_for_deployment_response deployment_dict = Throw e ->
  (lookup "workflows" deployment_dict = None /\ e = KeyError "workflows")
  \/ (exists w, lookup "workflows" deployment_dict = Some w
                /\ isinstance w TDict = false /\ w <> VNone
                /\ e = AttributeError (type_name w) "iteritems")
  \/ (exists items wf_name wf,
        lookup "workflows" deployment_dict = Some (VDict items)
        /\ In (wf_name, wf) items
        /\ isinstance wf TDict = false
        /\ e = AttributeError (type_name wf) "get").
Proof.
  unfold _replace_workflows_field_for_deployment_response, getitem.
  destruct (lookup "workflows" deployment_dict) as [w|] eqn:Hw;
    cbn [Rest.bind]; intros H.
  2:{ left. inversion H. auto. }
  right.
  destruct w; try discriminate;
    try (left; eexists; split; [reflexivity|];
         inversion H; repeat split; discriminate).
  right. exists d.
  assert (Hin : exists wf_name wf,
             In (wf_name, wf) d /\ isinstance wf TDict = false
             /\ e = AttributeError (type_name wf) "get").
  { clear Hw. induction d as [|[n wf] d IH].
    - discriminate.
    - cbn [workflows_of] in H.
      destruct (get_default wf "parameters" (VDict [])) as [p|e'] eqn:Hp.
      + cbn [Rest.bind] in H.
        destruct (workflows_of d) as [ws|e''] eqn:Hws.
        * discriminate.
        * destruct IH as (n' & wf' & Hin & Hty & He).
          { cbn [Rest.bind] in *. exact H. }
          exists n', wf'. split; [right; exact Hin | auto].
      + cbn [Rest.bind] in H. inversion H; subst e'. clear H.
        exists n, wf. split; [left; reflexivity|].
        destruct wf; try (inversion Hp; split; reflexivity).
        simpl in Hp. destruct (lookup "parameters" d0); discriminate. }
  destruct Hin as (n & wf & Hin & Hty & He).
  exists n, wf. auto.
Qed.

(** A deployment is created only on a request that passed every check:
    the content type is [application/json], the body is a dict that has
    [blueprint_id], and [inputs] is absent or a dict. The blueprints
    manager is called with the blueprint id of the body, the deployment
    id of the URL and these inputs (the empty dict when absent); the
    response is its deployment with the workflows replaced, with status
    201. *)
Theorem deployment_created_only_for_valid_request
    deployment_id response code :
  DeploymentsId_put req mgr deployment_id = Return (response, code) ->
  code = 201
  /\ content_type req = Some "application/json"%string
  /\ exists d blueprint_id deployment,
       json req = VDict d
       /\ lookup "blueprint_id" d = Some blueprint_id
       /\ (lookup "inputs" d = None
           \/ exists inputs, lookup "inputs" d = Some (VDict inputs))
       /\ create_deployment mgr blueprint_id deployment_id
            (match lookup "inputs" d with
             | Some v => v
             | None => VDict []
             end) = Return deployment
       /\ _replace_workflows_field_for_deployment_response deployment
          = Return response.
Proof.
  unfold DeploymentsId_put. intros H.
  apply bind_return in H. destruct H as (u & Hct & H).
  apply content_type_checked in Hct.
  apply bind_return in H. destruct H as ([] & Hbp & H).
  apply bind_return in H. destruct H as ([] & Hin & H).
  apply bind_return in H. destruct H as (bp & Hget & H).
  apply getitem_return in Hget. destruct Hget as (d & Hd & Hget).
  rewrite Hd in *.
  apply optional_dict_checked in Hin.
  apply bind_return in H. destruct H as (inputs & Hi & H).
  apply get_default_return in Hi. destruct Hi as (d' & Hd' & ->).
  inversion Hd'; subst d'. clear Hd'.
  apply bind_return in H. destruct H as (dep & Hdep & H).
  apply bind_return in H. destruct H as (resp & Hresp & H).
  inversion H; subst resp code. clear H.
  split; [reflexivity|]. split; [exact Hct|].
  exists d, bp, dep. auto.
Qed.





End TypedRequests.

(** *** The properties of the typed requests on the scenarios *)

Lemma workflows_replacement_keeps_other_fields_witness :
  map fst Scenario.deployment_response0 = map fst Scenario.deployment_dict0
  /\ (forall key, key <> "workflows"%string ->
                  Rest.lookup key Scenario.deployment_response0
                  = option_map Rest.FValue
                      (Rest.lookup key Scenario.deployment_dict0))
  /\ ((Rest.lookup "workflows" Scenario.deployment_dict0 = Some Rest.VNone
       /\ Rest.lookup "workflows" Scenario.deployment_response0
          = Some (Rest.FValue Rest.VNone))
      \/ exists items workflows,
           Rest.lookup "workflows" Scenario.deployment_dict0
           = Some (Rest.VDict items)
           /\ Rest.lookup "workflows" Scenario.deployment_response0
              = Some (Rest.FWorkflows workflows)
           /\ Forall2 (fun w item =>
                         Rest.name w = fst item
                         /\ Rest.created_at w = Rest.VNone
                         /\ exists wf,
                              snd item = Rest.VDict wf
                              /\ Rest.parameters w
                                 = match Rest.lookup "parameters" wf with
                                   | Some p => p
                                   | None => Rest.VDict []
                                   end)
                      workflows items).
Proof.
  apply (workflows_replacement_keeps_other_fields Scenario.deployment_dict0
           Scenario.deployment_response0).
  reflexivity.
Defined.

Lemma workflows_replacement_fails_on_malformed_workflows_witness :
  (Rest.lookup "workflows" Scenario.deployment_dict_malformed = None
   /\ Rest.AttributeError "list" "iteritems" = Rest.KeyError "workflows")
  \/ (exists w,
        Rest.lookup "workflows" Scenario.deployment_dict_malformed = Some w
        /\ Rest.isinstance w Rest.TDict = false /\ w <> Rest.VNone
        /\ Rest.AttributeError "list" "iteritems"
           = Rest.AttributeError (Rest.type_name w) "iteritems")
  \/ (exists items wf_name wf,
        Rest.lookup "workflows" Scenario.deployment_dict_malformed
        = Some (Rest.VDict items)
        /\ In (wf_name, wf) items
        /\ Rest.isinstance wf Rest.TDict = false
        /\ Rest.AttributeError "list" "iteritems"
           = Rest.AttributeError (Rest.type_name wf) "get").
Proof.
  apply (workflows_replacement_fails_on_malformed_workflows
           Scenario.deployment_dict_malformed
           (Rest.AttributeError "list" "iteritems")).
  reflexivity.
Defined.

Lemma deployment_created_only_for_valid_request_witness :
  201 = 201
  /\ Rest.content_type Scenario.json_deploy = Some "application/json"%string
  /\ exists d blueprint_id deployment,
       Rest.json Scenario.json_deploy = Rest.VDict d
       /\ Rest.lookup "blueprint_id" d = Some blueprint_id
       /\ (Rest.lookup "inputs" d = None
           \/ exists inputs, Rest.lookup "inputs" d = Some (Rest.VDict inputs))
       /\ Rest.create_deployment Scenario.mgr0 blueprint_id "dep1"
            (match Rest.lookup "inputs" d with
             | Some v => v
             | None => Rest.VDict []
             end) = Rest.Return deployment
       /\ Rest._replace_workflows_field_for_deployment_response deployment
          = Rest.Return
              [("id"%string, Rest.FValue (Rest.VUnicode "dep1"));
               ("blueprint_id"%string, Rest.FValue (Rest.VUnicode "bp1"));
               ("inputs"%string, Rest.FValue (Rest.VDict []));
               ("workflows"%string,
                Rest.FWorkflows
                  [Rest.mkWorkflow "install" Rest.VNone (Rest.VDict []);
                   Rest.mkWorkflow "scale" Rest.VNone
                     (Rest.VDict [("delta"%string, Rest.VInt 1%Z)])])].
Proof.
  apply (deployment_created_only_for_valid_request Scenario.json_deploy _
           Scenario.mgr0 "dep1"
           [("id"%string, Rest.FValue (Rest.VUnicode "dep1"));
            ("blueprint_id"%string, Rest.FValue (Rest.VUnicode "bp1"));
            ("inputs"%string, Rest.FValue (Rest.VDict []));
            ("workflows"%string,
             Rest.FWorkflows
               [Rest.mkWorkflow "install" Rest.VNone (Rest.VDict []);
                Rest.mkWorkflow "scale" Rest.VNone
                  (Rest.VDict [("delta"%string, Rest.VInt 1%Z)])])]
           201).
  vm_compute. reflexivity.
Defined.




